(** * DORA metrics aggregation: a shallow embedding of
      [scripts/aggregate_dora_metrics.py] and its checked properties.

    The Python functions are rendered as total Rocq functions.  Exceptions are
    explicit ([result]), the files written by the exporter are an explicit
    output list, and the pandas / dateutil / datetime operations the script
    calls are written out for the values the script feeds them.

    Conventions of the model:
    - a loaded JSON document is a [value]: a string or an object (the two
      shapes a metric event is made of); a Python [dict] is an association
      list read with [lookup];
    - time stamps are the ISO-8601 form [YYYY-MM-DDTHH:MM:SS], alone or
      followed by [Z] or [+HH:MM] / [-HH:MM]; any other text is reported as
      [ValueError] here;
    - float64 quantities are exact rationals ([Q]); the one float64 value with
      no rational counterpart that the script can produce, NaN (from [0/0]),
      is a constructor of [float64]. *)

From Stdlib Require Import ZArith List String Ascii Bool Lia QArith Qround Qabs Lqa Permutation.
Import ListNotations.

Local Open Scope string_scope.
Local Open Scope Z_scope.

Set Warnings "-register-all".

(** ** Python values, exceptions, results *)

Inductive value : Type :=
| VStr (s : string)
| VObj (fields : list (string * value)).

(** A [dict] with string keys, as [json.load] builds it. *)
Definition dict := list (string * value).

Inductive exn : Type :=
| KeyError (key : string)
| TypeError
| AttributeError
| ValueError.

Inductive result (A : Type) : Type :=
| Ok (a : A)
| Raise (e : exn).

Arguments Ok {A} a.
Arguments Raise {A} e.

Definition bind {A B : Type} (c : result A) (k : A -> result B) : result B :=
  match c with
  | Ok a => k a
  | Raise e => Raise e
  end.

Notation "x <- c ;; k" := (bind c (fun x => k))
  (at level 61, c at next level, right associativity).

Definition is_ok {A : Type} (c : result A) : bool :=
  match c with Ok _ => true | Raise _ => false end.

(** [for x in xs: out.append(f x)]: the first exception ends the loop. *)
Fixpoint for_each {A B : Type} (f : A -> result B) (xs : list A) : result (list B) :=
  match xs with
  | [] => Ok []
  | x :: xs' =>
      y <- f x ;;
      ys <- for_each f xs' ;;
      Ok (y :: ys)
  end.

(** ** Dictionary access *)

Fixpoint lookup (k : string) (d : dict) : option value :=
  match d with
  | [] => None
  | (k', v) :: d' => if String.eqb k k' then Some v else lookup k d'
  end.

(** [k in d] *)
Definition contains (k : string) (d : dict) : bool :=
  match lookup k d with Some _ => true | None => false end.

(** [d[k]] on a dict. *)
Definition getitem (k : string) (d : dict) : result value :=
  match lookup k d with
  | Some v => Ok v
  | None => Raise (KeyError k)
  end.

(** [v[k]] on a loaded value: subscripting a [str] with a [str] is a
    [TypeError]. *)
Definition subscript (k : string) (v : value) : result value :=
  match v with
  | VObj d => getitem k d
  | VStr _ => Raise TypeError
  end.

(** [v.get(k, default)]: a [str] has no [get]. *)
Definition get_default (k : string) (default : value) (v : value) : result value :=
  match v with
  | VObj d => Ok (match lookup k d with Some x => x | None => default end)
  | VStr _ => Raise AttributeError
  end.

(** ** Calendar arithmetic (CPython [datetime]) *)

Record datetime : Type := mkDatetime {
  year : Z; month : Z; day : Z;
  hour : Z; minute : Z; second : Z;
  utcoffset : option Z   (* seconds east of UTC; [None] for a naive value *)
}.

Record date : Type := mkDate { d_year : Z; d_month : Z; d_day : Z }.

Definition is_leap (y : Z) : bool :=
  (y mod 4 =? 0) && (negb (y mod 100 =? 0) || (y mod 400 =? 0)).

Definition days_in_month (y m : Z) : Z :=
  if m =? 2 then (if is_leap y then 29 else 28)
  else if (m =? 4) || (m =? 6) || (m =? 9) || (m =? 11) then 30
  else 31.

(** Days before January 1st of year [y]. *)
Definition days_before_year (y : Z) : Z :=
  let p := y - 1 in p * 365 + p / 4 - p / 100 + p / 400.

Definition days_before_month_common (m : Z) : Z :=
  match m with
  | 1 => 0 | 2 => 31 | 3 => 59 | 4 => 90 | 5 => 120 | 6 => 151
  | 7 => 181 | 8 => 212 | 9 => 243 | 10 => 273 | 11 => 304 | _ => 334
  end.

Definition days_before_month (y m : Z) : Z :=
  days_before_month_common m + (if (2 <? m) && is_leap y then 1 else 0).

(** [date.toordinal()]: 0001-01-01 is day 1. *)
Definition ymd2ord (y m d : Z) : Z :=
  days_before_year y + days_before_month y m + d.

Definition toordinal (d : date) : Z := ymd2ord (d_year d) (d_month d) (d_day d).

(** [date.weekday()]: Monday is 0, Sunday is 6. *)
Definition weekday (d : date) : Z := (toordinal d + 6) mod 7.

Definition valid_ymd (y m d : Z) : bool :=
  (1 <=? y) && (y <=? 9999) && (1 <=? m) && (m <=? 12) &&
  (1 <=? d) && (d <=? days_in_month y m).

(** [_ord2ymd]: the inverse of [ymd2ord]. *)
Definition ord2ymd (n0 : Z) : date :=
  let n := n0 - 1 in
  let n400 := n / 146097 in
  let n := n mod 146097 in
  let n100 := n / 36524 in
  let n := n mod 36524 in
  let n4 := n / 1461 in
  let n := n mod 1461 in
  let n1 := n / 365 in
  let n := n mod 365 in
  let y := n400 * 400 + 1 + n100 * 100 + n4 * 4 + n1 in
  if (n1 =? 4) || (n100 =? 4) then mkDate (y - 1) 12 31
  else
    let leapyear := (n1 =? 3) && (negb (n4 =? 24) || (n100 =? 3)) in
    let m := Z.shiftr (n + 50) 5 in
    let preceding := days_before_month_common m + (if (2 <? m) && leapyear then 1 else 0) in
    if n <? preceding then
      let m' := m - 1 in
      let dim := if (m' =? 2) && leapyear then 29 else days_in_month 1 m' in
      mkDate y m' (n - (preceding - dim) + 1)
    else mkDate y m (n - preceding + 1).

(** Seconds since 0001-01-01T00:00:00 on the value's own clock. *)
Definition wall_seconds (t : datetime) : Z :=
  (ymd2ord (year t) (month t) (day t) - 1) * 86400
  + hour t * 3600 + minute t * 60 + second t.

(** ** Reading a time stamp *)

Definition digit (c : ascii) : option Z :=
  let n := Z.of_N (N_of_ascii c) in
  if (48 <=? n) && (n <=? 57) then Some (n - 48) else None.

Definition digits2 (a b : ascii) : option Z :=
  match digit a, digit b with
  | Some x, Some y => Some (10 * x + y)
  | _, _ => None
  end.

Definition digits4 (a b c d : ascii) : option Z :=
  match digits2 a b, digits2 c d with
  | Some x, Some y => Some (100 * x + y)
  | _, _ => None
  end.

Definition is_char (c : ascii) (x : ascii) : bool := Ascii.eqb c x.

(** The zone suffix: nothing, [Z], or a signed [HH:MM]. *)
Definition parse_zone (cs : list ascii) : option (option Z) :=
  match cs with
  | [] => Some None
  | [z] => if is_char z "Z" then Some (Some 0) else None
  | [sg; h1; h2; c; m1; m2] =>
      match digits2 h1 h2, digits2 m1 m2 with
      | Some h, Some m =>
          if is_char c ":" && (h <? 24) && (m <? 60) then
            if is_char sg "+" then Some (Some (h * 3600 + m * 60))
            else if is_char sg "-" then Some (Some (- (h * 3600 + m * 60)))
            else None
          else None
      | _, _ => None
      end
  | _ => None
  end.

(** [THH:MM:SS] and the zone suffix. *)
Definition parse_clock (cs : list ascii) : option (Z * Z * Z * option Z) :=
  match cs with
  | sep :: h1 :: h2 :: c1 :: m1 :: m2 :: c2 :: s1 :: s2 :: zone =>
      match digits2 h1 h2, digits2 m1 m2, digits2 s1 s2, parse_zone zone with
      | Some h, Some m, Some s, Some off =>
          if is_char sep "T" && is_char c1 ":" && is_char c2 ":"
             && (h <? 24) && (m <? 60) && (s <? 60)
          then Some (h, m, s, off) else None
      | _, _, _, _ => None
      end
  | _ => None
  end.

Definition parse_iso (s : string) : option datetime :=
  match list_ascii_of_string s with
  | y1 :: y2 :: y3 :: y4 :: c1 :: m1 :: m2 :: c2 :: d1 :: d2 :: rest =>
      match digits4 y1 y2 y3 y4, digits2 m1 m2, digits2 d1 d2, parse_clock rest with
      | Some y, Some m, Some d, Some (hh, mi, ss, off) =>
          if is_char c1 "-" && is_char c2 "-" && valid_ymd y m d
          then Some (mkDatetime y m d hh mi ss off) else None
      | _, _, _, _ => None
      end
  | _ => None
  end.

(** [dateutil.parser.parse(v)] *)
Definition parser_parse (v : value) : result datetime :=
  match v with
  | VStr s => match parse_iso s with Some t => Ok t | None => Raise ValueError end
  | VObj _ => Raise TypeError
  end.

(** Days from 0001-01-01 to 1970-01-01, as an ordinal. *)
Definition ORD_OFFSET : Z := 719163.

(** Nanoseconds since the Unix epoch, in UTC when the value has an offset. *)
Definition epoch_ns (t : datetime) : Z :=
  (wall_seconds t - (ORD_OFFSET - 1) * 86400
   - match utcoffset t with Some o => o | None => 0 end) * 1000000000.

(** One cell of [pd.to_datetime]: the value must fit a signed 64-bit count of
    nanoseconds. *)
Definition to_datetime (v : value) : result datetime :=
  t <- parser_parse v ;;
  if (- 2 ^ 63 <? epoch_ns t) && (epoch_ns t <? 2 ^ 63) then Ok t
  else Raise ValueError.

(** [.dt.date]: the stated civil date, no zone conversion. *)
Definition dt_date (t : datetime) : date := mkDate (year t) (month t) (day t).

(** [a - b] followed by [.total_seconds()]; mixing a naive and an aware value
    is a [TypeError]. *)
Definition sub_total_seconds (a b : datetime) : result Z :=
  match utcoffset a, utcoffset b with
  | None, None => Ok (wall_seconds a - wall_seconds b)
  | Some oa, Some ob => Ok ((wall_seconds a - oa) - (wall_seconds b - ob))
  | _, _ => Raise TypeError
  end.

(** ** Period buckets (pandas [Period] ordinals and their labels) *)

Definition WEEK_OFFSET : Z := 102737.

Definition unix_date (d : date) : Z := toordinal d - ORD_OFFSET.

(** The weekly period (weeks end on Sunday) that holds day [d], as pandas
    numbers it. *)
Definition period_W (d : date) : Z :=
  (unix_date d + ORD_OFFSET - 1) / 7 + 1 - WEEK_OFFSET.

(** The monthly period that holds day [d]. *)
Definition period_M (d : date) : Z := (d_year d - 1970) * 12 + d_month d - 1.

(** [.dt.to_period('W')] and [.dt.to_period('M')]: taken from the stated
    date, like [.dt.date]. *)
Definition to_period_W (t : datetime) : Z := period_W (dt_date t).
Definition to_period_M (t : datetime) : Z := period_M (dt_date t).

Definition digit_char (n : Z) : ascii := ascii_of_N (Z.to_N (48 + n)).

Definition pad2 (n : Z) : string :=
  String (digit_char (n / 10 mod 10)) (String (digit_char (n mod 10)) EmptyString).

Definition pad4 (n : Z) : string := (pad2 (n / 100) ++ pad2 n)%string.

Definition date_str (d : date) : string :=
  (pad4 (d_year d) ++ "-" ++ pad2 (d_month d) ++ "-" ++ pad2 (d_day d))%string.

(** First day (a Monday) of weekly period [p], as a [toordinal] number. *)
Definition week_start_ordinal (p : Z) : Z := 7 * (p - 1 + WEEK_OFFSET) + 1.

(** [str] of a weekly period: [start/end]. *)
Definition week_str (p : Z) : string :=
  (date_str (ord2ymd (week_start_ordinal p)) ++ "/"
   ++ date_str (ord2ymd (week_start_ordinal p + 6)))%string.

(** [str] of a monthly period: [YYYY-MM]. *)
Definition month_str (p : Z) : string :=
  (pad4 (1970 + p / 12) ++ "-" ++ pad2 (p mod 12 + 1))%string.

(** ** Grouping *)

Section GroupBy.
Context {K : Type}.
Variable key_eqb : K -> K -> bool.
Variable key_leb : K -> K -> bool.

Fixpoint insert_key (k : K) (l : list K) : list K :=
  match l with
  | [] => [k]
  | x :: l' => if key_leb k x then k :: l else x :: insert_key k l'
  end.

Fixpoint sort_keys (l : list K) : list K :=
  match l with
  | [] => []
  | k :: l' => insert_key k (sort_keys l')
  end.

(** One occurrence of each key. *)
Fixpoint distinct (l : list K) : list K :=
  match l with
  | [] => []
  | k :: l' => if existsb (key_eqb k) l' then distinct l' else k :: distinct l'
  end.

(** The group labels of a [groupby]: the distinct keys, sorted. *)
Definition group_keys (keys : list K) : list K := sort_keys (distinct keys).

Definition count_key (k : K) (keys : list K) : Z :=
  Z.of_nat (List.length (filter (key_eqb k) keys)).

(** [groupby(...).size()] over the key column. *)
Definition groupby_size (keys : list K) : list (K * Z) :=
  map (fun k => (k, count_key k keys)) (group_keys keys).

(** The rows of one group, in frame order. *)
Definition group_rows {R : Type} (key : R -> K) (k : K) (rows : list R) : list R :=
  filter (fun r => key_eqb k (key r)) rows.
End GroupBy.

Definition date_eqb (a b : date) : bool :=
  (d_year a =? d_year b) && (d_month a =? d_month b) && (d_day a =? d_day b).

Definition date_leb (a b : date) : bool :=
  if d_year a =? d_year b then
    if d_month a =? d_month b then d_day a <=? d_day b
    else d_month a <? d_month b
  else d_year a <? d_year b.

Definition pair_eqb {A B : Type} (ea : A -> A -> bool) (eb : B -> B -> bool)
  (x y : A * B) : bool :=
  ea (fst x) (fst y) && eb (snd x) (snd y).

(** Lexicographic order on a two-level key. *)
Definition pair_leb {A B : Type} (ea : A -> A -> bool) (la : A -> A -> bool)
  (lb : B -> B -> bool) (x y : A * B) : bool :=
  if ea (fst x) (fst y) then lb (snd x) (snd y) else la (fst x) (fst y).

Definition day_key_eqb := pair_eqb date_eqb String.eqb.
Definition day_key_leb := pair_leb date_eqb date_leb String.leb.
Definition period_key_eqb := pair_eqb Z.eqb String.eqb.
Definition period_key_leb := pair_leb Z.eqb Z.leb String.leb.

(** A grouping column must be hashable: a [dict] cell is a [TypeError]. *)
Definition hashable (v : value) : result string :=
  match v with
  | VStr s => Ok s
  | VObj _ => Raise TypeError
  end.

(** What an aggregation function hands back: [pd.DataFrame()] when there is
    no row, a [dict] of tables otherwise. *)
Inductive aggregate (T : Type) : Type :=
| EmptyFrame
| Tables (t : T).

Arguments EmptyFrame {T}.
Arguments Tables {T} t.

(** ** Deployment frequency *)

Record deployment : Type := mkDeployment {
  dep_timestamp : value;
  dep_service : value;
  dep_deployment_id : value;
  dep_branch : value;
  dep_commit_sha : value
}.

Definition deployment_row (metric : dict) : result deployment :=
  ts <- getitem "timestamp" metric ;;
  svc <- getitem "service" metric ;;
  payload <- getitem "deployment_frequency" metric ;;
  did <- subscript "deployment_id" payload ;;
  branch <- get_default "branch" (VStr "unknown") payload ;;
  sha <- get_default "commit_sha" (VStr "") payload ;;
  Ok (mkDeployment ts svc did branch sha).

(** The extraction loop shared by the three metrics:
    [for metric in metrics: if key in metric: rows.append(row(metric))]. *)
Fixpoint extract {A : Type} (key : string) (row : dict -> result A)
  (metrics : list dict) : result (list A) :=
  match metrics with
  | [] => Ok []
  | metric :: rest =>
      if contains key metric then
        r <- row metric ;;
        rs <- extract key row rest ;;
        Ok (r :: rs)
      else extract key row rest
  end.

(** A frame row once its [timestamp] cell is parsed. *)
Record stamped (A : Type) : Type := mkStamped {
  st_row : A;
  st_time : datetime
}.

Arguments mkStamped {A} _ _.
Arguments st_row {A} _.
Arguments st_time {A} _.

Definition stamp {A : Type} (timestamp : A -> value) (r : A) : result (stamped A) :=
  t <- to_datetime (timestamp r) ;;
  Ok (mkStamped r t).

Definition zone_eqb (a b : option Z) : bool :=
  match a, b with
  | None, None => true
  | Some x, Some y => x =? y
  | _, _ => false
  end.

(** All values are naive, or all carry the same offset. *)
Definition same_zone (ts : list datetime) : bool :=
  match ts with
  | [] => true
  | t :: rest => forallb (fun u => zone_eqb (utcoffset t) (utcoffset u)) rest
  end.

(** [pd.to_datetime(df['timestamp'])] on the column: every cell is parsed,
    and a column that mixes zones (naive with aware, or two offsets) is not
    turned into a datetime column: an exception ends the call. *)
Definition stamp_frame {A : Type} (timestamp : A -> value) (rows : list A)
  : result (list (stamped A)) :=
  df <- for_each (stamp timestamp) rows ;;
  if same_zone (map st_time df) then Ok df else Raise ValueError.

(** The grouping key of a row: (period of the time stamp, service). *)
Definition bucket {A P : Type} (service : A -> value) (period : datetime -> P)
  (r : stamped A) : result (P * string) :=
  s <- hashable (service (st_row r)) ;;
  Ok (period (st_time r), s).

Record deployment_tables : Type := mkDeploymentTables {
  dep_daily : list (date * string * Z);
  dep_weekly : list (string * string * Z);
  dep_monthly : list (string * string * Z);
  dep_raw : list (stamped deployment)
}.

(** [table[col] = table[col].astype(str)] on the period column. *)
Definition label_period (str : Z -> string) (row : Z * string * Z) : string * string * Z :=
  let '(p, s, c) := row in (str p, s, c).

Definition calculate_deployment_frequency (metrics : list dict)
  : result (aggregate deployment_tables) :=
  deployments <- extract "deployment_frequency" deployment_row metrics ;;
  match deployments with
  | [] => Ok EmptyFrame
  | _ =>
      df <- stamp_frame dep_timestamp deployments ;;
      days <- for_each (bucket dep_service dt_date) df ;;
      let daily_freq := groupby_size day_key_eqb day_key_leb days in
      weeks <- for_each (bucket dep_service to_period_W) df ;;
      let weekly_freq := groupby_size period_key_eqb period_key_leb weeks in
      months <- for_each (bucket dep_service to_period_M) df ;;
      let monthly_freq := groupby_size period_key_eqb period_key_leb months in
      Ok (Tables (mkDeploymentTables daily_freq
                    (map (label_period week_str) weekly_freq)
                    (map (label_period month_str) monthly_freq)
                    df))
  end.

(** ** Lead time for changes *)

Record lead_time : Type := mkLeadTime {
  lt_timestamp : value;
  lt_service : value;
  lt_commit_sha : value;
  lt_commit_timestamp : datetime;
  lt_deploy_timestamp : datetime;
  lead_time_seconds : Q;
  lead_time_minutes : Q;
  lead_time_hours : Q
}.

(** One lead-time row, fields read in the order of the source.  The stamps
    have whole seconds, so [lead_time_seconds] is exact in binary64 too;
    minutes and hours are its exact quotients. *)
Definition lead_time_row (metric : dict) : result lead_time :=
  lt <- getitem "lead_time_for_changes" metric ;;
  c <- subscript "commit_timestamp" lt ;;
  commit_time <- parser_parse c ;;
  d <- subscript "deploy_timestamp" lt ;;
  deploy_time <- parser_parse d ;;
  secs <- sub_total_seconds deploy_time commit_time ;;
  ts <- getitem "timestamp" metric ;;
  svc <- getitem "service" metric ;;
  sha <- get_default "commit_sha" (VStr "") lt ;;
  Ok (mkLeadTime ts svc sha commit_time deploy_time
        (inject_Z secs)
        (Qred (inject_Z secs / 60))
        (Qred (inject_Z secs / 3600))).

(** Column statistics over the values of one group.  The mean is the exact
    quotient of the exact sum, the median of an even number of values the
    exact half sum; the code gets both in binary64. *)
Definition q_sum (vs : list Q) : Q := fold_right Qplus 0%Q vs.

Definition q_mean (vs : list Q) : Q :=
  Qred (q_sum vs / inject_Z (Z.of_nat (List.length vs))).

Definition q_min (vs : list Q) : Q :=
  match vs with
  | [] => 0%Q
  | v :: rest => fold_left (fun m x => if Qle_bool m x then m else x) rest v
  end.

Definition q_max (vs : list Q) : Q :=
  match vs with
  | [] => 0%Q
  | v :: rest => fold_left (fun m x => if Qle_bool x m then m else x) rest v
  end.

Definition q_median (vs : list Q) : Q :=
  let sorted := sort_keys Qle_bool vs in
  let n := List.length sorted in
  if Nat.even n then
    Qred ((nth (n / 2 - 1) sorted 0%Q + nth (n / 2) sorted 0%Q) / 2)
  else nth (n / 2) sorted 0%Q.

Record lead_time_daily : Type := mkLeadTimeDaily {
  ltd_date : date;
  ltd_service : string;
  avg_lead_time_hours : Q;
  median_lead_time_hours : Q;
  min_lead_time_hours : Q;
  max_lead_time_hours : Q
}.

Record lead_time_tables : Type := mkLeadTimeTables {
  lt_daily_average : list lead_time_daily;
  lt_raw : list (stamped lead_time)
}.

(** Pair every row with its grouping key. *)
Definition keyed {A P : Type} (service : A -> value) (period : datetime -> P)
  (r : stamped A) : result ((P * string) * stamped A) :=
  k <- bucket service period r ;;
  Ok (k, r).

(** The [lead_time_hours] cells of the rows grouped under [k]. *)
Definition bucket_hours (k : date * string)
  (rows : list ((date * string) * stamped lead_time)) : list Q :=
  map (fun kr => lead_time_hours (st_row (snd kr)))
      (group_rows day_key_eqb fst k rows).

Definition lead_time_agg (rows : list ((date * string) * stamped lead_time))
  (k : date * string) : lead_time_daily :=
  let hours := bucket_hours k rows in
  mkLeadTimeDaily (fst k) (snd k)
    (q_mean hours) (q_median hours) (q_min hours) (q_max hours).

Definition calculate_lead_time (metrics : list dict)
  : result (aggregate lead_time_tables) :=
  lead_times <- extract "lead_time_for_changes" lead_time_row metrics ;;
  match lead_times with
  | [] => Ok EmptyFrame
  | _ =>
      df <- stamp_frame lt_timestamp lead_times ;;
      rows <- for_each (keyed lt_service dt_date) df ;;
      let daily_avg :=
        map (lead_time_agg rows) (group_keys day_key_eqb day_key_leb (map fst rows)) in
      Ok (Tables (mkLeadTimeTables daily_avg df))
  end.

(** ** Change failure rate *)

(** A float64 cell.  A number is held by its exact value and the arithmetic
    below is exact arithmetic on it: each binary64 operation of the code is
    off its exact result by a relative [2^-53] at most, which the statements
    about these cells allow for (a rate may fall on either hundredth next to
    a rounding tie; a mean is the exact one within rounding). *)
Inductive float64 : Type :=
| NaN
| Inf (negative : bool)
| Num (q : Q).

(** [a / b] on two integer columns: no exception, [0/0] is NaN; the
    quotient, exact. *)
Definition truediv (a b : Z) : float64 :=
  if b =? 0 then (if a =? 0 then NaN else Inf (a <? 0))
  else Num (Qred (inject_Z a / inject_Z b)).

(** [x * 100], exact. *)
Definition times100 (x : float64) : float64 :=
  match x with
  | Num q => Num (Qred (q * 100))
  | other => other
  end.

(** Nearest integer, ties to even. *)
Definition rint (q : Q) : Z :=
  let f := Qfloor q in
  match Qcompare (q - inject_Z f) (1 # 2) with
  | Lt => f
  | Gt => f + 1
  | Eq => if Z.even f then f else f + 1
  end.

(** [.round(2)]: numpy takes [rint(x * 100) / 100]; here on the exact
    value, so that a value that is exactly half-way between two hundredths
    goes to the even one, where the code, whose [x] carries the rounding of
    the operations before, may go to either. *)
Definition round2 (x : float64) : float64 :=
  match x with
  | Num q => Num (Qred (inject_Z (rint (q * 100)) / 100))
  | other => other
  end.

Inductive cell : Type :=
| CInt (n : Z)
| CFloat (x : float64).

Definition columns := list (string * cell).

Fixpoint col (name : string) (cs : columns) : option cell :=
  match cs with
  | [] => None
  | (n, c) :: cs' => if String.eqb name n then Some c else col name cs'
  end.

Definition has_col (name : string) (cs : columns) : bool :=
  match col name cs with Some _ => true | None => false end.

(** [row[name] = c]: overwrite the column, or add it on the right. *)
Fixpoint set_col (name : string) (c : cell) (cs : columns) : columns :=
  match cs with
  | [] => [(name, c)]
  | (n, x) :: cs' =>
      if String.eqb name n then (n, c) :: cs' else (n, x) :: set_col name c cs'
  end.

(** An integer count column read back. *)
Definition int_col (name : string) (cs : columns) : Z :=
  match col name cs with
  | Some (CInt n) => n
  | _ => 0
  end.

Record change : Type := mkChange {
  ch_timestamp : value;
  ch_service : value;
  ch_status : value;
  ch_workflow_run_id : value;
  ch_commit_sha : value
}.

Definition change_row (metric : dict) : result change :=
  cfr <- getitem "change_failure_rate" metric ;;
  ts <- getitem "timestamp" metric ;;
  svc <- getitem "service" metric ;;
  status <- subscript "status" cfr ;;
  run <- get_default "workflow_run_id" (VStr "") cfr ;;
  sha <- get_default "commit_sha" (VStr "") cfr ;;
  Ok (mkChange ts svc status run sha).

Record cfr_row (P : Type) : Type := mkCfrRow {
  cfr_period : P;
  cfr_service : string;
  cfr_cells : columns
}.

Arguments mkCfrRow {P} _ _ _.
Arguments cfr_period {P} _.
Arguments cfr_service {P} _.
Arguments cfr_cells {P} _.

(** The key of a three-level grouping: (period, service) and status. *)
Definition bucket_status {P : Type} (period : datetime -> P) (r : stamped change)
  : result ((P * string) * string) :=
  k <- bucket ch_service period r ;;
  st <- hashable (ch_status (st_row r)) ;;
  Ok (k, st).

Section Unstack.
Context {P : Type}.
Variable key_eqb : P * string -> P * string -> bool.
Variable key_leb : P * string -> P * string -> bool.

Definition group_status_eqb (x y : (P * string) * string) : bool :=
  key_eqb (fst x) (fst y) && String.eqb (snd x) (snd y).

(** [groupby([period, 'service', 'status']).size().unstack(fill_value=0)]:
    one row per (period, service) present, one column per status present. *)
Definition unstack_sizes (keys : list ((P * string) * string))
  : list ((P * string) * columns) :=
  let statuses := group_keys String.eqb String.leb (map snd keys) in
  map (fun k =>
         (k, map (fun st => (st, CInt (count_key group_status_eqb (k, st) keys)))
                 statuses))
      (group_keys key_eqb key_leb (map fst keys)).

(** The guarded zero-fill of a missing status column. *)
Definition ensure_col (name : string) (cs : columns) : columns :=
  if has_col name cs then cs else set_col name (CInt 0) cs.

Definition with_rates (with_success_rate : bool) (cs : columns) : columns :=
  let cs := ensure_col "success" cs in
  let cs := ensure_col "failure" cs in
  let total := int_col "success" cs + int_col "failure" cs in
  let cs := set_col "total_changes" (CInt total) cs in
  let cs := set_col "failure_rate"
              (CFloat (round2 (times100 (truediv (int_col "failure" cs)
                                                 (int_col "total_changes" cs))))) cs in
  if with_success_rate then
    set_col "success_rate"
      (CFloat (round2 (times100 (truediv (int_col "success" cs)
                                         (int_col "total_changes" cs))))) cs
  else cs.

(** [reset_index()] cannot insert an index level whose name is already a
    column. *)
Definition reset_index (level : string) (rows : list ((P * string) * columns))
  : result (list (cfr_row P)) :=
  for_each (fun kc : (P * string) * columns =>
              if has_col "service" (snd kc) || has_col level (snd kc)
              then Raise ValueError
              else Ok (mkCfrRow (fst (fst kc)) (snd (fst kc)) (snd kc)))
           rows.

Definition failure_table (with_success_rate : bool) (level : string)
  (keys : list ((P * string) * string)) : result (list (cfr_row P)) :=
  reset_index level
    (map (fun kc => (fst kc, with_rates with_success_rate (snd kc)))
         (unstack_sizes keys)).
End Unstack.

Record change_tables : Type := mkChangeTables {
  cfr_daily : list (cfr_row date);
  cfr_weekly : list (cfr_row string);
  cfr_raw : list (stamped change)
}.

Definition label_week (r : cfr_row Z) : cfr_row string :=
  mkCfrRow (week_str (cfr_period r)) (cfr_service r) (cfr_cells r).

Definition calculate_change_failure_rate (metrics : list dict)
  : result (aggregate change_tables) :=
  changes <- extract "change_failure_rate" change_row metrics ;;
  match changes with
  | [] => Ok EmptyFrame
  | _ =>
      df <- stamp_frame ch_timestamp changes ;;
      days <- for_each (bucket_status dt_date) df ;;
      daily_cfr <- failure_table day_key_eqb day_key_leb true "date" days ;;
      weeks <- for_each (bucket_status to_period_W) df ;;
      weekly_cfr <- failure_table period_key_eqb period_key_leb false "week" weeks ;;
      Ok (Tables (mkChangeTables daily_cfr (map label_week weekly_cfr) df))
  end.

(** ** Ingestion *)

Definition endswith (s suffix : string) : bool :=
  let n := String.length s in
  let m := String.length suffix in
  (m <=? n)%nat && String.eqb (substring (n - m) m s) suffix.

(** The raw directory: absent, or its files in walk order.  A file's content
    is the object [json.load] returns, or [None] when reading it fails. *)
Definition directory := option (list (string * option dict)).

Fixpoint load_files (files : list (string * option dict)) : list dict :=
  match files with
  | [] => []
  | (name, content) :: rest =>
      if endswith name ".json" then
        match content with
        | Some data => data :: load_files rest
        | None => load_files rest
        end
      else load_files rest
  end.

Definition load_metrics (raw_dir : directory) : list dict :=
  match raw_dir with
  | None => []
  | Some files => load_files files
  end.

(** ** Export *)

Record summary : Type := mkSummary {
  generated_at : string;
  total_metrics : Z;
  date_range_start : value;
  date_range_end : value
}.

Inductive content : Type :=
| DeploymentDaily (rows : list (date * string * Z))
| DeploymentByPeriod (rows : list (string * string * Z))
| LeadTimeDaily (rows : list lead_time_daily)
| LeadTimeRaw (rows : list (stamped lead_time))
| ChangeFailureDaily (rows : list (cfr_row date))
| ChangeFailureWeekly (rows : list (cfr_row string))
| SummaryDocument (s : summary).

Definition file := (string * content)%type.

(** Computations that write files and may raise: the files written so far
    survive an exception. *)
Definition io (A : Type) : Type := list file -> result A * list file.

Definition io_ret {A : Type} (a : A) : io A := fun fs => (Ok a, fs).

Definition io_bind {A B : Type} (c : io A) (k : A -> io B) : io B :=
  fun fs =>
    match c fs with
    | (Ok a, fs') => k a fs'
    | (Raise e, fs') => (Raise e, fs')
    end.

Definition lift {A : Type} (r : result A) : io A := fun fs => (r, fs).

Definition write (path : string) (c : content) : io unit :=
  fun fs => (Ok tt, (fs ++ [(path, c)])%list).

Notation "x <~ c ;; k" := (io_bind c (fun x => k))
  (at level 61, c at next level, right associativity).
Notation "c ;;; k" := (io_bind c (fun _ => k))
  (at level 61, right associativity).

(** [bool(x)] of an aggregation result: a non-empty [dict] is true, and the
    truth value of a [DataFrame], empty or not, is a [ValueError]. *)
Definition truth {T : Type} (a : aggregate T) : result bool :=
  match a with
  | EmptyFrame => Raise ValueError
  | Tables _ => Ok true
  end.

Definition is_empty {A : Type} (rows : list A) : bool :=
  match rows with [] => true | _ => false end.

Definition powerbi (name timestamp : string) : string :=
  ("metrics/powerbi/" ++ name ++ "_" ++ timestamp ++ ".csv")%string.

Definition export_deployment_frequency (timestamp : string)
  (deployment_freq : aggregate deployment_tables) : io unit :=
  b <~ lift (truth deployment_freq) ;;
  match deployment_freq with
  | Tables t =>
      if b && negb (is_empty (dep_daily t)) then
        write (powerbi "deployment_frequency_daily" timestamp)
              (DeploymentDaily (dep_daily t)) ;;;
        write (powerbi "deployment_frequency_weekly" timestamp)
              (DeploymentByPeriod (dep_weekly t)) ;;;
        write (powerbi "deployment_frequency_monthly" timestamp)
              (DeploymentByPeriod (dep_monthly t))
      else io_ret tt
  | EmptyFrame => io_ret tt
  end.

Definition export_lead_time (timestamp : string)
  (lead_time : aggregate lead_time_tables) : io unit :=
  b <~ lift (truth lead_time) ;;
  match lead_time with
  | Tables t =>
      if b && negb (is_empty (lt_daily_average t)) then
        write (powerbi "lead_time_daily" timestamp)
              (LeadTimeDaily (lt_daily_average t)) ;;;
        write (powerbi "lead_time_raw" timestamp) (LeadTimeRaw (lt_raw t))
      else io_ret tt
  | EmptyFrame => io_ret tt
  end.

Definition export_change_failure_rate (timestamp : string)
  (change_failure_rate : aggregate change_tables) : io unit :=
  b <~ lift (truth change_failure_rate) ;;
  match change_failure_rate with
  | Tables t =>
      if b && negb (is_empty (cfr_daily t)) then
        write (powerbi "change_failure_rate_daily" timestamp)
              (ChangeFailureDaily (cfr_daily t)) ;;;
        write (powerbi "change_failure_rate_weekly" timestamp)
              (ChangeFailureWeekly (cfr_weekly t))
      else io_ret tt
  | EmptyFrame => io_ret tt
  end.

(** [a < b] on loaded values: text compares code point by code point, an
    object is not ordered. *)
Definition py_lt (a b : value) : result bool :=
  match a, b with
  | VStr x, VStr y => Ok (String.ltb x y)
  | _, _ => Raise TypeError
  end.

(** The loop of the built-in [min]: keep the first smallest item. *)
Fixpoint min_loop (best : value) (items : list value) : result value :=
  match items with
  | [] => Ok best
  | x :: rest =>
      b <- py_lt x best ;;
      min_loop (if b then x else best) rest
  end.

(** The loop of the built-in [max]: [x > best] is [best < x] on text. *)
Fixpoint max_loop (best : value) (items : list value) : result value :=
  match items with
  | [] => Ok best
  | x :: rest =>
      b <- py_lt best x ;;
      max_loop (if b then x else best) rest
  end.

Definition py_min (items : list value) : result value :=
  match items with
  | [] => Raise ValueError
  | x :: rest => min_loop x rest
  end.

Definition py_max (items : list value) : result value :=
  match items with
  | [] => Raise ValueError
  | x :: rest => max_loop x rest
  end.

(** The [summary] dict; [now] is [datetime.now().isoformat()]. *)
Definition make_summary (now : string) (metrics : list dict) : result summary :=
  starts <- for_each (getitem "timestamp") metrics ;;
  start <- py_min starts ;;
  ends <- for_each (getitem "timestamp") metrics ;;
  stop <- py_max ends ;;
  Ok (mkSummary now (Z.of_nat (List.length metrics)) start stop).

(** [generate_powerbi_export()]: [timestamp] is today's [%Y%m%d] stamp.  The
    result is [None] after the early return, the summary after a full run. *)
Definition generate_powerbi_export (raw_dir : directory) (timestamp now : string)
  : io (option summary) :=
  let metrics := load_metrics raw_dir in
  match metrics with
  | [] => io_ret None
  | _ =>
      deployment_freq <~ lift (calculate_deployment_frequency metrics) ;;
      lead_time <~ lift (calculate_lead_time metrics) ;;
      change_failure_rate <~ lift (calculate_change_failure_rate metrics) ;;
      export_deployment_frequency timestamp deployment_freq ;;;
      export_lead_time timestamp lead_time ;;;
      export_change_failure_rate timestamp change_failure_rate ;;;
      s <~ lift (make_summary now metrics) ;;
      write ("metrics/aggregated/summary_" ++ timestamp ++ ".json")%string
            (SummaryDocument s) ;;;
      io_ret (Some s)
  end.

(** * Properties *)

(** ** Vocabulary of the statements *)

(** A metric event as the pipelines emit it. *)
Definition event (timestamp service kind : string) (payload : dict) : dict :=
  [("timestamp", VStr timestamp); ("service", VStr service); (kind, VObj payload)].

(** The record carries payload [key] as an object without [field]. *)
Definition lacks (key field : string) (metric : dict) : bool :=
  match lookup key metric with
  | Some (VObj payload) => negb (contains field payload)
  | _ => false
  end.

(** A recognized payload with a required field missing. *)
Definition missing_required_field (metric : dict) : bool :=
  lacks "deployment_frequency" "deployment_id" metric
  || lacks "lead_time_for_changes" "commit_timestamp" metric
  || lacks "lead_time_for_changes" "deploy_timestamp" metric
  || lacks "change_failure_rate" "status" metric.

Definition paths (out : list file) : list string := map fst out.

(** The reads of a deployment or change-outcome row come in the order
    [timestamp], [service], the payload's required [field]: the exception is
    the [KeyError] of the first of them that is missing. *)
Definition first_missing (field : string) (metric : dict) : exn :=
  if negb (contains "timestamp" metric) then KeyError "timestamp"
  else if negb (contains "service" metric) then KeyError "service"
  else KeyError field.

(** ** Sample inputs *)

Definition sample_deployment : dict :=
  event "2024-01-01T09:30:00Z" "A" "deployment_frequency"
    [("deployment_id", VStr "run-101"); ("branch", VStr "main")].

Definition sample_success : dict :=
  event "2024-01-01T10:00:00Z" "A" "change_failure_rate" [("status", VStr "success")].

Definition sample_failure : dict :=
  event "2024-01-01T16:45:00Z" "A" "change_failure_rate" [("status", VStr "failure")].

Definition sample_lead_time : dict :=
  event "2024-01-01T12:00:00Z" "A" "lead_time_for_changes"
    [("commit_timestamp", VStr "2024-01-01T08:00:00Z");
     ("deploy_timestamp", VStr "2024-01-01T11:00:00Z")].

(** A deployment event whose payload has no [deployment_id]. *)
Definition deployment_without_id : dict :=
  event "2024-01-02T09:00:00Z" "A" "deployment_frequency" [("branch", VStr "main")].

(** One event of each metric, every field present. *)
Definition complete_files : list (string * option dict) :=
  [("deploy.json", Some sample_deployment);
   ("lead.json", Some sample_lead_time);
   ("ok.json", Some sample_success);
   ("ko.json", Some sample_failure)].

(** The three events of the end-to-end scenario: no lead-time event. *)
Definition scenario : list dict :=
  [sample_deployment; sample_success; sample_failure].

Definition scenario_files : list (string * option dict) :=
  [("deploy.json", Some sample_deployment);
   ("ok.json", Some sample_success);
   ("ko.json", Some sample_failure)].

(** ** Rates, in the spec's words *)

(** [part / total * 100] *)
Definition exact_rate (part total : Z) : Q :=
  (inject_Z part / inject_Z total * 100)%Q.

(** [q] is [x] rounded to 2 decimal places: a whole number of hundredths, no
    further than half a hundredth from [x]. *)
Definition rounded_to_2dp (x q : Q) : Prop :=
  (exists n : Z, q == inject_Z n / 100)%Q /\ (Qabs (q - x) <= 1 # 200)%Q.

(** [x] lies half-way between two hundredths: a rounding tie. *)
Definition is_tie (x : Q) : Prop :=
  exists k : Z, (x * 100 == inject_Z k + (1 # 2))%Q.

(** Float addition on the cells the tables hold. *)
Definition fadd (x y : float64) : float64 :=
  match x, y with
  | Num a, Num b => Num (Qred (a + b))
  | NaN, _ | _, NaN => NaN
  | Inf a, Inf b => if Bool.eqb a b then Inf a else NaN
  | Inf a, Num _ | Num _, Inf a => Inf a
  end.

(** [x == 100] on a float cell: NaN equals nothing. *)
Definition is_100 (x : float64) : Prop :=
  match x with
  | Num q => (q == 100)%Q
  | _ => False
  end.

(** [x == 0] on a float cell. *)
Definition is_zero (x : float64) : Prop :=
  match x with
  | Num q => (q == 0)%Q
  | _ => False
  end.

Definition float_col (name : string) (cs : columns) : option float64 :=
  match col name cs with
  | Some (CFloat x) => Some x
  | _ => None
  end.

(** Every cell is a count: an integer that is not negative. *)
Definition all_counts (cs : columns) : Prop :=
  forall name c, col name cs = Some c -> exists n, c = CInt n /\ 0 <= n.

(** One change-outcome event with a status that is neither [success] nor
    [failure]. *)
Definition sample_cancelled : dict :=
  event "2024-01-03T10:00:00Z" "A" "change_failure_rate" [("status", VStr "cancelled")].

(** ** Reading the tables back *)

(** The cells of the daily rows of a change-failure result. *)
Definition daily_cells (r : result (aggregate change_tables)) : list columns :=
  match r with
  | Ok (Tables t) => map cfr_cells (cfr_daily t)
  | _ => []
  end.

Definition weekly_cells (r : result (aggregate change_tables)) : list columns :=
  match r with
  | Ok (Tables t) => map cfr_cells (cfr_weekly t)
  | _ => []
  end.

(** The cell holds the text [s]. *)
Definition value_is (s : string) (v : value) : bool :=
  match v with
  | VStr s' => String.eqb s s'
  | VObj _ => false
  end.

(** The rows of the canonical change table that fall on day [d] for service
    [svc] with status exactly [status]. *)
Definition count_status (raw : list (stamped change)) (d : date) (svc status : string) : Z :=
  Z.of_nat (List.length
    (filter (fun r => date_eqb d (dt_date (st_time r))
                      && value_is svc (ch_service (st_row r))
                      && value_is status (ch_status (st_row r))) raw)).

(** [success_rate + failure_rate] of a row. *)
Definition rates_total (cs : columns) : option float64 :=
  match float_col "success_rate" cs, float_col "failure_rate" cs with
  | Some a, Some b => Some (fadd a b)
  | _, _ => None
  end.

(** A success and a failure on one day, a cancelled run two days later. *)
Definition sample_changes : list dict :=
  [sample_success; sample_failure; sample_cancelled].

(** The tables of a populated result. *)
Definition tables_or {T : Type} (default : T) (r : result (aggregate T)) : T :=
  match r with
  | Ok (Tables t) => t
  | _ => default
  end.

Definition sample_change_tables : change_tables :=
  tables_or (mkChangeTables [] [] []) (calculate_change_failure_rate sample_changes).

(** The scenario with the deployment payload reduced to its required field. *)
Definition plain_scenario : list dict :=
  [event "2024-01-01T09:30:00Z" "A" "deployment_frequency"
     [("deployment_id", VStr "run-101")];
   sample_success; sample_failure].

(** ** Cross-checking the deployment tables *)

(** The counts of the rows of a size table whose key satisfies [p]. *)
Definition sum_counts {K : Type} (p : K -> bool) (table : list (K * Z)) : Z :=
  fold_right (fun row acc => if p (fst row) then snd row + acc else acc) 0 table.

(** The number of keys that satisfy [p]. *)
Definition count_if {K : Type} (p : K -> bool) (l : list K) : Z :=
  Z.of_nat (List.length (filter p l)).

(** The sum of [deployment_count] over the daily rows of service [svc] whose
    day lies in weekly period [w]. *)
Definition daily_count_in_week (daily : list (date * string * Z)) (w : Z) (svc : string) : Z :=
  fold_right
    (fun row acc =>
       if period_key_eqb (w, svc) (period_W (fst (fst row)), snd (fst row))
       then snd row + acc else acc)
    0 daily.

(** Five deployments of two services over two weeks. *)
Definition sample_deployments : list dict :=
  [event "2024-01-01T10:00:00Z" "A" "deployment_frequency" [("deployment_id", VStr "1")];
   event "2024-01-03T10:00:00Z" "A" "deployment_frequency" [("deployment_id", VStr "2")];
   event "2023-12-31T10:00:00Z" "A" "deployment_frequency" [("deployment_id", VStr "3")];
   event "2024-01-03T11:00:00Z" "B" "deployment_frequency" [("deployment_id", VStr "4")];
   event "2024-01-03T12:00:00Z" "A" "deployment_frequency" [("deployment_id", VStr "4")]].

Definition sample_deployment_tables : deployment_tables :=
  tables_or (mkDeploymentTables [] [] [] [])
    (calculate_deployment_frequency sample_deployments).

(** ** ISO weeks, in the spec's words *)

(** The Monday that opens week 1 of ISO year [y]: the week that holds the
    year's first Thursday ([_isoweek1monday] of CPython). *)
Definition isoweek1monday (y : Z) : Z :=
  let firstday := ymd2ord y 1 1 in
  let firstweekday := (firstday + 6) mod 7 in
  let week1monday := firstday - firstweekday in
  if 3 <? firstweekday then week1monday + 7 else week1monday.

(** The ISO 8601 week-numbering year and week number of a day
    ([date.isocalendar()] without the day of the week). *)
Definition iso_year_week (d : date) : Z * Z :=
  let y := d_year d in
  let week1monday := isoweek1monday y in
  let today := toordinal d in
  let week := (today - week1monday) / 7 in
  if week <? 0 then (y - 1, (today - isoweek1monday (y - 1)) / 7 + 1)
  else if (52 <=? week) && (isoweek1monday (y + 1) <=? today) then (y + 1, 1)
  else (y, week + 1).

(** Two days fall in the same ISO week: same ISO year, same week number. *)
Definition same_iso_week (d1 d2 : date) : Prop := iso_year_week d1 = iso_year_week d2.

(** The Monday on or before [d], as a [toordinal] number. *)
Definition monday_of (d : date) : Z := toordinal d - weekday d.

(** ** Records with several payloads *)

(** Every record that carries [key] has what [row] reads. *)
Definition extractable {A : Type} (key : string) (row : dict -> result A)
  (metrics : list dict) : Prop :=
  forall m, In m metrics -> contains key m = true -> is_ok (row m) = true.

(** One record with the three payloads. *)
Definition sample_combined : dict :=
  [("timestamp", VStr "2024-01-02T08:00:00Z"); ("service", VStr "B");
   ("deployment_frequency", VObj [("deployment_id", VStr "run-7")]);
   ("lead_time_for_changes",
    VObj [("commit_timestamp", VStr "2024-01-02T06:00:00Z");
          ("deploy_timestamp", VStr "2024-01-02T08:00:00Z")]);
   ("change_failure_rate", VObj [("status", VStr "success")])].

(** A loaded record with no payload and no time stamp. *)
Definition sample_inert : dict := [("service", VStr "A"); ("note", VStr "manual")].

(** One event of each metric and a record with neither payload nor time
    stamp. *)
Definition files_with_inert : list (string * option dict) :=
  (complete_files ++ [("manual.json", Some sample_inert)])%list.

(** ** Lead times, in the spec's words *)

(** The moment a time stamp denotes, in seconds (UTC when it has an
    offset). *)
Definition instant (t : datetime) : Z :=
  wall_seconds t - match utcoffset t with Some o => o | None => 0 end.

Definition earlier (a b : datetime) : Prop := instant a < instant b.

(** The record has what the lead-time pipeline reads: the payload fields
    parse, the event time stamp parses, the service is text. *)
Definition lead_time_ready (metric : dict) : bool :=
  match lead_time_row metric with
  | Ok r => is_ok (to_datetime (lt_timestamp r)) && is_ok (hashable (lt_service r))
  | Raise _ => false
  end.

(** The zone of the record's event time stamp: [Some None] for a naive one,
    [None] when there is no time stamp that parses. *)
Definition event_zone (metric : dict) : option (option Z) :=
  match getitem "timestamp" metric with
  | Ok v => match to_datetime v with
            | Ok t => Some (utcoffset t)
            | Raise _ => None
            end
  | Raise _ => None
  end.

(** The [lead_time_hours] of all rows of the canonical table on day [d] for
    service [svc]. *)
Definition hours_in_bucket (raw : list (stamped lead_time)) (d : date) (svc : string)
  : list Q :=
  map (fun r => lead_time_hours (st_row r))
      (filter (fun r => date_eqb d (dt_date (st_time r))
                        && value_is svc (lt_service (st_row r))) raw).

(** A change deployed, by the clocks, half an hour before its commit. *)
Definition sample_skewed : dict :=
  event "2024-01-01T12:30:00Z" "A" "lead_time_for_changes"
    [("commit_timestamp", VStr "2024-01-01T08:00:00Z");
     ("deploy_timestamp", VStr "2024-01-01T07:30:00Z")].

Definition sample_lead_times : list dict :=
  [sample_lead_time; sample_deployment; sample_skewed].

(** Ascending order: every key is at or below all the keys after it. *)
Fixpoint ascending {K : Type} (key_leb : K -> K -> bool) (l : list K) : bool :=
  match l with
  | [] => true
  | k :: l' => forallb (key_leb k) l' && ascending key_leb l'
  end.

(** ** Canonical rows, in the spec's words *)

(** An optional field of a payload, with its stated default. *)
Definition field_or (field : string) (default : value) (payload : dict) : value :=
  match lookup field payload with
  | Some v => v
  | None => default
  end.

(** The deployment row of an event: its time stamp and service, the
    payload's [deployment_id], [branch] (default [unknown]) and [commit_sha]
    (default empty). *)
Definition canonical_deployment (ts svc : value) (payload : dict) (id : value)
  : deployment :=
  mkDeployment ts svc id
    (field_or "branch" (VStr "unknown") payload)
    (field_or "commit_sha" (VStr "") payload).

(** The change-outcome row of an event: its time stamp and service, the
    payload's [status], [workflow_run_id] and [commit_sha] (default
    empty). *)
Definition canonical_change (ts svc : value) (payload : dict) (status : value)
  : change :=
  mkChange ts svc status
    (field_or "workflow_run_id" (VStr "") payload)
    (field_or "commit_sha" (VStr "") payload).

(** The unit roundoff of binary64, [2^-53]. *)
Definition unit_roundoff : Q := 1 # 9007199254740992.

(** [x] is [y] as one binary64 operation gives it: within the unit roundoff
    of [y], relatively. *)
Definition rounds (y x : Q) : Prop :=
  (Qabs (x - y) <= Qabs y * unit_roundoff)%Q.

(** The lead-time row of an event: its time stamp and service, the payload's
    [commit_sha] (default empty), the two parsed stamps of the payload, the
    seconds from the commit moment to the deploy moment, and those seconds
    in minutes and in hours. *)
Definition canonical_lead_time (ts svc : value) (payload : dict)
  (tc td : datetime) (r : lead_time) : Prop :=
  lt_timestamp r = ts
  /\ lt_service r = svc
  /\ lt_commit_sha r = field_or "commit_sha" (VStr "") payload
  /\ lt_commit_timestamp r = tc
  /\ lt_deploy_timestamp r = td
  /\ lead_time_seconds r = inject_Z (instant td - instant tc)
  /\ rounds (inject_Z (instant td - instant tc) / 60) (lead_time_minutes r)
  /\ rounds (inject_Z (instant td - instant tc) / 3600) (lead_time_hours r).

(** ** Statistics of a bucket, in the spec's words *)

Fixpoint sum_of (vs : list Q) : Q :=
  match vs with
  | [] => 0
  | v :: rest => v + sum_of rest
  end.

(** [m] is the mean of [vs] as binary64 arithmetic gives it: the sum of all
    the values divided by their number, within the rounding of the additions
    and of the division (two unit roundoffs for each value). *)
Definition mean_of (vs : list Q) (m : Q) : Prop :=
  let n := inject_Z (Z.of_nat (List.length vs)) in
  (Qabs (m * n - sum_of vs) <= 2 * n * unit_roundoff * sum_of (map Qabs vs))%Q.

(** [m] is the median of [vs]: with the values in ascending order, the
    middle one; for an even number of values it lies between the two middle
    ones and is their half sum within the rounding of the addition. *)
Definition median_of (vs : list Q) (m : Q) : Prop :=
  exists sorted : list Q,
    Permutation sorted vs
    /\ ascending Qle_bool sorted = true
    /\ let n := List.length vs in
       let lo := nth ((n - 1) / 2) sorted 0%Q in
       let hi := nth (n / 2) sorted 0%Q in
       (lo <= m)%Q /\ (m <= hi)%Q
       /\ (Qabs (2 * m - (lo + hi)) <= 2 * Qabs (lo + hi) * unit_roundoff)%Q.

(** [m] is the least (the greatest) of [vs]. *)
Definition least_of (vs : list Q) (m : Q) : Prop :=
  In m vs /\ forall v, In v vs -> (m <= v)%Q.

Definition greatest_of (vs : list Q) (m : Q) : Prop :=
  In m vs /\ forall v, In v vs -> (v <= m)%Q.

(** ** Vocabulary of the further properties *)

(** The file is taken by [load_metrics]: a [.json] name and a content that
    loads. *)
Definition loads (f : string * option dict) : bool :=
  endswith (fst f) ".json" && match snd f with Some _ => true | None => false end.

(** The file holds the run summary. *)
Definition is_summary (f : file) : bool :=
  match snd f with
  | SummaryDocument _ => true
  | _ => false
  end.

(** The sum of the count column of a table. *)
Definition total_count {K : Type} (table : list (K * Z)) : Z :=
  fold_right (fun row acc => snd row + acc) 0 table.

(** The sum of [deployment_count] over the daily rows of service [svc] whose
    day lies in monthly period [p]. *)
Definition daily_count_in_month (daily : list (date * string * Z)) (p : Z) (svc : string) : Z :=
  sum_counts (fun k : date * string => period_key_eqb (p, svc) (period_M (fst k), snd k))
             daily.

(** The eight files of a run in which every metric has data. *)
Definition full_export_paths (timestamp : string) : list string :=
  [powerbi "deployment_frequency_daily" timestamp;
   powerbi "deployment_frequency_weekly" timestamp;
   powerbi "deployment_frequency_monthly" timestamp;
   powerbi "lead_time_daily" timestamp;
   powerbi "lead_time_raw" timestamp;
   powerbi "change_failure_rate_daily" timestamp;
   powerbi "change_failure_rate_weekly" timestamp;
   ("metrics/aggregated/summary_" ++ timestamp ++ ".json")%string].

(** A directory in which nothing loads: a text file and a broken JSON file. *)
Definition unreadable_files : list (string * option dict) :=
  [("notes.txt", Some sample_deployment); ("broken.json", None)].

(** A lead-time event whose commit stamp is naive and whose deploy stamp
    carries an offset. *)
Definition sample_mixed_clocks : dict :=
  event "2024-01-01T12:00:00Z" "A" "lead_time_for_changes"
    [("commit_timestamp", VStr "2024-01-01T08:00:00");
     ("deploy_timestamp", VStr "2024-01-01T11:00:00+02:00")].

(** The rows of the canonical change table on day [d] for service [svc]. *)
Definition count_bucket (raw : list (stamped change)) (d : date) (svc : string) : Z :=
  Z.of_nat (List.length
    (filter (fun r => date_eqb d (dt_date (st_time r))
                      && value_is svc (ch_service (st_row r))) raw)).

(** Those of them whose status is neither [success] nor [failure]. *)
Definition count_other (raw : list (stamped change)) (d : date) (svc : string) : Z :=
  Z.of_nat (List.length
    (filter (fun r => date_eqb d (dt_date (st_time r))
                      && value_is svc (ch_service (st_row r))
                      && negb (value_is "success" (ch_status (st_row r))
                               || value_is "failure" (ch_status (st_row r)))) raw)).

(** A change named after a column, besides a success: its status is
    [success_rate]. *)
Definition sample_odd_status : list dict :=
  [sample_success;
   event "2024-01-01T11:00:00Z" "A" "change_failure_rate" [("status", VStr "success_rate")]].

Definition sample_odd_status_tables : change_tables :=
  tables_or (mkChangeTables [] [] []) (calculate_change_failure_rate sample_odd_status).

(** The sum of column [name] over the daily change-failure rows of service
    [svc] whose day lies in weekly period [w]. *)
Definition daily_cells_in_week (name : string) (daily : list (cfr_row date))
  (w : Z) (svc : string) : Z :=
  fold_right
    (fun r acc =>
       if period_key_eqb (w, svc) (period_W (cfr_period r), cfr_service r)
       then int_col name (cfr_cells r) + acc else acc)
    0 daily.

(** Changes of one service over two weeks: a success and a failure on a
    Monday, a failure on the Sunday of the same week, a success the week
    after. *)
Definition sample_two_weeks : list dict :=
  [sample_success; sample_failure;
   event "2024-01-07T23:00:00Z" "A" "change_failure_rate" [("status", VStr "failure")];
   event "2024-01-08T01:00:00Z" "A" "change_failure_rate" [("status", VStr "success")]].

Definition sample_two_weeks_tables : change_tables :=
  tables_or (mkChangeTables [] [] []) (calculate_change_failure_rate sample_two_weeks).

(** The two-week changes, loaded in the opposite order. *)
Definition sample_two_weeks_reversed : list dict := rev sample_two_weeks.

(** The names a status must not take: the index levels that [reset_index]
    turns into columns. *)
Definition index_level_names : list string := ["service"; "date"; "week"].

(** A success, and a change whose status is the text [week]. *)
Definition sample_status_week : list dict :=
  [sample_success;
   event "2024-01-01T11:00:00Z" "A" "change_failure_rate" [("status", VStr "week")]].

(** * The artifact listing of [download_metrics.py] *)

(** What [requests.get] hands back for one page of the listing: the status
    code and, read off the JSON body, the list under ['artifacts'] ([None]
    when the body has no such key). *)
Record response : Type := mkResponse {
  status_code : Z;
  artifacts_of : option (list dict)
}.

(** [response.json().get('artifacts', [])] *)
Definition page_artifacts (r : response) : list dict :=
  match artifacts_of r with
  | Some artifacts => artifacts
  | None => []
  end.

(** [needle in s] on text. *)
Fixpoint is_substring (needle s : string) : bool :=
  String.prefix needle s
  || match s with
     | EmptyString => false
     | String _ s' => is_substring needle s'
     end.

(** ['dora-metrics' in a['name']]: a missing ['name'] is a [KeyError]; on an
    object [in] looks among the keys. *)
Definition is_dora (a : dict) : result bool :=
  name <- getitem "name" a ;;
  match name with
  | VStr s => Ok (is_substring "dora-metrics" s)
  | VObj fields => Ok (contains "dora-metrics" fields)
  end.

(** [[a for a in l if p(a)]]: the first exception ends the comprehension. *)
Fixpoint select {A : Type} (p : A -> result bool) (l : list A) : result (list A) :=
  match l with
  | [] => Ok []
  | a :: l' =>
      b <- p a ;;
      rest <- select p l' ;;
      Ok (if b then a :: rest else rest)
  end.

(** The [while True] loop that pages through the listing.  [get page] is the
    answer to the request for that page, [requested] the pages asked for so
    far.  The loop has no bound of its own: [None] is a run that is still
    asking after [fuel] requests. *)
Fixpoint fetch_artifacts (fuel : nat) (get : Z -> response) (page : Z)
  (all_artifacts : list dict) (requested : list Z)
  : option (result (list dict) * list Z) :=
  match fuel with
  | O => None
  | S fuel' =>
      let response := get page in
      let requested := (requested ++ [page])%list in
      if negb (status_code response =? 200) then Some (Ok all_artifacts, requested)
      else
        let artifacts := page_artifacts response in
        if is_empty artifacts then Some (Ok all_artifacts, requested)
        else
          match select is_dora artifacts with
          | Raise e => Some (Raise e, requested)
          | Ok dora_artifacts =>
              let all_artifacts := (all_artifacts ++ dora_artifacts)%list in
              if Z.of_nat (List.length artifacts) <? 100
              then Some (Ok all_artifacts, requested)
              else fetch_artifacts fuel' get (page + 1) all_artifacts requested
          end
  end.

(** ** Vocabulary of the listing properties *)

(** The artifact is kept by the filter. *)
Definition dora (a : dict) : bool :=
  match is_dora a with
  | Ok true => true
  | _ => false
  end.

(** The [n] pages from [page] on. *)
Fixpoint pages_from (page : Z) (n : nat) : list Z :=
  match n with
  | O => []
  | S n' => page :: pages_from (page + 1) n'
  end.

(** Pages [1 .. n]. *)
Definition pages_upto (n : nat) : list Z := pages_from 1 n.

(** The artifacts of pages [1 .. n], in order. *)
Definition pages_before (get : Z -> response) (n : nat) : list dict :=
  flat_map (fun p => page_artifacts (get p)) (pages_upto n).

(** A server that holds [all] and serves it a hundred to the page. *)
Definition paged (all : list dict) (page : Z) : response :=
  mkResponse 200 (Some (firstn 100 (skipn (100 * (Z.to_nat page - 1)) all))).

(** [get] answers every page as such a server does. *)
Definition serves (all : list dict) (get : Z -> response) : Prop :=
  forall page, 1 <= page -> get page = paged all page.

Definition artifact (name : string) : dict :=
  [("name", VStr name); ("archive_download_url", VStr ("https://api.github.com/zip/" ++ name))].

(** A hundred build logs, then two metric artifacts and a coverage report:
    two pages. *)
Definition sample_artifacts : list dict :=
  (repeat (artifact "build-logs") 100
   ++ [artifact "dora-metrics-A-101"; artifact "coverage";
       artifact "dora-metrics-B-102"])%list.

(** A server whose second page fails. *)
Definition sample_failing (page : Z) : response :=
  if page =? 1
  then mkResponse 200 (Some (artifact "dora-metrics-A-1" :: repeat (artifact "build-logs") 99))
  else mkResponse 502 None.

(** A server whose only page holds an artifact without a name. *)
Definition sample_nameless (page : Z) : response :=
  if page =? 1
  then mkResponse 200 (Some [artifact "dora-metrics-A-1";
                             [("archive_download_url", VStr "https://api.github.com/zip/1")]])
  else mkResponse 200 (Some []).

(** ** Loops and exceptions *)

Lemma bind_ok {A B : Type} (c : result A) (k : A -> result B) (b : B) :
  bind c k = Ok b -> exists a, c = Ok a /\ k a = Ok b.
Proof.
  destruct c as [a | e]; simpl; intros H; [eauto | discriminate].
Qed.

Lemma for_each_ok {A B : Type} (f : A -> result B) (xs : list A) (ys : list B) :
  for_each f xs = Ok ys -> Forall2 (fun x y => f x = Ok y) xs ys.
Proof.
  revert ys; induction xs as [| x xs IH]; simpl; intros ys H.
  - injection H as <-. constructor.
  - apply bind_ok in H as (y & Hy & H).
    apply bind_ok in H as (ys' & Hys & H).
    injection H as <-. constructor; auto.
Qed.

Lemma for_each_total {A B : Type} (f : A -> result B) (xs : list A) :
  (forall x, In x xs -> is_ok (f x) = true) -> exists ys, for_each f xs = Ok ys.
Proof.
  induction xs as [| x xs IH]; simpl; intros H.
  - eauto.
  - destruct (f x) as [y | e] eqn:Hx.
    + destruct IH as (ys & ->); [auto |]. simpl. eauto.
    + specialize (H x (or_introl eq_refl)). rewrite Hx in H. discriminate.
Qed.

Lemma Forall2_In_l {A B : Type} (R : A -> B -> Prop) (xs : list A) (ys : list B) (x : A) :
  Forall2 R xs ys -> In x xs -> exists y, In y ys /\ R x y.
Proof.
  induction 1 as [| a b xs ys Hab _ IH]; simpl; [contradiction |].
  intros [-> | Hin]; [eauto |].
  destruct (IH Hin) as (y & ? & ?); eauto.
Qed.

Lemma Forall2_In_r {A B : Type} (R : A -> B -> Prop) (xs : list A) (ys : list B) (y : B) :
  Forall2 R xs ys -> In y ys -> exists x, In x xs /\ R x y.
Proof.
  induction 1 as [| a b xs ys Hab _ IH]; simpl; [contradiction |].
  intros [-> | Hin]; [eauto |].
  destruct (IH Hin) as (x & ? & ?); eauto.
Qed.

Lemma extract_ok {A : Type} (key : string) (row : dict -> result A)
  (metrics : list dict) (rows : list A) :
  extract key row metrics = Ok rows ->
  Forall2 (fun m r => row m = Ok r) (filter (contains key) metrics) rows.
Proof.
  revert rows; induction metrics as [| m ms IH]; simpl; intros rows H.
  - injection H as <-. constructor.
  - destruct (contains key m); [| auto].
    apply bind_ok in H as (r & Hr & H).
    apply bind_ok in H as (rs & Hrs & H).
    injection H as <-. constructor; auto.
Qed.

Lemma extract_total {A : Type} (key : string) (row : dict -> result A)
  (metrics : list dict) :
  (forall m, In m metrics -> contains key m = true -> is_ok (row m) = true) ->
  exists rows, extract key row metrics = Ok rows.
Proof.
  induction metrics as [| m ms IH]; simpl; intros H; [eauto |].
  destruct IH as (rs & Hrs); [auto |].
  destruct (contains key m) eqn:Hk; [| eauto].
  specialize (H m (or_introl eq_refl) Hk).
  destruct (row m); [| discriminate].
  rewrite Hrs. simpl. eauto.
Qed.

Lemma extract_raises {A : Type} (key : string) (row : dict -> result A)
  (metrics : list dict) (m : dict) (e : exn) :
  In m metrics -> contains key m = true -> row m = Raise e ->
  exists e', extract key row metrics = Raise e'.
Proof.
  induction metrics as [| x ms IH]; simpl; intros Hin Hk Hm; [contradiction |].
  destruct Hin as [-> | Hin].
  - rewrite Hk, Hm. simpl. eauto.
  - destruct (IH Hin Hk Hm) as (e' & He').
    destruct (contains key x); [| eauto].
    destruct (row x); simpl; [| eauto].
    rewrite He'. simpl. eauto.
Qed.

(** ** Frame rows and keys *)

Lemma hashable_ok (v : value) (s : string) : hashable v = Ok s -> v = VStr s.
Proof. destruct v; simpl; intros H; [injection H as -> | discriminate]. reflexivity. Qed.

Lemma stamp_ok {A : Type} (timestamp : A -> value) (r : A) (sr : stamped A) :
  stamp timestamp r = Ok sr -> st_row sr = r /\ to_datetime (timestamp r) = Ok (st_time sr).
Proof.
  unfold stamp. intros H. apply bind_ok in H as (t & Ht & H).
  injection H as <-. auto.
Qed.

Lemma keyed_ok {A P : Type} (service : A -> value) (period : datetime -> P)
  (sr : stamped A) (kr : (P * string) * stamped A) :
  keyed service period sr = Ok kr ->
  snd kr = sr /\ fst (fst kr) = period (st_time sr)
  /\ service (st_row sr) = VStr (snd (fst kr)).
Proof.
  unfold keyed, bucket. intros H.
  apply bind_ok in H as (k & Hk & H). injection H as <-.
  apply bind_ok in Hk as (s & Hs & Hk). injection Hk as <-.
  apply hashable_ok in Hs. auto.
Qed.

(** ** A required field that is missing (C1) *)

Lemma lacks_contains (key field : string) (m : dict) :
  lacks key field m = true -> contains key m = true.
Proof.
  unfold lacks, contains. destruct (lookup key m) as [[s | d] |]; auto; discriminate.
Qed.

Lemma lacks_payload (key field : string) (m : dict) :
  lacks key field m = true ->
  exists payload, getitem key m = Ok (VObj payload)
                  /\ subscript field (VObj payload) = Raise (KeyError field).
Proof.
  unfold lacks, getitem, subscript, getitem, contains.
  destruct (lookup key m) as [[s | d] |]; try discriminate.
  intros H. exists d. split; [reflexivity |].
  destruct (lookup field d); [discriminate | reflexivity].
Qed.

Lemma deployment_row_lacks (m : dict) :
  lacks "deployment_frequency" "deployment_id" m = true ->
  exists e, deployment_row m = Raise e.
Proof.
  intros H. apply lacks_payload in H as (payload & Hp & Hs).
  unfold deployment_row.
  destruct (getitem "timestamp" m); simpl; [| eauto].
  destruct (getitem "service" m); simpl; [| eauto].
  rewrite Hp. cbn [bind]. rewrite Hs. simpl. eauto.
Qed.

Lemma lead_time_row_lacks (m : dict) :
  lacks "lead_time_for_changes" "commit_timestamp" m
  || lacks "lead_time_for_changes" "deploy_timestamp" m = true ->
  exists e, lead_time_row m = Raise e.
Proof.
  intros H. apply orb_true_iff in H as [H | H];
    apply lacks_payload in H as (payload & Hp & Hs);
    unfold lead_time_row; rewrite Hp; cbn [bind].
  - rewrite Hs. simpl. eauto.
  - destruct (subscript "commit_timestamp" (VObj payload)); cbn [bind]; [| eauto].
    destruct (parser_parse a); cbn [bind]; [| eauto].
    rewrite Hs. simpl. eauto.
Qed.

Lemma change_row_lacks (m : dict) :
  lacks "change_failure_rate" "status" m = true ->
  exists e, change_row m = Raise e.
Proof.
  intros H. apply lacks_payload in H as (payload & Hp & Hs).
  unfold change_row. rewrite Hp. cbn [bind].
  destruct (getitem "timestamp" m); cbn [bind]; [| eauto].
  destruct (getitem "service" m); cbn [bind]; [| eauto].
  rewrite Hs. simpl. eauto.
Qed.

(** An exception in any aggregation ends the run before the first export. *)
Lemma run_aborts_in_aggregation (raw_dir : directory) (timestamp now : string) (m : dict) :
  In m (load_metrics raw_dir) ->
  (exists e, calculate_deployment_frequency (load_metrics raw_dir) = Raise e)
  \/ (exists e, calculate_lead_time (load_metrics raw_dir) = Raise e)
  \/ (exists e, calculate_change_failure_rate (load_metrics raw_dir) = Raise e) ->
  exists e, generate_powerbi_export raw_dir timestamp now [] = (Raise e, []).
Proof.
  intros Hin H. unfold generate_powerbi_export.
  destruct (load_metrics raw_dir) as [| m0 ms] eqn:Hload; [contradiction |].
  unfold io_bind, lift.
  destruct (calculate_deployment_frequency (m0 :: ms)) as [a | e]; [| eauto].
  destruct (calculate_lead_time (m0 :: ms)) as [b | e]; [| eauto].
  destruct (calculate_change_failure_rate (m0 :: ms)) as [c | e]; [| eauto].
  destruct H as [(e & H) | [(e & H) | (e & H)]]; discriminate.
Qed.

(** The reads of a row, one after the other. *)
Lemma deployment_row_missing (m : dict) :
  lacks "deployment_frequency" "deployment_id" m = true ->
  deployment_row m = Raise (first_missing "deployment_id" m).
Proof.
  intros H. apply lacks_payload in H as (payload & Hp & Hs).
  unfold deployment_row, first_missing, contains, getitem.
  destruct (lookup "timestamp" m); cbn [bind negb]; [| reflexivity].
  destruct (lookup "service" m); cbn [bind negb]; [| reflexivity].
  unfold getitem in Hp. destruct (lookup "deployment_frequency" m); [| discriminate].
  injection Hp as ->. cbn [bind]. rewrite Hs. reflexivity.
Qed.

Lemma change_row_missing (m : dict) :
  lacks "change_failure_rate" "status" m = true ->
  change_row m = Raise (first_missing "status" m).
Proof.
  intros H. apply lacks_payload in H as (payload & Hp & Hs).
  unfold change_row. rewrite Hp. cbn [bind].
  unfold first_missing, contains, getitem.
  destruct (lookup "timestamp" m); cbn [bind negb]; [| reflexivity].
  destruct (lookup "service" m); cbn [bind negb]; [| reflexivity].
  rewrite Hs. reflexivity.
Qed.

Lemma lead_time_row_no_commit (m : dict) :
  lacks "lead_time_for_changes" "commit_timestamp" m = true ->
  lead_time_row m = Raise (KeyError "commit_timestamp").
Proof.
  intros H. apply lacks_payload in H as (payload & Hp & Hs).
  unfold lead_time_row. rewrite Hp. cbn [bind]. rewrite Hs. reflexivity.
Qed.

Lemma lead_time_row_no_deploy (m payload : dict) (c : value) (tc : datetime) :
  lacks "lead_time_for_changes" "deploy_timestamp" m = true ->
  lookup "lead_time_for_changes" m = Some (VObj payload) ->
  lookup "commit_timestamp" payload = Some c ->
  parser_parse c = Ok tc ->
  lead_time_row m = Raise (KeyError "deploy_timestamp").
Proof.
  intros H Hm Hc Pc. apply lacks_payload in H as (payload' & Hp & Hs).
  assert (E : payload' = payload).
  { unfold getitem in Hp. rewrite Hm in Hp. injection Hp as <-. reflexivity. }
  subst payload'.
  assert (Hgc : getitem "commit_timestamp" payload = Ok c).
  { unfold getitem. rewrite Hc. reflexivity. }
  unfold lead_time_row. rewrite Hp. cbn [bind subscript] in Hs |- *.
  rewrite Hgc. cbn [bind]. rewrite Pc. cbn [bind]. rewrite Hs. reflexivity.
Qed.

(** The first record whose row raises ends the extraction with its
    exception. *)
Lemma extract_first_failure {A : Type} (key : string) (row : dict -> result A)
  (before after : list dict) (m : dict) (e : exn) :
  extractable key row before -> contains key m = true -> row m = Raise e ->
  extract key row (before ++ m :: after) = Raise e.
Proof.
  intros Hbefore Hk Hrow. induction before as [| x before IH]; simpl.
  - rewrite Hk, Hrow. reflexivity.
  - assert (Hx : contains key x = true -> is_ok (row x) = true).
    { apply Hbefore. left. reflexivity. }
    rewrite IH by (intros y Hy; apply Hbefore; right; exact Hy).
    destruct (contains key x); [| reflexivity].
    destruct (row x); [reflexivity |].
    specialize (Hx eq_refl). discriminate.
Qed.

(** The first aggregation that raises ends the run with its exception,
    before any file is written. *)
Lemma run_raises_in_aggregation (raw_dir : directory) (timestamp now : string) (e : exn) :
  load_metrics raw_dir <> [] ->
  calculate_deployment_frequency (load_metrics raw_dir) = Raise e
  \/ (is_ok (calculate_deployment_frequency (load_metrics raw_dir)) = true
      /\ calculate_lead_time (load_metrics raw_dir) = Raise e)
  \/ (is_ok (calculate_deployment_frequency (load_metrics raw_dir)) = true
      /\ is_ok (calculate_lead_time (load_metrics raw_dir)) = true
      /\ calculate_change_failure_rate (load_metrics raw_dir) = Raise e) ->
  generate_powerbi_export raw_dir timestamp now [] = (Raise e, []).
Proof.
  intros Hne H. unfold generate_powerbi_export.
  destruct (load_metrics raw_dir) as [| m0 ms]; [contradiction |].
  unfold io_bind, lift.
  destruct H as [-> | [(Hd & ->) | (Hd & Hl & ->)]].
  - reflexivity.
  - destruct (calculate_deployment_frequency (m0 :: ms)); [reflexivity | discriminate].
  - destruct (calculate_deployment_frequency (m0 :: ms)); [| discriminate].
    destruct (calculate_lead_time (m0 :: ms)); [reflexivity | discriminate].
Qed.

(** C1, as the code has it: a record with a recognized payload key and a
    required field missing ([deployment_id]; [commit_timestamp] or
    [deploy_timestamp]; [status]) is not skipped.  Building its row raises:
    [KeyError] on the missing field when the reads before it succeed
    ([timestamp] and [service] for deployments and change outcomes, a
    [commit_timestamp] that parses for a missing [deploy_timestamp]), and
    the [KeyError] of [timestamp] or [service] when one of those is missing
    too.  Nothing catches the exception: it ends the metric's aggregation,
    as this very exception when the records before it extract, and it ends
    the run before any file is written, as this very exception when the
    aggregations before it return. *)
Theorem missing_required_field_aborts_run
  (raw_dir : directory) (timestamp now : string) (metric : dict) :
  In metric (load_metrics raw_dir) ->
  missing_required_field metric = true ->
  let metrics := load_metrics raw_dir in
  (* the row of the record *)
  (lacks "deployment_frequency" "deployment_id" metric = true ->
   deployment_row metric = Raise (first_missing "deployment_id" metric))
  /\ (lacks "lead_time_for_changes" "commit_timestamp" metric = true ->
      lead_time_row metric = Raise (KeyError "commit_timestamp"))
  /\ (lacks "lead_time_for_changes" "deploy_timestamp" metric = true ->
      (exists e, lead_time_row metric = Raise e)
      /\ forall payload c tc,
           lookup "lead_time_for_changes" metric = Some (VObj payload) ->
           lookup "commit_timestamp" payload = Some c ->
           parser_parse c = Ok tc ->
           lead_time_row metric = Raise (KeyError "deploy_timestamp"))
  /\ (lacks "change_failure_rate" "status" metric = true ->
      change_row metric = Raise (first_missing "status" metric))
  /\ (contains "timestamp" metric = true -> contains "service" metric = true ->
      forall field, first_missing field metric = KeyError field)
  (* the aggregation of the metric *)
  /\ (lacks "deployment_frequency" "deployment_id" metric = true ->
      exists e, calculate_deployment_frequency metrics = Raise e)
  /\ (lacks "lead_time_for_changes" "commit_timestamp" metric
      || lacks "lead_time_for_changes" "deploy_timestamp" metric = true ->
      exists e, calculate_lead_time metrics = Raise e)
  /\ (lacks "change_failure_rate" "status" metric = true ->
      exists e, calculate_change_failure_rate metrics = Raise e)
  (* the run *)
  /\ (exists e, generate_powerbi_export raw_dir timestamp now [] = (Raise e, []))
  (* which exception: that of the first record and of the first aggregation
     that fail *)
  /\ (forall before after e,
        metrics = (before ++ metric :: after)%list ->
        (contains "deployment_frequency" metric = true ->
         deployment_row metric = Raise e ->
         extractable "deployment_frequency" deployment_row before ->
         calculate_deployment_frequency metrics = Raise e
         /\ generate_powerbi_export raw_dir timestamp now [] = (Raise e, []))
        /\ (contains "lead_time_for_changes" metric = true ->
            lead_time_row metric = Raise e ->
            extractable "lead_time_for_changes" lead_time_row before ->
            calculate_lead_time metrics = Raise e
            /\ (is_ok (calculate_deployment_frequency metrics) = true ->
                generate_powerbi_export raw_dir timestamp now [] = (Raise e, [])))
        /\ (contains "change_failure_rate" metric = true ->
            change_row metric = Raise e ->
            extractable "change_failure_rate" change_row before ->
            calculate_change_failure_rate metrics = Raise e
            /\ (is_ok (calculate_deployment_frequency metrics) = true ->
                is_ok (calculate_lead_time metrics) = true ->
                generate_powerbi_export raw_dir timestamp now [] = (Raise e, [])))).
Proof.
  intros Hin Hmiss metrics.
  assert (Hne : load_metrics raw_dir <> []).
  { intros E. rewrite E in Hin. contradiction. }
  assert (Hd : lacks "deployment_frequency" "deployment_id" metric = true ->
               exists e, calculate_deployment_frequency metrics = Raise e).
  { intros H. destruct (deployment_row_lacks _ H) as (e & He).
    destruct (extract_raises _ _ _ _ _ Hin (lacks_contains _ _ _ H) He) as (e' & He').
    unfold calculate_deployment_frequency, metrics. rewrite He'. simpl. eauto. }
  assert (Hl : lacks "lead_time_for_changes" "commit_timestamp" metric
               || lacks "lead_time_for_changes" "deploy_timestamp" metric = true ->
               exists e, calculate_lead_time metrics = Raise e).
  { intros H. destruct (lead_time_row_lacks _ H) as (e & He).
    assert (Hk : contains "lead_time_for_changes" metric = true).
    { apply orb_true_iff in H as [H | H]; eapply lacks_contains; eauto. }
    destruct (extract_raises _ _ _ _ _ Hin Hk He) as (e' & He').
    unfold calculate_lead_time, metrics. rewrite He'. simpl. eauto. }
  assert (Hc : lacks "change_failure_rate" "status" metric = true ->
               exists e, calculate_change_failure_rate metrics = Raise e).
  { intros H. destruct (change_row_lacks _ H) as (e & He).
    destruct (extract_raises _ _ _ _ _ Hin (lacks_contains _ _ _ H) He) as (e' & He').
    unfold calculate_change_failure_rate, metrics. rewrite He'. simpl. eauto. }
  split; [apply deployment_row_missing |].
  split; [apply lead_time_row_no_commit |].
  split.
  { intros H. split.
    - apply lead_time_row_lacks. rewrite H. apply orb_true_r.
    - intros payload c tc. apply lead_time_row_no_deploy. exact H. }
  split; [apply change_row_missing |].
  split.
  { intros Ht Hs field. unfold first_missing. rewrite Ht, Hs. reflexivity. }
  split; [exact Hd |]. split; [exact Hl |]. split; [exact Hc |].
  split.
  { apply (run_aborts_in_aggregation raw_dir timestamp now metric Hin).
    unfold missing_required_field in Hmiss.
    destruct (lacks "deployment_frequency" "deployment_id" metric) eqn:E1; [left; auto |].
    destruct (lacks "change_failure_rate" "status" metric) eqn:E4; [right; right; auto |].
    right; left. apply Hl.
    simpl in Hmiss. rewrite orb_false_r in Hmiss. exact Hmiss. }
  intros before after e Hsplit.
  split; [| split].
  - intros Hk Hrow Hbefore.
    assert (E : calculate_deployment_frequency metrics = Raise e).
    { unfold calculate_deployment_frequency. rewrite Hsplit.
      rewrite (extract_first_failure _ _ _ _ _ _ Hbefore Hk Hrow). reflexivity. }
    split; [exact E |].
    apply run_raises_in_aggregation; [exact Hne | left; exact E].
  - intros Hk Hrow Hbefore.
    assert (E : calculate_lead_time metrics = Raise e).
    { unfold calculate_lead_time. rewrite Hsplit.
      rewrite (extract_first_failure _ _ _ _ _ _ Hbefore Hk Hrow). reflexivity. }
    split; [exact E |]. intros Hok.
    apply run_raises_in_aggregation; [exact Hne | right; left; auto].
  - intros Hk Hrow Hbefore.
    assert (E : calculate_change_failure_rate metrics = Raise e).
    { unfold calculate_change_failure_rate. rewrite Hsplit.
      rewrite (extract_first_failure _ _ _ _ _ _ Hbefore Hk Hrow). reflexivity. }
    split; [exact E |]. intros Hok1 Hok2.
    apply run_raises_in_aggregation; [exact Hne | right; right; auto].
Qed.

Lemma missing_required_field_aborts_run_witness :
  deployment_row deployment_without_id = Raise (KeyError "deployment_id")
  /\ generate_powerbi_export
       (Some (complete_files ++ [("bad.json", Some deployment_without_id)])%list)
       "20240105" "2024-01-05T06:00:00" [] = (Raise (KeyError "deployment_id"), []).
Proof.
  destruct (missing_required_field_aborts_run
              (Some (complete_files ++ [("bad.json", Some deployment_without_id)])%list)
              "20240105" "2024-01-05T06:00:00" deployment_without_id)
    as (Hrow & _ & _ & _ & _ & _ & _ & _ & _ & Hwhich).
  - vm_compute. tauto.
  - vm_compute. reflexivity.
  - split; [apply Hrow; reflexivity |].
    destruct (Hwhich (load_metrics (Some complete_files)) [] (KeyError "deployment_id")
                eq_refl) as (Hdep & _).
    apply Hdep.
    + reflexivity.
    + apply Hrow. reflexivity.
    + intros x Hx Hk. vm_compute in Hx.
      destruct Hx as [<- | [<- | [<- | [<- | []]]]];
        try reflexivity; discriminate Hk.
Defined.

(** C1, as stated, fails: with one deployment event lacking [deployment_id] in
    the batch, the deployment extractor does not return what it returns for
    the rest of the batch; it raises, and the run that completes without the
    record writes nothing with it. *)
Lemma missing_deployment_id_is_not_skipped :
  calculate_deployment_frequency [deployment_without_id; sample_deployment]
  = Raise (KeyError "deployment_id")
  /\ is_ok (calculate_deployment_frequency [sample_deployment]) = true
  /\ calculate_deployment_frequency [deployment_without_id; sample_deployment]
     <> calculate_deployment_frequency [sample_deployment]
  /\ generate_powerbi_export
       (Some (complete_files ++ [("bad.json", Some deployment_without_id)])%list)
       "20240105" "2024-01-05T06:00:00" []
     = (Raise (KeyError "deployment_id"), [])
  /\ is_ok (fst (generate_powerbi_export (Some complete_files)
                   "20240105" "2024-01-05T06:00:00" [])) = true
  /\ List.length (snd (generate_powerbi_export (Some complete_files)
                         "20240105" "2024-01-05T06:00:00" [])) = 8%nat.
Proof.
  repeat split; try (vm_compute; reflexivity).
  vm_compute. discriminate.
Qed.

(** ** A metric with no record (C2) *)

(** C2 against the code: the aggregation of a metric with no record returns
    the empty frame without raising, but the export guard of each metric
    ([if lead_time and ...]) takes the truth value of that frame and raises
    [ValueError].  At the end-to-end scenario (a deployment, a success and a
    failure, no lead-time event) the run stops after the deployment files:
    neither the change-failure files nor the summary are written. *)
Theorem empty_metric_aborts_export :
  (forall timestamp out,
      export_deployment_frequency timestamp EmptyFrame out = (Raise ValueError, out)
      /\ export_lead_time timestamp EmptyFrame out = (Raise ValueError, out)
      /\ export_change_failure_rate timestamp EmptyFrame out = (Raise ValueError, out))
  /\ calculate_lead_time scenario = Ok EmptyFrame
  /\ is_ok (calculate_change_failure_rate scenario) = true
  /\ fst (generate_powerbi_export (Some scenario_files)
            "20240105" "2024-01-05T06:00:00" []) = Raise ValueError
  /\ paths (snd (generate_powerbi_export (Some scenario_files)
                   "20240105" "2024-01-05T06:00:00" []))
     = ["metrics/powerbi/deployment_frequency_daily_20240105.csv";
        "metrics/powerbi/deployment_frequency_weekly_20240105.csv";
        "metrics/powerbi/deployment_frequency_monthly_20240105.csv"].
Proof.
  split.
  - intros timestamp out. repeat split; reflexivity.
  - repeat split; vm_compute; reflexivity.
Qed.

(** ** Rounding to the nearest integer, ties to even *)

Lemma Qfloor_unique (x : Q) (z : Z) :
  (inject_Z z <= x)%Q -> (x < inject_Z z + 1)%Q -> Qfloor x = z.
Proof.
  intros Hlo Hhi.
  pose proof (Qfloor_le x) as H1. pose proof (Qlt_floor x) as H2.
  rewrite inject_Z_plus in H2. change (inject_Z 1) with 1%Q in H2.
  assert (Ha : (inject_Z (Qfloor x) < inject_Z (z + 1))%Q).
  { rewrite inject_Z_plus. change (inject_Z 1) with 1%Q. lra. }
  assert (Hb : (inject_Z z < inject_Z (Qfloor x + 1))%Q).
  { rewrite inject_Z_plus. change (inject_Z 1) with 1%Q. lra. }
  rewrite <- Zlt_Qlt in Ha, Hb. lia.
Qed.

Lemma rint_cases (x : Q) :
  let f := Qfloor x in
  (inject_Z f <= x)%Q /\ (x < inject_Z f + 1)%Q /\
  ((rint x = f /\ (x - inject_Z f < 1 # 2)%Q)
   \/ (rint x = f + 1 /\ (1 # 2 < x - inject_Z f)%Q)
   \/ ((x - inject_Z f == 1 # 2)%Q /\ rint x = if Z.even f then f else f + 1)).
Proof.
  intros f. pose proof (Qfloor_le x) as H1. pose proof (Qlt_floor x) as H2.
  rewrite inject_Z_plus in H2. change (inject_Z 1) with 1%Q in H2.
  split; [exact H1 |]. split; [exact H2 |].
  unfold rint. fold f.
  destruct (Qcompare_spec (x - inject_Z f) (1 # 2)) as [E | E | E]; auto.
Qed.

Lemma rint_proper (x y : Q) : (x == y)%Q -> rint x = rint y.
Proof.
  intros E. unfold rint.
  rewrite (Qfloor_comp x y E).
  assert (E' : (x - inject_Z (Qfloor y) == y - inject_Z (Qfloor y))%Q) by lra.
  rewrite (Qcompare_comp _ _ E' _ _ (Qeq_refl (1 # 2))). reflexivity.
Qed.

(** The rounded value is within one half of the argument. *)
Lemma rint_near (x : Q) :
  (x - (1 # 2) <= inject_Z (rint x))%Q /\ (inject_Z (rint x) <= x + (1 # 2))%Q.
Proof.
  destruct (rint_cases x) as (H1 & H2 & [(-> & H) | [(-> & H) | (H & ->)]]).
  - lra.
  - rewrite inject_Z_plus. change (inject_Z 1) with 1%Q. lra.
  - destruct (Z.even (Qfloor x)).
    + lra.
    + rewrite inject_Z_plus. change (inject_Z 1) with 1%Q. lra.
Qed.

(** Rounding stays between two integers that bound the argument. *)
Lemma rint_bounds (x : Q) (a b : Z) :
  (inject_Z a <= x)%Q -> (x <= inject_Z b)%Q -> a <= rint x <= b.
Proof.
  intros Ha Hb.
  assert (Hfa : a <= Qfloor x).
  { rewrite <- (Qfloor_Z a). apply Qfloor_resp_le. exact Ha. }
  assert (Hfb : Qfloor x <= b).
  { rewrite <- (Qfloor_Z b). apply Qfloor_resp_le. exact Hb. }
  assert (Hup : (inject_Z (Qfloor x) < x)%Q -> Qfloor x + 1 <= b).
  { intros H. assert (H' : (inject_Z (Qfloor x) < inject_Z b)%Q) by lra.
    rewrite <- Zlt_Qlt in H'. lia. }
  destruct (rint_cases x) as (H1 & H2 & [(-> & H) | [(-> & H) | (H & ->)]]).
  - lia.
  - split; [lia |]. apply Hup. lra.
  - destruct (Z.even (Qfloor x)); [lia |].
    split; [lia |]. apply Hup. lra.
Qed.

(** ** The rate arithmetic *)

Lemma ratio_bounds (part total : Z) :
  0 <= part <= total -> 0 < total ->
  (0 <= inject_Z part / inject_Z total)%Q /\ (inject_Z part / inject_Z total <= 1)%Q.
Proof.
  intros [H0 H1] Ht.
  assert (Hq : (0 < inject_Z total)%Q).
  { change 0%Q with (inject_Z 0). rewrite <- Zlt_Qlt. exact Ht. }
  assert (Hp : (0 <= inject_Z part)%Q).
  { change 0%Q with (inject_Z 0). rewrite <- Zle_Qle. exact H0. }
  assert (Hpt : (inject_Z part <= inject_Z total)%Q).
  { rewrite <- Zle_Qle. exact H1. }
  split.
  - apply Qle_shift_div_l; [exact Hq | lra].
  - apply Qle_shift_div_r; [exact Hq | lra].
Qed.

Lemma rate_unfold (part total : Z) :
  total <> 0 ->
  round2 (times100 (truediv part total))
  = Num (Qred (inject_Z
                 (rint (Qred (Qred (inject_Z part / inject_Z total) * 100) * 100)) / 100)).
Proof.
  intros Ht. unfold truediv.
  destruct (Z.eqb_spec total 0) as [E | _]; [contradiction | reflexivity].
Qed.

Lemma rate_hundredths (part total : Z) :
  (Qred (Qred (inject_Z part / inject_Z total) * 100) * 100
   == exact_rate part total * 100)%Q.
Proof.
  unfold exact_rate. rewrite !Qred_correct. reflexivity.
Qed.

(** With a non-zero total the rate is the exact quotient rounded to two
    decimals, between 0 and 100. *)
Lemma rate_value (part total : Z) :
  0 <= part <= total -> 0 < total ->
  exists q, round2 (times100 (truediv part total)) = Num q
            /\ (0 <= q)%Q /\ (q <= 100)%Q
            /\ rounded_to_2dp (exact_rate part total) q.
Proof.
  intros Hp Ht. rewrite rate_unfold by lia.
  eexists. split; [reflexivity |].
  rewrite (rint_proper _ _ (rate_hundredths part total)).
  destruct (ratio_bounds part total Hp Ht) as [Hlo Hhi].
  set (x := exact_rate part total).
  assert (Hx : (0 <= x)%Q /\ (x <= 100)%Q).
  { unfold x, exact_rate. split; lra. }
  destruct (rint_bounds (x * 100) 0 10000) as [Hn0 Hn1].
  { change (inject_Z 0) with 0%Q. lra. }
  { change (inject_Z 10000) with 10000%Q. lra. }
  destruct (rint_near (x * 100)) as [Hnear1 Hnear2].
  set (n := rint (x * 100)) in *.
  assert (Hq0 : (0 <= inject_Z n)%Q).
  { change 0%Q with (inject_Z 0). rewrite <- Zle_Qle. exact Hn0. }
  assert (Hq1 : (inject_Z n <= 10000)%Q).
  { change 10000%Q with (inject_Z 10000). rewrite <- Zle_Qle. exact Hn1. }
  pose proof (Qred_correct (inject_Z n / 100)) as Hq.
  set (q := Qred (inject_Z n / 100)) in *.
  assert (Hq' : (q * 100 == inject_Z n)%Q) by (rewrite Hq; field).
  repeat split.
  - lra.
  - lra.
  - exists n. exact Hq.
  - apply Qabs_Qle_condition. split; lra.
Qed.

(** ** Grouping: keys and counts *)

Section GroupFacts.
Context {K : Type}.
Variable key_eqb : K -> K -> bool.
Variable key_leb : K -> K -> bool.
Hypothesis key_eqb_eq : forall x y, key_eqb x y = true <-> x = y.

Lemma key_eqb_refl (k : K) : key_eqb k k = true.
Proof. apply key_eqb_eq. reflexivity. Qed.

Lemma existsb_key (k : K) (l : list K) : existsb (key_eqb k) l = true <-> In k l.
Proof.
  rewrite existsb_exists. split.
  - intros (x & Hin & E). apply key_eqb_eq in E. subst. exact Hin.
  - intros Hin. exists k. split; [exact Hin | apply key_eqb_refl].
Qed.

Lemma insert_key_perm (k : K) (l : list K) :
  Permutation (insert_key key_leb k l) (k :: l).
Proof.
  induction l as [| x l IH]; simpl; [reflexivity |].
  destruct (key_leb k x); [reflexivity |].
  rewrite IH. apply perm_swap.
Qed.

Lemma sort_keys_perm (l : list K) : Permutation (sort_keys key_leb l) l.
Proof.
  induction l as [| k l IH]; simpl; [reflexivity |].
  rewrite insert_key_perm. constructor. exact IH.
Qed.

Lemma In_distinct (k : K) (l : list K) : In k (distinct key_eqb l) <-> In k l.
Proof.
  induction l as [| x l IH]; simpl; [tauto |].
  destruct (existsb (key_eqb x) l) eqn:E; simpl.
  - apply existsb_key in E. rewrite IH. split; [tauto |].
    intros [-> | H]; auto.
  - rewrite IH. tauto.
Qed.

Lemma NoDup_distinct (l : list K) : NoDup (distinct key_eqb l).
Proof.
  induction l as [| x l IH]; simpl; [constructor |].
  destruct (existsb (key_eqb x) l) eqn:E; [exact IH |].
  constructor; [| exact IH].
  rewrite In_distinct. intros Hin. apply existsb_key in Hin. congruence.
Qed.

Lemma group_keys_perm (l : list K) :
  Permutation (group_keys key_eqb key_leb l) (distinct key_eqb l).
Proof. apply sort_keys_perm. Qed.

Lemma In_group_keys (k : K) (l : list K) :
  In k (group_keys key_eqb key_leb l) <-> In k l.
Proof.
  split; intros H.
  - apply In_distinct. eapply Permutation_in; [apply group_keys_perm | exact H].
  - eapply Permutation_in; [symmetry; apply group_keys_perm |].
    apply In_distinct. exact H.
Qed.

Lemma NoDup_group_keys (l : list K) : NoDup (group_keys key_eqb key_leb l).
Proof.
  eapply Permutation_NoDup; [symmetry; apply group_keys_perm | apply NoDup_distinct].
Qed.

Lemma count_key_nonneg (k : K) (l : list K) : 0 <= count_key key_eqb k l.
Proof. unfold count_key. lia. Qed.

Lemma count_key_absent (k : K) (l : list K) : ~ In k l -> count_key key_eqb k l = 0.
Proof.
  intros H. unfold count_key.
  replace (filter (key_eqb k) l) with (@nil K); [reflexivity |].
  symmetry. induction l as [| x l IH]; simpl; [reflexivity |].
  destruct (key_eqb k x) eqn:E.
  - apply key_eqb_eq in E. subst. exfalso. apply H. left. reflexivity.
  - apply IH. intros Hin. apply H. right. exact Hin.
Qed.

(** Every row of a size table is a key of the column with its number of
    occurrences. *)
Lemma groupby_size_In (k : K) (c : Z) (l : list K) :
  In (k, c) (groupby_size key_eqb key_leb l) <->
  In k l /\ c = count_key key_eqb k l.
Proof.
  unfold groupby_size. rewrite in_map_iff. split.
  - intros (x & E & Hin). injection E as E1 E2. subst k c.
    apply (proj1 (In_group_keys _ _)) in Hin. split; [exact Hin | reflexivity].
  - intros (Hin & ->). exists k. split; [reflexivity |].
    apply In_group_keys. exact Hin.
Qed.
End GroupFacts.

(** Insertion into the sorted keys keeps them ascending. *)
Section OrderFacts.
Context {K : Type}.
Variable key_eqb : K -> K -> bool.
Variable key_leb : K -> K -> bool.
Hypothesis key_eqb_eq : forall x y, key_eqb x y = true <-> x = y.
Hypothesis key_leb_total : forall x y, key_leb x y = true \/ key_leb y x = true.
Hypothesis key_leb_trans :
  forall x y z, key_leb x y = true -> key_leb y z = true -> key_leb x z = true.
Hypothesis key_leb_antisym :
  forall x y, key_leb x y = true -> key_leb y x = true -> x = y.

Lemma In_insert_key (k x : K) (l : list K) :
  In x (insert_key key_leb k l) <-> x = k \/ In x l.
Proof.
  induction l as [| y l IH]; cbn [insert_key In].
  - intuition congruence.
  - destruct (key_leb k y); cbn [In]; [intuition congruence |].
    rewrite IH. intuition congruence.
Qed.

Lemma insert_key_ascending (k : K) (l : list K) :
  ascending key_leb l = true -> ascending key_leb (insert_key key_leb k l) = true.
Proof.
  induction l as [| y l IH]; cbn [insert_key ascending forallb]; [reflexivity |].
  intros H. apply andb_true_iff in H as [Hy Hl].
  destruct (key_leb k y) eqn:E; cbn [ascending forallb].
  - rewrite E, Hy, Hl. cbn [andb]. rewrite andb_true_r.
    apply forallb_forall. intros z Hz.
    apply (key_leb_trans k y z E). apply (proj1 (forallb_forall _ _) Hy z Hz).
  - rewrite (IH Hl), andb_true_r. apply forallb_forall. intros z Hz.
    apply In_insert_key in Hz as [-> | Hz].
    + destruct (key_leb_total y k) as [H | H]; [exact H | congruence].
    + apply (proj1 (forallb_forall _ _) Hy z Hz).
Qed.

Lemma sort_keys_ascending (l : list K) : ascending key_leb (sort_keys key_leb l) = true.
Proof.
  induction l as [| k l IH]; [reflexivity |].
  cbn [sort_keys]. apply insert_key_ascending, IH.
Qed.

Lemma group_keys_ascending (l : list K) :
  ascending key_leb (group_keys key_eqb key_leb l) = true.
Proof. apply sort_keys_ascending. Qed.

(** Two ascending lists without repetition that hold the same keys are the
    same list. *)
Lemma ascending_unique (l1 l2 : list K) :
  ascending key_leb l1 = true -> ascending key_leb l2 = true ->
  NoDup l1 -> NoDup l2 ->
  (forall x, In x l1 <-> In x l2) ->
  l1 = l2.
Proof.
  revert l2. induction l1 as [| a l1 IH]; intros [| b l2] A1 A2 N1 N2 Hin.
  - reflexivity.
  - exfalso. apply (proj2 (Hin b)). left. reflexivity.
  - exfalso. apply (proj1 (Hin a)). left. reflexivity.
  - cbn [ascending] in A1, A2.
    apply andb_true_iff in A1 as [Ha A1]. apply andb_true_iff in A2 as [Hb A2].
    inversion N1 as [| ? ? Na N1']; subst. inversion N2 as [| ? ? Nb N2']; subst.
    assert (Hab : a = b).
    { destruct (proj1 (Hin a) (or_introl eq_refl)) as [<- | Ha2]; [reflexivity |].
      destruct (proj2 (Hin b) (or_introl eq_refl)) as [<- | Hb1]; [reflexivity |].
      apply key_leb_antisym.
      - apply (proj1 (forallb_forall _ _) Ha b Hb1).
      - apply (proj1 (forallb_forall _ _) Hb a Ha2). }
    subst b. f_equal. apply IH; auto.
    intros x. split; intros Hx.
    + destruct (proj1 (Hin x) (or_intror Hx)) as [<- | H]; [contradiction | exact H].
    + destruct (proj2 (Hin x) (or_intror Hx)) as [<- | H]; [contradiction | exact H].
Qed.

(** The group labels depend on which keys occur, not on where. *)
Lemma group_keys_same_keys (l l' : list K) :
  (forall x, In x l <-> In x l') ->
  group_keys key_eqb key_leb l = group_keys key_eqb key_leb l'.
Proof.
  intros H. apply ascending_unique.
  - apply group_keys_ascending.
  - apply group_keys_ascending.
  - apply NoDup_group_keys, key_eqb_eq.
  - apply NoDup_group_keys, key_eqb_eq.
  - intros x.
    rewrite (In_group_keys key_eqb key_leb key_eqb_eq x l).
    rewrite (In_group_keys key_eqb key_leb key_eqb_eq x l'). apply H.
Qed.

Lemma count_key_permutation (k : K) (l l' : list K) :
  Permutation l l' -> count_key key_eqb k l = count_key key_eqb k l'.
Proof.
  intros H. unfold count_key. f_equal.
  induction H as [| x l l' _ IH | x y l | l l' l'' _ IH1 _ IH2]; cbn [filter].
  - reflexivity.
  - destruct (key_eqb k x); cbn [List.length]; congruence.
  - destruct (key_eqb k x), (key_eqb k y); reflexivity.
  - congruence.
Qed.

Lemma groupby_size_permutation (l l' : list K) :
  Permutation l l' ->
  groupby_size key_eqb key_leb l = groupby_size key_eqb key_leb l'.
Proof.
  intros H. unfold groupby_size.
  rewrite (group_keys_same_keys l l').
  - apply map_ext. intros k. f_equal. apply count_key_permutation, H.
  - intros x. split; apply Permutation_in; [exact H | apply Permutation_sym, H].
Qed.
End OrderFacts.

Lemma date_eqb_eq (a b : date) : date_eqb a b = true <-> a = b.
Proof.
  unfold date_eqb. destruct a as [y m d], b as [y' m' d']. simpl.
  rewrite !andb_true_iff, !Z.eqb_eq. split.
  - intros [[-> ->] ->]. reflexivity.
  - intros E. injection E as -> -> ->. auto.
Qed.

Lemma pair_eqb_eq {A B : Type} (ea : A -> A -> bool) (eb : B -> B -> bool) :
  (forall x y, ea x y = true <-> x = y) ->
  (forall x y, eb x y = true <-> x = y) ->
  forall x y, pair_eqb ea eb x y = true <-> x = y.
Proof.
  intros Ha Hb [a b] [a' b']. unfold pair_eqb. simpl.
  rewrite andb_true_iff, Ha, Hb. split.
  - intros [-> ->]. reflexivity.
  - intros E. injection E as -> ->. auto.
Qed.

Lemma day_key_eqb_eq (x y : date * string) : day_key_eqb x y = true <-> x = y.
Proof. apply pair_eqb_eq; [apply date_eqb_eq | apply String.eqb_eq]. Qed.

Lemma period_key_eqb_eq (x y : Z * string) : period_key_eqb x y = true <-> x = y.
Proof. apply pair_eqb_eq; [apply Z.eqb_eq | apply String.eqb_eq]. Qed.

(** ** Columns of a row *)

Lemma col_set_col (name name' : string) (c : cell) (cs : columns) :
  col name (set_col name' c cs)
  = if String.eqb name name' then Some c else col name cs.
Proof.
  induction cs as [| [n x] cs IH]; simpl.
  - destruct (String.eqb name name'); reflexivity.
  - destruct (String.eqb_spec name' n) as [-> | Hn]; simpl.
    + destruct (String.eqb name n); reflexivity.
    + rewrite IH. destruct (String.eqb_spec name n) as [-> | Hn'].
      * destruct (String.eqb_spec n name'); [congruence | reflexivity].
      * reflexivity.
Qed.

Lemma all_counts_ensure (name : string) (cs : columns) :
  all_counts cs -> all_counts (ensure_col name cs).
Proof.
  intros H. unfold ensure_col. destruct (has_col name cs); [exact H |].
  intros n c. rewrite col_set_col.
  destruct (String.eqb n name); [| apply H].
  intros E. injection E as <-. exists 0. split; [reflexivity | lia].
Qed.

Lemma int_col_count (name : string) (cs : columns) :
  all_counts cs -> 0 <= int_col name cs.
Proof.
  intros H. unfold int_col. destruct (col name cs) as [c |] eqn:E; [| lia].
  destruct (H _ _ E) as (n & -> & Hn). exact Hn.
Qed.

Lemma col_ensured (name : string) (cs : columns) :
  all_counts cs ->
  col name (ensure_col name cs) = Some (CInt (int_col name cs)).
Proof.
  intros H. unfold ensure_col, has_col, int_col.
  destruct (col name cs) as [c |] eqn:E.
  - rewrite E. destruct (H _ _ E) as (n & -> & _). reflexivity.
  - rewrite col_set_col, String.eqb_refl. reflexivity.
Qed.

Lemma col_ensure_other (name name' : string) (cs : columns) :
  name <> name' -> col name (ensure_col name' cs) = col name cs.
Proof.
  intros Hn. unfold ensure_col. destruct (has_col name' cs); [reflexivity |].
  rewrite col_set_col. destruct (String.eqb_spec name name'); [contradiction | reflexivity].
Qed.

(** The columns [with_rates] leaves in a row of counts. *)
Lemma with_rates_cols (with_success_rate : bool) (cs : columns) :
  all_counts cs ->
  let s := int_col "success" cs in
  let f := int_col "failure" cs in
  let out := with_rates with_success_rate cs in
  0 <= s /\ 0 <= f
  /\ col "success" out = Some (CInt s)
  /\ col "failure" out = Some (CInt f)
  /\ col "total_changes" out = Some (CInt (s + f))
  /\ col "failure_rate" out = Some (CFloat (round2 (times100 (truediv f (s + f)))))
  /\ (with_success_rate = true ->
      col "success_rate" out = Some (CFloat (round2 (times100 (truediv s (s + f)))))).
Proof.
  intros H s f out.
  pose proof (all_counts_ensure "success" cs H) as H1.
  pose proof (all_counts_ensure "failure" _ H1) as H2.
  set (cs2 := ensure_col "failure" (ensure_col "success" cs)) in *.
  assert (Es : col "success" cs2 = Some (CInt s)).
  { unfold cs2. rewrite col_ensure_other by discriminate. apply col_ensured, H. }
  assert (Ef : col "failure" cs2 = Some (CInt f)).
  { unfold cs2. rewrite (col_ensured "failure" _ H1). unfold int_col.
    rewrite col_ensure_other by discriminate. reflexivity. }
  assert (Is : int_col "success" cs2 = s) by (unfold int_col; rewrite Es; reflexivity).
  assert (If : int_col "failure" cs2 = f) by (unfold int_col; rewrite Ef; reflexivity).
  split; [apply int_col_count, H |]. split; [apply int_col_count, H |].
  unfold out, with_rates. fold cs2. rewrite Is, If.
  set (cs3 := set_col "total_changes" (CInt (s + f)) cs2).
  assert (I3f : int_col "failure" cs3 = f).
  { unfold int_col, cs3. rewrite col_set_col. simpl. rewrite Ef. reflexivity. }
  assert (I3s : int_col "success" cs3 = s).
  { unfold int_col, cs3. rewrite col_set_col. simpl. rewrite Es. reflexivity. }
  assert (I3t : int_col "total_changes" cs3 = s + f).
  { unfold int_col, cs3. rewrite col_set_col. reflexivity. }
  rewrite I3f, I3t.
  set (cs4 := set_col "failure_rate" _ cs3).
  assert (I4s : int_col "success" cs4 = s).
  { unfold int_col, cs4. rewrite col_set_col. simpl. exact I3s. }
  assert (I4t : int_col "total_changes" cs4 = s + f).
  { unfold int_col, cs4. rewrite col_set_col. simpl. exact I3t. }
  destruct with_success_rate.
  - rewrite I4s, I4t. unfold cs4, cs3. rewrite !col_set_col. simpl.
    repeat split; auto.
  - unfold cs4, cs3. rewrite !col_set_col. simpl.
    repeat split; auto. discriminate.
Qed.

(** ** The change-failure tables *)

Section UnstackFacts.
Context {P : Type}.
Variable key_eqb : P * string -> P * string -> bool.
Variable key_leb : P * string -> P * string -> bool.
Hypothesis key_eqb_eq : forall x y, key_eqb x y = true <-> x = y.

Lemma group_status_eqb_eq (x y : (P * string) * string) :
  group_status_eqb key_eqb x y = true <-> x = y.
Proof.
  exact (pair_eqb_eq key_eqb String.eqb key_eqb_eq String.eqb_eq x y).
Qed.

Lemma col_status_cells (g : string -> Z) (statuses : list string) (st : string) :
  col st (map (fun s => (s, CInt (g s))) statuses)
  = if existsb (String.eqb st) statuses then Some (CInt (g st)) else None.
Proof.
  induction statuses as [| s l IH]; simpl; [reflexivity |].
  destruct (String.eqb_spec st s) as [-> | Hn]; simpl; [reflexivity | exact IH].
Qed.

(** A row of the unstacked table: its key occurs in the frame, and the cell
    under each status is the number of frame rows with that key and that
    status; a status with no column has no such row. *)
Lemma unstack_row (keys : list ((P * string) * string)) (k : P * string) (cs : columns) :
  In (k, cs) (unstack_sizes key_eqb key_leb keys) ->
  In k (map fst keys) /\ all_counts cs
  /\ forall st, int_col st cs = count_key (group_status_eqb key_eqb) (k, st) keys.
Proof.
  unfold unstack_sizes. intros H. cbv zeta in H.
  apply in_map_iff in H as (k' & E & Hin). injection E as E1 E2. subst k' cs.
  apply (proj1 (In_group_keys key_eqb key_leb key_eqb_eq _ _)) in Hin.
  split; [exact Hin |]. split.
  - intros name c. rewrite col_status_cells.
    destruct (existsb _ _); [| discriminate].
    intros E. injection E as <-. eexists. split; [reflexivity |].
    apply count_key_nonneg.
  - intros st. unfold int_col. rewrite col_status_cells.
    destruct (existsb (String.eqb st) _) eqn:E; [reflexivity |].
    symmetry. apply (count_key_absent _ group_status_eqb_eq).
    intros Hk. apply (in_map snd) in Hk. simpl in Hk.
    apply (In_group_keys String.eqb String.leb String.eqb_eq) in Hk.
    apply (existsb_key String.eqb String.eqb_eq) in Hk. congruence.
Qed.

Lemma failure_table_row (with_success_rate : bool) (level : string)
  (keys : list ((P * string) * string)) (rows : list (cfr_row P)) (r : cfr_row P) :
  failure_table key_eqb key_leb with_success_rate level keys = Ok rows ->
  In r rows ->
  exists cs, In ((cfr_period r, cfr_service r), cs) (unstack_sizes key_eqb key_leb keys)
             /\ cfr_cells r = with_rates with_success_rate cs.
Proof.
  unfold failure_table, reset_index. intros H Hin.
  apply for_each_ok in H.
  destruct (Forall2_In_r _ _ _ _ H Hin) as ([k cs'] & Hk & E).
  apply in_map_iff in Hk as ([k0 cs] & E0 & Hk). simpl in E0.
  injection E0 as E1 E2. subst k cs'. simpl in E.
  destruct (_ || _); [discriminate |]. injection E as <-. simpl.
  exists cs. split; [| reflexivity]. destruct k0. exact Hk.
Qed.
End UnstackFacts.

(** What a populated change-failure result is made of. *)
Lemma change_tables_made (metrics : list dict) (t : change_tables) :
  calculate_change_failure_rate metrics = Ok (Tables t) ->
  exists days weeks weekly_cfr,
    for_each (bucket_status dt_date) (cfr_raw t) = Ok days
    /\ failure_table day_key_eqb day_key_leb true "date" days = Ok (cfr_daily t)
    /\ for_each (bucket_status to_period_W) (cfr_raw t) = Ok weeks
    /\ failure_table period_key_eqb period_key_leb false "week" weeks = Ok weekly_cfr
    /\ cfr_weekly t = map label_week weekly_cfr.
Proof.
  unfold calculate_change_failure_rate. intros H.
  apply bind_ok in H as (changes & _ & H).
  destruct changes as [| c cs]; [discriminate |].
  apply bind_ok in H as (df & _ & H).
  apply bind_ok in H as (days & Hdays & H).
  apply bind_ok in H as (daily & Hdaily & H).
  apply bind_ok in H as (weeks & Hweeks & H).
  apply bind_ok in H as (weekly & Hweekly & H).
  injection H as <-. simpl. exists days, weeks, weekly. auto.
Qed.

Lemma daily_cells_made (metrics : list dict) (cells : columns) :
  In cells (daily_cells (calculate_change_failure_rate metrics)) ->
  exists cs, all_counts cs /\ cells = with_rates true cs.
Proof.
  unfold daily_cells.
  destruct (calculate_change_failure_rate metrics) as [[| t] | e] eqn:E;
    try contradiction.
  intros Hin. apply in_map_iff in Hin as (r & <- & Hin).
  destruct (change_tables_made _ _ E) as (days & weeks & wk & _ & Hd & _).
  destruct (failure_table_row _ _ _ _ _ _ _ Hd Hin) as (cs & Hcs & ->).
  apply (unstack_row _ _ day_key_eqb_eq) in Hcs as (_ & Hc & _).
  exists cs. auto.
Qed.

Lemma weekly_cells_made (metrics : list dict) (cells : columns) :
  In cells (weekly_cells (calculate_change_failure_rate metrics)) ->
  exists cs, all_counts cs /\ cells = with_rates false cs.
Proof.
  unfold weekly_cells.
  destruct (calculate_change_failure_rate metrics) as [[| t] | e] eqn:E;
    try contradiction.
  intros Hin. apply in_map_iff in Hin as (r & <- & Hin).
  destruct (change_tables_made _ _ E) as (days & weeks & wk & _ & _ & _ & Hw & Ht).
  rewrite Ht in Hin. apply in_map_iff in Hin as (r0 & <- & Hin). simpl.
  destruct (failure_table_row _ _ _ _ _ _ _ Hw Hin) as (cs & Hcs & ->).
  apply (unstack_row _ _ period_key_eqb_eq) in Hcs as (_ & Hc & _).
  exists cs. auto.
Qed.

Lemma int_col_of_col (name : string) (cs : columns) (n : Z) :
  col name cs = Some (CInt n) -> int_col name cs = n.
Proof. unfold int_col. intros ->. reflexivity. Qed.

Lemma float_col_of_col (name : string) (cs : columns) (x : float64) :
  col name cs = Some (CFloat x) -> float_col name cs = Some x.
Proof. unfold float_col. intros ->. reflexivity. Qed.

(** C3, as the code has it: in every row of the daily and of the weekly
    change-failure table, [total_changes = success + failure] with
    [0 <= failure <= total_changes]; when [total_changes] is not 0,
    [failure_rate] is [failure / total_changes * 100] rounded to 2 decimal
    places and lies in [0, 100]; when [total_changes] is 0 the division is
    [0/0], which raises nothing and leaves NaN, not 0, in [failure_rate]. *)
Theorem failure_rate_of_row (metrics : list dict) (cells : columns) :
  In cells (daily_cells (calculate_change_failure_rate metrics))
  \/ In cells (weekly_cells (calculate_change_failure_rate metrics)) ->
  let failure := int_col "failure" cells in
  let total := int_col "total_changes" cells in
  total = int_col "success" cells + failure
  /\ 0 <= failure <= total
  /\ (total = 0 -> float_col "failure_rate" cells = Some NaN)
  /\ (total <> 0 ->
      exists q, float_col "failure_rate" cells = Some (Num q)
                /\ (0 <= q)%Q /\ (q <= 100)%Q
                /\ rounded_to_2dp (exact_rate failure total) q).
Proof.
  intros Hin.
  assert (H : exists b cs, all_counts cs /\ cells = with_rates b cs).
  { destruct Hin as [Hin | Hin].
    - apply daily_cells_made in Hin as (cs & ? & ?). exists true, cs. auto.
    - apply weekly_cells_made in Hin as (cs & ? & ?). exists false, cs. auto. }
  destruct H as (b & cs & Hc & ->).
  destruct (with_rates_cols b cs Hc) as (Hs & Hf & Es & Ef & Et & Er & _).
  cbv zeta.
  rewrite (int_col_of_col _ _ _ Es), (int_col_of_col _ _ _ Ef), (int_col_of_col _ _ _ Et).
  rewrite (float_col_of_col _ _ _ Er).
  set (s := int_col "success" cs) in *. set (f := int_col "failure" cs) in *.
  split; [reflexivity |]. split; [lia |]. split.
  - intros H0. assert (f = 0) by lia. assert (s = 0) by lia.
    replace (s + f) with 0 by lia. replace f with 0 by lia. reflexivity.
  - intros Hne. destruct (rate_value f (s + f)) as (q & -> & H1 & H2 & H3); [lia | lia |].
    exists q. auto.
Qed.

Lemma failure_rate_of_row_witness :
  let cells := hd [] (daily_cells (calculate_change_failure_rate sample_changes)) in
  int_col "total_changes" cells = int_col "success" cells + int_col "failure" cells
  /\ 0 <= int_col "failure" cells <= int_col "total_changes" cells
  /\ (int_col "total_changes" cells = 0 -> float_col "failure_rate" cells = Some NaN)
  /\ (int_col "total_changes" cells <> 0 ->
      exists q, float_col "failure_rate" cells = Some (Num q)
                /\ (0 <= q)%Q /\ (q <= 100)%Q
                /\ rounded_to_2dp
                     (exact_rate (int_col "failure" cells) (int_col "total_changes" cells)) q).
Proof.
  intros cells. apply (failure_rate_of_row sample_changes cells).
  left. vm_compute. auto.
Defined.

(** C3, as stated, fails: a day whose only change has status [cancelled] gets
    a row with [total_changes = 0] whose [failure_rate] is NaN, in the daily
    and in the weekly table; it is not 0. *)
Lemma failure_rate_is_nan_without_outcomes :
  exists daily weekly,
    daily_cells (calculate_change_failure_rate [sample_cancelled]) = [daily]
    /\ weekly_cells (calculate_change_failure_rate [sample_cancelled]) = [weekly]
    /\ int_col "total_changes" daily = 0
    /\ int_col "total_changes" weekly = 0
    /\ float_col "failure_rate" daily = Some NaN
    /\ float_col "failure_rate" weekly = Some NaN
    /\ ~ (exists x, float_col "failure_rate" daily = Some x /\ is_zero x)
    /\ ~ (exists x, float_col "failure_rate" weekly = Some x /\ is_zero x).
Proof.
  do 2 eexists.
  split; [vm_compute; reflexivity |]. split; [vm_compute; reflexivity |].
  repeat split; try reflexivity.
  - intros (x & E & Hx). vm_compute in E. injection E as <-. exact Hx.
  - intros (x & E & Hx). vm_compute in E. injection E as <-. exact Hx.
Qed.

(** ** The two rates of a daily row (C5) *)

(** The cell under a status counts the rows of the canonical table with that
    day, that service and exactly that status. *)
Lemma count_key_status (raw : list (stamped change))
  (days : list ((date * string) * string)) (d : date) (svc st : string) :
  for_each (bucket_status dt_date) raw = Ok days ->
  count_key (group_status_eqb day_key_eqb) ((d, svc), st) days
  = count_status raw d svc st.
Proof.
  unfold count_key, count_status. intros H. f_equal.
  apply for_each_ok in H.
  induction H as [| r k raw days Hr _ IH]; [reflexivity |].
  unfold bucket_status, bucket in Hr.
  apply bind_ok in Hr as (k0 & Hk & Hr).
  apply bind_ok in Hk as (s & Hs & Hk). injection Hk as <-.
  apply bind_ok in Hr as (st' & Hst & Hr). injection Hr as <-.
  apply hashable_ok in Hs, Hst.
  cbn [filter].
  replace (group_status_eqb day_key_eqb (d, svc, st) (dt_date (st_time r), s, st'))
    with (date_eqb d (dt_date (st_time r)) && value_is svc (ch_service (st_row r))
          && value_is st (ch_status (st_row r))).
  - destruct (_ && _); cbn [List.length]; rewrite IH; reflexivity.
  - rewrite Hs, Hst. reflexivity.
Qed.

(** Two values rounded to hundredths whose exact sum is 100 add up to
    99.99, 100 or 100.01, and to 100 unless they are rounding ties. *)
Lemma rounded_sum (x y a b : Q) :
  rounded_to_2dp x a -> rounded_to_2dp y b -> (x + y == 100)%Q ->
  ((a + b == 9999 # 100)%Q \/ (a + b == 100)%Q \/ (a + b == 10001 # 100)%Q)
  /\ (~ is_tie x -> (a + b == 100)%Q).
Proof.
  intros ((n & Ea) & Ha) ((m & Eb) & Hb) Hxy.
  apply Qabs_Qle_condition in Ha as [Ha1 Ha2].
  apply Qabs_Qle_condition in Hb as [Hb1 Hb2].
  assert (En : (a * 100 == inject_Z n)%Q) by (rewrite Ea; field).
  assert (Em : (b * 100 == inject_Z m)%Q) by (rewrite Eb; field).
  assert (Hlo : (inject_Z 9999 <= inject_Z (n + m))%Q).
  { rewrite inject_Z_plus. change (inject_Z 9999) with (9999 # 1)%Q. lra. }
  assert (Hhi : (inject_Z (n + m) <= inject_Z 10001)%Q).
  { rewrite inject_Z_plus. change (inject_Z 10001) with (10001 # 1)%Q. lra. }
  rewrite <- Zle_Qle in Hlo, Hhi.
  assert (Hsum : (a + b == inject_Z (n + m) / 100)%Q).
  { rewrite inject_Z_plus, Ea, Eb. field. }
  assert (Hcases : n + m = 9999 \/ n + m = 10000 \/ n + m = 10001) by lia.
  split.
  - destruct Hcases as [E | [E | E]]; rewrite Hsum, E; [left | right; left | right; right];
      reflexivity.
  - intros Hnt. destruct Hcases as [E | [E | E]].
    + exfalso. apply Hnt. exists n.
      assert (E' : (inject_Z n + inject_Z m == 9999 # 1)%Q).
      { rewrite <- inject_Z_plus, E. reflexivity. }
      lra.
    + rewrite Hsum, E. reflexivity.
    + exfalso. apply Hnt. exists (n - 1).
      assert (E' : (inject_Z n + inject_Z m == 10001 # 1)%Q).
      { rewrite <- inject_Z_plus, E. reflexivity. }
      unfold Z.sub. rewrite inject_Z_plus. change (inject_Z (- (1))) with (- (1))%Q. lra.
Qed.

(** C5, as the code has it: in every row of the daily change-failure table
    the [success] and [failure] cells count the rows of that day and service
    with exactly that status and [total_changes] is their sum.  When
    [total_changes] is not 0 each rate is its exact quotient rounded to 2
    decimal places, so the two add up to 100 whenever the exact rates are
    not rounding ties, and to 99.99, 100 or 100.01 at a tie.  With
    [total_changes = 0] both rates are NaN. *)
Theorem daily_rates_sum_to_100 (metrics : list dict) (t : change_tables) (r : cfr_row date) :
  calculate_change_failure_rate metrics = Ok (Tables t) ->
  In r (cfr_daily t) ->
  let cells := cfr_cells r in
  let success := int_col "success" cells in
  let failure := int_col "failure" cells in
  let total := int_col "total_changes" cells in
  success = count_status (cfr_raw t) (cfr_period r) (cfr_service r) "success"
  /\ failure = count_status (cfr_raw t) (cfr_period r) (cfr_service r) "failure"
  /\ total = success + failure
  /\ (total = 0 ->
      float_col "success_rate" cells = Some NaN
      /\ float_col "failure_rate" cells = Some NaN)
  /\ (total <> 0 ->
      exists sr fr,
        float_col "success_rate" cells = Some (Num sr)
        /\ float_col "failure_rate" cells = Some (Num fr)
        /\ rounded_to_2dp (exact_rate success total) sr
        /\ rounded_to_2dp (exact_rate failure total) fr
        /\ ((sr + fr == 9999 # 100)%Q \/ (sr + fr == 100)%Q \/ (sr + fr == 10001 # 100)%Q)
        /\ (~ is_tie (exact_rate success total) -> (sr + fr == 100)%Q)).
Proof.
  intros E Hin.
  destruct (change_tables_made _ _ E) as (days & weeks & wk & Hdays & Hd & _).
  destruct (failure_table_row _ _ _ _ _ _ _ Hd Hin) as (cs & Hcs & Hcells).
  apply (unstack_row _ _ day_key_eqb_eq) in Hcs as (_ & Hc & Hcount).
  cbv zeta. rewrite Hcells.
  destruct (with_rates_cols true cs Hc) as (Hs & Hf & Es & Ef & Et & Er & Esr).
  specialize (Esr eq_refl).
  rewrite (int_col_of_col _ _ _ Es), (int_col_of_col _ _ _ Ef), (int_col_of_col _ _ _ Et).
  rewrite (float_col_of_col _ _ _ Er), (float_col_of_col _ _ _ Esr).
  rewrite !Hcount. rewrite Hcount in Hs, Hf.
  rewrite !(count_key_status _ _ _ _ "success" Hdays).
  rewrite !(count_key_status _ _ _ _ "failure" Hdays).
  rewrite (count_key_status _ _ _ _ "success" Hdays) in Hs.
  rewrite (count_key_status _ _ _ _ "failure" Hdays) in Hf.
  set (s := count_status _ _ _ "success") in *.
  set (f := count_status _ _ _ "failure") in *.
  split; [reflexivity |]. split; [reflexivity |]. split; [reflexivity |].
  split.
  - intros H0. assert (Ef0 : f = 0) by lia. assert (Es0 : s = 0) by lia.
    rewrite Ef0, Es0. split; reflexivity.
  - intros Hne.
    destruct (rate_value s (s + f)) as (sr & E1 & _ & _ & R1); [lia | lia |].
    destruct (rate_value f (s + f)) as (fr & E2 & _ & _ & R2); [lia | lia |].
    exists sr, fr. rewrite E1, E2.
    split; [reflexivity |]. split; [reflexivity |].
    split; [exact R1 |]. split; [exact R2 |].
    apply (rounded_sum _ _ _ _ R1 R2).
    unfold exact_rate. rewrite inject_Z_plus.
    assert (Hpos : ~ (inject_Z s + inject_Z f == 0)%Q).
    { rewrite <- inject_Z_plus. change 0%Q with (inject_Z 0).
      rewrite inject_Z_injective. lia. }
    field. exact Hpos.
Qed.

Lemma daily_rates_sum_to_100_witness :
  let r := mkCfrRow (mkDate 2024 1 1) "A"
             [("cancelled", CInt 0); ("failure", CInt 1); ("success", CInt 1);
              ("total_changes", CInt 2); ("failure_rate", CFloat (Num 50));
              ("success_rate", CFloat (Num 50))] in
  exists sr fr,
    float_col "success_rate" (cfr_cells r) = Some (Num sr)
    /\ float_col "failure_rate" (cfr_cells r) = Some (Num fr)
    /\ rounded_to_2dp (exact_rate (int_col "success" (cfr_cells r))
                                  (int_col "total_changes" (cfr_cells r))) sr
    /\ rounded_to_2dp (exact_rate (int_col "failure" (cfr_cells r))
                                  (int_col "total_changes" (cfr_cells r))) fr
    /\ ((sr + fr == 9999 # 100)%Q \/ (sr + fr == 100)%Q \/ (sr + fr == 10001 # 100)%Q).
Proof.
  intros r.
  destruct (daily_rates_sum_to_100 sample_changes sample_change_tables r)
    as (_ & _ & _ & _ & H).
  - vm_compute. reflexivity.
  - vm_compute. auto.
  - destruct H as (sr & fr & H1 & H2 & H3 & H4 & H5 & _); [vm_compute; discriminate |].
    exists sr, fr. auto.
Defined.

(** C5, as stated, fails: the daily row of a day whose only change has status
    [cancelled] has NaN in both rates, and their sum is NaN, not 100. *)
Lemma rates_are_nan_without_outcomes :
  exists cells,
    daily_cells (calculate_change_failure_rate [sample_cancelled]) = [cells]
    /\ int_col "total_changes" cells = 0
    /\ rates_total cells = Some NaN
    /\ ~ (exists x, rates_total cells = Some x /\ is_100 x).
Proof.
  eexists. split; [vm_compute; reflexivity |].
  split; [reflexivity |]. split; [reflexivity |].
  intros (x & E & Hx). vm_compute in E. injection E as <-. exact Hx.
Qed.

(** ** The end-to-end scenario (C4) *)

Lemma zone_eqb_refl (z : option Z) : zone_eqb z z = true.
Proof. destruct z; simpl; [apply Z.eqb_refl | reflexivity]. Qed.

Lemma same_zone_all (z : option Z) (ts : list datetime) :
  (forall t, In t ts -> utcoffset t = z) -> same_zone ts = true.
Proof.
  destruct ts as [| t rest]; [reflexivity |]. intros H. simpl.
  apply forallb_forall. intros u Hu.
  rewrite (H t (or_introl eq_refl)), (H u (or_intror Hu)). apply zone_eqb_refl.
Qed.

(** C4: one deployment, one [success] and one [failure] change outcome, all
    for service A with time stamps on 2024-01-01 (any time of day, any
    deployment id), give the daily deployment table the single row
    (2024-01-01, A, 1) and the daily change-failure table the single row
    (2024-01-01, A) with success 1, failure 1, total_changes 2 and
    failure_rate 50.0.  (The two change-outcome time stamps are written in
    one zone, as a datetime column requires.) *)
Theorem end_to_end_scenario (ts1 ts2 ts3 : string) (t1 t2 t3 : datetime) (id : value) :
  to_datetime (VStr ts1) = Ok t1 -> dt_date t1 = mkDate 2024 1 1 ->
  to_datetime (VStr ts2) = Ok t2 -> dt_date t2 = mkDate 2024 1 1 ->
  to_datetime (VStr ts3) = Ok t3 -> dt_date t3 = mkDate 2024 1 1 ->
  utcoffset t2 = utcoffset t3 ->
  let metrics :=
    [event ts1 "A" "deployment_frequency" [("deployment_id", id)];
     event ts2 "A" "change_failure_rate" [("status", VStr "success")];
     event ts3 "A" "change_failure_rate" [("status", VStr "failure")]] in
  (exists dt, calculate_deployment_frequency metrics = Ok (Tables dt)
              /\ dep_daily dt = [(mkDate 2024 1 1, "A", 1)])
  /\ (exists ct cells,
        calculate_change_failure_rate metrics = Ok (Tables ct)
        /\ cfr_daily ct = [mkCfrRow (mkDate 2024 1 1) "A" cells]
        /\ col "success" cells = Some (CInt 1)
        /\ col "failure" cells = Some (CInt 1)
        /\ col "total_changes" cells = Some (CInt 2)
        /\ col "failure_rate" cells = Some (CFloat (Num 50))).
Proof.
  intros H1 D1 H2 D2 H3 D3 Hz metrics. split.
  - unfold metrics, calculate_deployment_frequency, event.
    cbn [extract contains lookup String.eqb Ascii.eqb Bool.eqb deployment_row
         getitem subscript get_default bind for_each].
    unfold stamp_frame, stamp. cbn [for_each dep_timestamp]. rewrite H1.
    cbn [bind for_each map same_zone forallb].
    unfold bucket, to_period_W, to_period_M.
    cbn [bind for_each hashable dep_service st_row st_time].
    rewrite D1. eexists. split; reflexivity.
  - unfold metrics, calculate_change_failure_rate, event.
    cbn [extract contains lookup String.eqb Ascii.eqb Bool.eqb change_row
         getitem subscript get_default bind for_each].
    unfold stamp_frame, stamp. cbn [for_each ch_timestamp]. rewrite H2, H3.
    cbn [bind for_each map same_zone forallb st_time].
    rewrite Hz, zone_eqb_refl. cbn [andb bind].
    unfold bucket_status, bucket, to_period_W.
    cbn [bind for_each hashable ch_service ch_status st_row st_time].
    rewrite D2, D3. do 2 eexists. split; [reflexivity |].
    repeat split; reflexivity.
Qed.

Lemma end_to_end_scenario_witness :
  (exists dt, calculate_deployment_frequency plain_scenario = Ok (Tables dt)
              /\ dep_daily dt = [(mkDate 2024 1 1, "A", 1)])
  /\ (exists ct cells,
        calculate_change_failure_rate plain_scenario = Ok (Tables ct)
        /\ cfr_daily ct = [mkCfrRow (mkDate 2024 1 1) "A" cells]
        /\ col "success" cells = Some (CInt 1)
        /\ col "failure" cells = Some (CInt 1)
        /\ col "total_changes" cells = Some (CInt 2)
        /\ col "failure_rate" cells = Some (CFloat (Num 50))).
Proof.
  apply (end_to_end_scenario
           "2024-01-01T09:30:00Z" "2024-01-01T10:00:00Z" "2024-01-01T16:45:00Z"
           (mkDatetime 2024 1 1 9 30 0 (Some 0))
           (mkDatetime 2024 1 1 10 0 0 (Some 0))
           (mkDatetime 2024 1 1 16 45 0 (Some 0))
           (VStr "run-101")); reflexivity.
Defined.

(** ** Daily counts against weekly counts (C6) *)

Section SumFacts.
Context {K : Type}.
Variable key_eqb : K -> K -> bool.
Variable key_leb : K -> K -> bool.
Hypothesis key_eqb_eq : forall x y, key_eqb x y = true <-> x = y.

Lemma count_if_cons (p : K -> bool) (x : K) (l : list K) :
  count_if p (x :: l) = (if p x then 1 else 0) + count_if p l.
Proof.
  unfold count_if. simpl. destruct (p x); simpl List.length; lia.
Qed.

Lemma sum_counts_perm (p : K -> bool) (c : K -> Z) (ks ks' : list K) :
  Permutation ks ks' ->
  sum_counts p (map (fun k => (k, c k)) ks) = sum_counts p (map (fun k => (k, c k)) ks').
Proof.
  induction 1 as [| x l l' _ IH | x y l | l l' l'' _ IH1 _ IH2]; simpl.
  - reflexivity.
  - rewrite IH. reflexivity.
  - destruct (p x), (p y); lia.
  - congruence.
Qed.

Lemma count_if_split (p e : K -> bool) (a : K) (m : list K) :
  e a = false ->
  count_if (fun x => p x && (key_eqb x a || e x)) m
  = (if p a then count_key key_eqb a m else 0) + count_if (fun x => p x && e x) m.
Proof.
  intros Ha. induction m as [| x m IH].
  - unfold count_if, count_key. simpl. destruct (p a); reflexivity.
  - rewrite !count_if_cons, IH.
    unfold count_key. cbn [filter].
    destruct (key_eqb x a) eqn:E.
    + apply key_eqb_eq in E. subst x.
      rewrite (key_eqb_refl key_eqb key_eqb_eq a), Ha.
      destruct (p a); cbn [andb orb List.length]; lia.
    + assert (E' : key_eqb a x = false).
      { destruct (key_eqb a x) eqn:E'; [| reflexivity].
        apply key_eqb_eq in E'. subst x.
        rewrite (key_eqb_refl key_eqb key_eqb_eq a) in E. discriminate. }
      rewrite E'. cbn [orb]. lia.
Qed.

Lemma sum_counts_distinct (p : K -> bool) (l m : list K) :
  sum_counts p (map (fun k => (k, count_key key_eqb k m)) (distinct key_eqb l))
  = count_if (fun x => p x && existsb (fun y => key_eqb x y) l) m.
Proof.
  induction l as [| a l IH]; simpl.
  - unfold count_if. replace (filter _ m) with (@nil K); [reflexivity |].
    symmetry. induction m as [| x m IHm]; simpl; [reflexivity |].
    rewrite andb_false_r. exact IHm.
  - destruct (existsb (key_eqb a) l) eqn:Ea.
    + rewrite IH. unfold count_if. f_equal. f_equal. apply filter_ext.
      intros x. destruct (key_eqb x a) eqn:E; [| reflexivity].
      apply key_eqb_eq in E. subst x. simpl.
      apply (existsb_key key_eqb key_eqb_eq) in Ea.
      assert (H : existsb (fun y => key_eqb a y) l = true).
      { apply existsb_exists. exists a.
        split; [exact Ea | apply (key_eqb_refl key_eqb key_eqb_eq)]. }
      rewrite H. reflexivity.
    + simpl. rewrite IH.
      rewrite (count_if_split p (fun x => existsb (fun y => key_eqb x y) l) a m Ea).
      destruct (p a); lia.
Qed.

(** Summing the sizes of the groups whose key satisfies [p] counts the frame
    rows whose key satisfies [p]. *)
Lemma sum_counts_groupby (p : K -> bool) (l : list K) :
  sum_counts p (groupby_size key_eqb key_leb l) = count_if p l.
Proof.
  unfold groupby_size.
  rewrite (sum_counts_perm p _ _ _ (group_keys_perm key_eqb key_leb l)).
  rewrite sum_counts_distinct. unfold count_if. f_equal. f_equal.
  apply filter_ext_in. intros x Hx.
  assert (H : existsb (fun y => key_eqb x y) l = true).
  { apply existsb_exists. exists x.
    split; [exact Hx | apply (key_eqb_refl key_eqb key_eqb_eq)]. }
  rewrite H. apply andb_true_r.
Qed.
End SumFacts.

Lemma count_key_map {A K : Type} (key_eqb : K -> K -> bool) (g : A -> K) (k : K) (l : list A) :
  count_key key_eqb k (map g l) = count_if (fun x => key_eqb k (g x)) l.
Proof.
  unfold count_key, count_if. f_equal.
  induction l as [| x l IH]; simpl; [reflexivity |].
  destruct (key_eqb k (g x)); simpl; rewrite IH; reflexivity.
Qed.

(** What a populated deployment result is made of: three groupings of the
    same canonical table. *)
Lemma deployment_tables_made (metrics : list dict) (t : deployment_tables) :
  calculate_deployment_frequency metrics = Ok (Tables t) ->
  exists days weeks months,
    for_each (bucket dep_service dt_date) (dep_raw t) = Ok days
    /\ dep_daily t = groupby_size day_key_eqb day_key_leb days
    /\ for_each (bucket dep_service to_period_W) (dep_raw t) = Ok weeks
    /\ dep_weekly t
       = map (label_period week_str) (groupby_size period_key_eqb period_key_leb weeks)
    /\ for_each (bucket dep_service to_period_M) (dep_raw t) = Ok months
    /\ dep_monthly t
       = map (label_period month_str) (groupby_size period_key_eqb period_key_leb months).
Proof.
  unfold calculate_deployment_frequency. intros H.
  apply bind_ok in H as (deployments & _ & H).
  destruct deployments as [| d ds]; [discriminate |].
  apply bind_ok in H as (df & _ & H).
  apply bind_ok in H as (days & Hdays & H).
  apply bind_ok in H as (weeks & Hweeks & H).
  apply bind_ok in H as (months & Hmonths & H).
  injection H as <-. simpl. exists days, weeks, months. auto 10.
Qed.

(** The week keys of a frame are the week keys of its day keys. *)
Lemma weeks_of_days {A : Type} (service : A -> value) (df : list (stamped A))
  (days : list (date * string)) (weeks : list (Z * string)) :
  for_each (bucket service dt_date) df = Ok days ->
  for_each (bucket service to_period_W) df = Ok weeks ->
  weeks = map (fun k => (period_W (fst k), snd k)) days.
Proof.
  intros Hd Hw. apply for_each_ok in Hd, Hw.
  revert weeks Hw. induction Hd as [| r k df days Hr _ IH]; intros weeks Hw.
  - inversion Hw. reflexivity.
  - inversion Hw as [| r' k' df' weeks' Hr' Hw']; subst. simpl. f_equal; [| auto].
    unfold bucket in Hr, Hr'.
    destruct (hashable (service (st_row r))); simpl in Hr, Hr'; [| discriminate].
    injection Hr as <-. injection Hr' as <-. reflexivity.
Qed.

(** C6: in a populated deployment result every weekly row holds, for its week
    and service, the sum of the [deployment_count] of the daily rows of that
    service whose day lies in that week, and every daily row is covered by
    such a weekly row; a (day, service) pair has one daily row; the daily,
    weekly and monthly tables are each a grouping of the same canonical
    table. *)
Theorem weekly_count_is_sum_of_daily (metrics : list dict) (t : deployment_tables) :
  calculate_deployment_frequency metrics = Ok (Tables t) ->
  (forall label svc c,
      In (label, svc, c) (dep_weekly t) ->
      exists w, label = week_str w
                /\ c = daily_count_in_week (dep_daily t) w svc
                /\ exists d c', In (d, svc, c') (dep_daily t) /\ period_W d = w)
  /\ (forall d svc c',
         In (d, svc, c') (dep_daily t) ->
         In (week_str (period_W d), svc,
             daily_count_in_week (dep_daily t) (period_W d) svc) (dep_weekly t))
  /\ NoDup (map fst (dep_daily t))
  /\ (exists days weeks months,
         for_each (bucket dep_service dt_date) (dep_raw t) = Ok days
         /\ dep_daily t = groupby_size day_key_eqb day_key_leb days
         /\ for_each (bucket dep_service to_period_W) (dep_raw t) = Ok weeks
         /\ dep_weekly t
            = map (label_period week_str)
                  (groupby_size period_key_eqb period_key_leb weeks)
         /\ for_each (bucket dep_service to_period_M) (dep_raw t) = Ok months
         /\ dep_monthly t
            = map (label_period month_str)
                  (groupby_size period_key_eqb period_key_leb months)).
Proof.
  intros E.
  destruct (deployment_tables_made _ _ E)
    as (days & weeks & months & Hd & Ed & Hw & Ew & Hm & Em).
  pose proof (weeks_of_days _ _ _ _ Hd Hw) as Hweeks.
  assert (Hsum : forall w svc,
             count_key period_key_eqb (w, svc) weeks
             = daily_count_in_week (dep_daily t) w svc).
  { intros w svc. rewrite Hweeks, count_key_map, Ed.
    symmetry.
    exact (sum_counts_groupby day_key_eqb day_key_leb day_key_eqb_eq
             (fun k => period_key_eqb (w, svc) (period_W (fst k), snd k)) days). }
  split; [| split; [| split]].
  - intros label svc c Hin. rewrite Ew in Hin.
    apply in_map_iff in Hin as ([[w s] c0] & Hl & Hin). simpl in Hl.
    injection Hl as <- <- <-.
    apply (groupby_size_In _ _ period_key_eqb_eq) in Hin as (Hin & ->).
    exists w. split; [reflexivity |]. split; [apply Hsum |].
    rewrite Hweeks in Hin. apply in_map_iff in Hin as ([d s'] & Hk & Hin).
    simpl in Hk. injection Hk as <- <-.
    exists d, (count_key day_key_eqb (d, s') days). split; [| reflexivity].
    rewrite Ed. apply (groupby_size_In _ _ day_key_eqb_eq). auto.
  - intros d svc c' Hin. rewrite Ed in Hin.
    apply (groupby_size_In _ _ day_key_eqb_eq) in Hin as (Hin & _).
    rewrite Ew. apply in_map_iff.
    exists (period_W d, svc, count_key period_key_eqb (period_W d, svc) weeks).
    split; [simpl; rewrite Hsum; reflexivity |].
    apply (groupby_size_In _ _ period_key_eqb_eq). split; [| reflexivity].
    rewrite Hweeks. apply in_map_iff. exists (d, svc). auto.
  - rewrite Ed. unfold groupby_size. rewrite map_map. cbn [fst]. rewrite map_id.
    apply (NoDup_group_keys _ _ day_key_eqb_eq).
  - exists days, weeks, months. auto 10.
Qed.

Lemma weekly_count_is_sum_of_daily_witness :
  In ("2024-01-01/2024-01-07", "A", 3) (dep_weekly sample_deployment_tables)
  /\ daily_count_in_week (dep_daily sample_deployment_tables) 2819 "A" = 3
  /\ In ("2023-12-25/2023-12-31", "A",
         daily_count_in_week (dep_daily sample_deployment_tables)
           (period_W (mkDate 2023 12 31)) "A")
        (dep_weekly sample_deployment_tables).
Proof.
  destruct (weekly_count_is_sum_of_daily sample_deployments sample_deployment_tables)
    as (_ & Hcover & _ & _).
  - vm_compute. reflexivity.
  - split; [vm_compute; auto |]. split; [vm_compute; reflexivity |].
    apply (Hcover (mkDate 2023 12 31) "A" 1). vm_compute. auto.
Defined.

(** ** Weekly buckets (C8) *)

Lemma period_W_monday (d1 d2 : date) :
  period_W d1 = period_W d2 <-> monday_of d1 = monday_of d2.
Proof.
  unfold period_W, unix_date, monday_of, weekday, ORD_OFFSET, WEEK_OFFSET.
  generalize (toordinal d1) (toordinal d2). intros a b.
  pose proof (Z.div_mod (a - 1) 7). pose proof (Z.mod_pos_bound (a - 1) 7).
  pose proof (Z.div_mod (b - 1) 7). pose proof (Z.mod_pos_bound (b - 1) 7).
  replace (a - 719163 + 719163 - 1) with (a - 1) by lia.
  replace (b - 719163 + 719163 - 1) with (b - 1) by lia.
  replace ((a + 6) mod 7) with ((a - 1) mod 7)
    by (replace (a + 6) with (a - 1 + 1 * 7) by lia; apply eq_sym, Z.mod_add; lia).
  replace ((b + 6) mod 7) with ((b - 1) mod 7)
    by (replace (b + 6) with (b - 1 + 1 * 7) by lia; apply eq_sym, Z.mod_add; lia).
  lia.
Qed.

(** The first day of the weekly period of [d] is the Monday of [d]'s week. *)
Lemma week_start_monday (d : date) : week_start_ordinal (period_W d) = monday_of d.
Proof.
  unfold week_start_ordinal, period_W, unix_date, monday_of, weekday,
    ORD_OFFSET, WEEK_OFFSET.
  generalize (toordinal d). intros a.
  pose proof (Z.div_mod (a - 1) 7). pose proof (Z.mod_pos_bound (a - 1) 7).
  replace (a - 719163 + 719163 - 1) with (a - 1) by lia.
  replace ((a + 6) mod 7) with ((a - 1) mod 7)
    by (replace (a + 6) with (a - 1 + 1 * 7) by lia; apply eq_sym, Z.mod_add; lia).
  lia.
Qed.

(** *** The ISO calendar *)

Lemma year_length (y : Z) :
  days_before_year (y + 1) - days_before_year y = 365 + (if is_leap y then 1 else 0).
Proof.
  unfold days_before_year, is_leap. replace (y + 1 - 1) with y by lia.
  destruct (Z.eqb_spec (y mod 4) 0), (Z.eqb_spec (y mod 100) 0), (Z.eqb_spec (y mod 400) 0);
    simpl; Z.div_mod_to_equations; lia.
Qed.

Lemma day_of_year_bounds (y m d : Z) :
  valid_ymd y m d = true ->
  1 <= days_before_month y m + d <= 365 + (if is_leap y then 1 else 0).
Proof.
  unfold valid_ymd. rewrite !andb_true_iff, !Z.leb_le.
  intros [[[[[_ _] Hm1] Hm12] Hd1] Hd].
  assert (Hm : m = 1 \/ m = 2 \/ m = 3 \/ m = 4 \/ m = 5 \/ m = 6 \/ m = 7 \/ m = 8
               \/ m = 9 \/ m = 10 \/ m = 11 \/ m = 12) by lia.
  unfold days_before_month.
  destruct Hm as [-> | [-> | [-> | [-> | [-> | [-> | [-> | [-> | [-> | [-> | [-> | ->]]]]]]]]]]];
    cbn -[Z.add is_leap] in Hd |- *; destruct (is_leap y); cbn -[Z.add] in Hd |- *; lia.
Qed.

Lemma toordinal_in_year (d : date) :
  valid_ymd (d_year d) (d_month d) (d_day d) = true ->
  ymd2ord (d_year d) 1 1 <= toordinal d < ymd2ord (d_year d + 1) 1 1.
Proof.
  intros H. apply day_of_year_bounds in H.
  pose proof (year_length (d_year d)).
  unfold toordinal, ymd2ord, days_before_month. cbn -[days_before_year is_leap Z.add].
  unfold days_before_month in H.
  lia.
Qed.

Lemma isoweek1monday_spec (y : Z) :
  (isoweek1monday y - 1) mod 7 = 0
  /\ ymd2ord y 1 1 - 3 <= isoweek1monday y <= ymd2ord y 1 1 + 3.
Proof.
  unfold isoweek1monday. generalize (ymd2ord y 1 1). intros j.
  cbv zeta. destruct (Z.ltb_spec 3 ((j + 6) mod 7)); Z.div_mod_to_equations; lia.
Qed.

Lemma isoweek1monday_step (y : Z) :
  isoweek1monday (y + 1) = isoweek1monday y + 364
  \/ isoweek1monday (y + 1) = isoweek1monday y + 371.
Proof.
  destruct (isoweek1monday_spec y) as [M0 B0].
  destruct (isoweek1monday_spec (y + 1)) as [M1 B1].
  pose proof (year_length y) as L.
  assert (J : ymd2ord (y + 1) 1 1 - ymd2ord y 1 1 = 365 + (if is_leap y then 1 else 0)).
  { unfold ymd2ord, days_before_month. cbn -[days_before_year is_leap Z.add]. lia. }
  destruct (is_leap y); Z.div_mod_to_equations; lia.
Qed.

Lemma isoweek1monday_mono (y n : Z) :
  0 <= n -> isoweek1monday y + 364 * n <= isoweek1monday (y + n).
Proof.
  intros Hn. pattern n. apply natlike_ind; [| | exact Hn]; cbv beta.
  - replace (y + 0) with y by lia. lia.
  - intros k Hk IH. replace (y + Z.succ k) with (y + k + 1) by lia.
    destruct (isoweek1monday_step (y + k)); lia.
Qed.

Lemma iso_year_unique (o y y' : Z) :
  isoweek1monday y <= o < isoweek1monday (y + 1) ->
  isoweek1monday y' <= o < isoweek1monday (y' + 1) ->
  y = y'.
Proof.
  intros H H'.
  destruct (Z.lt_trichotomy y y') as [L | [E | L]]; [| exact E |]; exfalso.
  - pose proof (isoweek1monday_mono (y + 1) (y' - (y + 1))) as M.
    replace (y + 1 + (y' - (y + 1))) with y' in M by lia. lia.
  - pose proof (isoweek1monday_mono (y' + 1) (y - (y' + 1))) as M.
    replace (y' + 1 + (y - (y' + 1))) with y in M by lia. lia.
Qed.

(** The ISO year of a day is the one whose week 1 opens on or before the day
    while the next year's week 1 opens after it; the week number counts the
    weeks from that Monday. *)
Lemma iso_year_week_spec (d : date) (Y W : Z) :
  valid_ymd (d_year d) (d_month d) (d_day d) = true ->
  iso_year_week d = (Y, W) ->
  isoweek1monday Y <= toordinal d < isoweek1monday (Y + 1)
  /\ W = (toordinal d - isoweek1monday Y) / 7 + 1.
Proof.
  intros Hv. pose proof (toordinal_in_year d Hv) as Hy.
  set (y := d_year d) in *. set (o := toordinal d) in *.
  destruct (isoweek1monday_spec y) as [_ B0].
  destruct (isoweek1monday_spec (y + 1)) as [_ B1].
  pose proof (isoweek1monday_step y) as S0.
  pose proof (isoweek1monday_step (y - 1)) as Sm.
  replace (y - 1 + 1) with y in Sm by lia.
  pose proof (isoweek1monday_step (y + 1)) as S1.
  replace (y + 1 + 1) with (y + 2) in S1 by lia.
  unfold iso_year_week. fold y o. cbv zeta.
  destruct (Z.ltb_spec ((o - isoweek1monday y) / 7) 0) as [Hneg | Hpos].
  - intros E. injection E as <- <-. replace (y - 1 + 1) with y by lia.
    split; [| reflexivity].
    assert (o < isoweek1monday y) by (Z.div_mod_to_equations; lia). lia.
  - destruct (Z.leb_spec 52 ((o - isoweek1monday y) / 7)) as [H52 | H52];
      destruct (Z.leb_spec (isoweek1monday (y + 1)) o) as [Hnext | Hnext];
      cbn [andb]; intros E; injection E as <- <-.
    + replace (y + 1 + 1) with (y + 2) by lia.
      split; [lia |]. Z.div_mod_to_equations; lia.
    + split; [| reflexivity]. Z.div_mod_to_equations; lia.
    + split; [| reflexivity]. Z.div_mod_to_equations; lia.
    + split; [| reflexivity]. Z.div_mod_to_equations; lia.
Qed.

Lemma monday_of_iso (d : date) (Y W : Z) :
  valid_ymd (d_year d) (d_month d) (d_day d) = true ->
  iso_year_week d = (Y, W) ->
  monday_of d = isoweek1monday Y + 7 * (W - 1)
  /\ isoweek1monday Y <= monday_of d < isoweek1monday (Y + 1).
Proof.
  intros Hv E. destruct (iso_year_week_spec d Y W Hv E) as [B ->].
  destruct (isoweek1monday_spec Y) as [M0 _].
  destruct (isoweek1monday_spec (Y + 1)) as [M1 _].
  unfold monday_of, weekday. generalize dependent (toordinal d). intros o _ B.
  Z.div_mod_to_equations. lia.
Qed.

Lemma iso_week_monday (d1 d2 : date) :
  valid_ymd (d_year d1) (d_month d1) (d_day d1) = true ->
  valid_ymd (d_year d2) (d_month d2) (d_day d2) = true ->
  (iso_year_week d1 = iso_year_week d2 <-> monday_of d1 = monday_of d2).
Proof.
  intros V1 V2.
  destruct (iso_year_week d1) as [Y1 W1] eqn:E1.
  destruct (iso_year_week d2) as [Y2 W2] eqn:E2.
  destruct (monday_of_iso d1 Y1 W1 V1 E1) as [M1 B1].
  destruct (monday_of_iso d2 Y2 W2 V2 E2) as [M2 B2].
  split.
  - intros E. injection E as -> ->. lia.
  - intros E. rewrite E in B1.
    assert (Y1 = Y2) by (eapply iso_year_unique; eauto). subst Y2.
    f_equal. lia.
Qed.

Lemma to_datetime_valid (v : value) (t : datetime) :
  to_datetime v = Ok t -> valid_ymd (year t) (month t) (day t) = true.
Proof.
  unfold to_datetime. intros H. apply bind_ok in H as (t' & Hp & H).
  destruct (_ && _); [| discriminate]. injection H as <-.
  unfold parser_parse in Hp. destruct v as [s | d]; [| discriminate].
  destruct (parse_iso s) as [t0 |] eqn:E; [| discriminate]. injection Hp as <-.
  unfold parse_iso in E.
  destruct (list_ascii_of_string s)
    as [| y1 [| y2 [| y3 [| y4 [| c1 [| m1 [| m2 [| c2 [| d1 [| d2 rest]]]]]]]]]];
    try discriminate.
  destruct (digits4 y1 y2 y3 y4); [| discriminate].
  destruct (digits2 m1 m2); [| discriminate].
  destruct (digits2 d1 d2); [| discriminate].
  destruct (parse_clock rest) as [[[[hh mi] ss] off] |]; [| discriminate].
  destruct (is_char c1 "-" && is_char c2 "-" && valid_ymd z z0 z1) eqn:Ev;
    [| discriminate].
  injection E as <-. simpl. apply andb_true_iff in Ev. apply Ev.
Qed.



(** ** Records carrying several payloads (C9) *)

Lemma extract_rows {A : Type} (key : string) (row : dict -> result A)
  (metrics : list dict) :
  extractable key row metrics ->
  exists rows,
    extract key row metrics = Ok rows
    /\ List.length rows = List.length (filter (contains key) metrics)
    /\ forall m, In m metrics -> contains key m = true ->
                 exists r, row m = Ok r /\ In r rows.
Proof.
  intros H. destruct (extract_total key row metrics H) as (rows & E).
  exists rows. split; [exact E |].
  apply extract_ok in E. split.
  - symmetry. eapply Forall2_length. exact E.
  - intros m Hin Hk.
    destruct (Forall2_In_l _ _ _ m E) as (r & Hr & Hrow).
    + apply filter_In. auto.
    + eauto.
Qed.


(** ** The date range of the summary (C10) *)

Lemma string_compare_refl (s : string) : String.compare s s = Eq.
Proof.
  induction s as [| a s IH]; simpl; [reflexivity |].
  unfold Ascii.compare. rewrite N.compare_refl. exact IH.
Qed.

Lemma string_compare_trans (a b c : string) :
  String.compare a b <> Gt -> String.compare b c <> Gt -> String.compare a c <> Gt.
Proof.
  revert b c. induction a as [| x a IH]; intros [| y b] [| z c]; simpl;
    try congruence.
  unfold Ascii.compare.
  destruct (N.compare_spec (N_of_ascii x) (N_of_ascii y)) as [Exy | Lxy | Gxy];
    destruct (N.compare_spec (N_of_ascii y) (N_of_ascii z)) as [Eyz | Lyz | Gyz];
    destruct (N.compare_spec (N_of_ascii x) (N_of_ascii z)) as [Exz | Lxz | Gxz];
    try congruence; try lia.
  apply IH.
Qed.

Lemma string_leb_trans (a b c : string) :
  String.leb a b = true -> String.leb b c = true -> String.leb a c = true.
Proof.
  unfold String.leb. intros Hab Hbc.
  destruct (String.compare a c) eqn:Eac; try reflexivity.
  exfalso. apply (string_compare_trans a b c); [| | exact Eac].
  - destruct (String.compare a b); congruence.
  - destruct (String.compare b c); congruence.
Qed.

Lemma string_leb_refl (a : string) : String.leb a a = true.
Proof. unfold String.leb. rewrite string_compare_refl. reflexivity. Qed.

Lemma string_ltb_leb (a b : string) : String.ltb a b = true -> String.leb a b = true.
Proof. unfold String.ltb, String.leb. destruct (String.compare a b); congruence. Qed.

Lemma string_nltb_leb (a b : string) : String.ltb a b = false -> String.leb b a = true.
Proof.
  unfold String.ltb, String.leb. rewrite (String.compare_antisym a b).
  destruct (String.compare b a); simpl; congruence.
Qed.

(** On text the loop of [min] returns an item below every item. *)
Lemma min_loop_text (best : string) (items : list string) :
  exists m, min_loop (VStr best) (map VStr items) = Ok (VStr m)
            /\ In m (best :: items)
            /\ forall s, In s (best :: items) -> String.leb m s = true.
Proof.
  revert best. induction items as [| x items IH]; intros best; simpl.
  - exists best. split; [reflexivity |]. split; [auto |].
    intros s [<- | []]. apply string_leb_refl.
  - destruct (String.ltb x best) eqn:E.
    + destruct (IH x) as (m & Hm & Hin & Hle). exists m.
      split; [exact Hm |]. split; [simpl in Hin; tauto |].
      intros s [<- | Hs]; [| auto].
      apply (string_leb_trans m x best); [apply Hle; left; reflexivity |].
      apply string_ltb_leb, E.
    + destruct (IH best) as (m & Hm & Hin & Hle). exists m.
      split; [exact Hm |]. split; [simpl in Hin; simpl; tauto |].
      intros s [<- | [<- | Hs]].
      * apply Hle. left. reflexivity.
      * apply (string_leb_trans m best x); [apply Hle; left; reflexivity |].
        apply string_nltb_leb, E.
      * apply Hle. right. exact Hs.
Qed.

(** On text the loop of [max] returns an item above every item. *)
Lemma max_loop_text (best : string) (items : list string) :
  exists m, max_loop (VStr best) (map VStr items) = Ok (VStr m)
            /\ In m (best :: items)
            /\ forall s, In s (best :: items) -> String.leb s m = true.
Proof.
  revert best. induction items as [| x items IH]; intros best; simpl.
  - exists best. split; [reflexivity |]. split; [auto |].
    intros s [<- | []]. apply string_leb_refl.
  - destruct (String.ltb best x) eqn:E.
    + destruct (IH x) as (m & Hm & Hin & Hle). exists m.
      split; [exact Hm |]. split; [simpl in Hin; tauto |].
      intros s [<- | Hs]; [| auto].
      apply (string_leb_trans best x m); [| apply Hle; left; reflexivity].
      apply string_ltb_leb, E.
    + destruct (IH best) as (m & Hm & Hin & Hle). exists m.
      split; [exact Hm |]. split; [simpl in Hin; simpl; tauto |].
      intros s [<- | [<- | Hs]].
      * apply Hle. left. reflexivity.
      * apply (string_leb_trans x best m); [| apply Hle; left; reflexivity].
        apply string_nltb_leb, E.
      * apply Hle. right. exact Hs.
Qed.

Lemma timestamps_read (metrics : list dict) (stamps : list string) :
  map (lookup "timestamp") metrics = map (fun s => Some (VStr s)) stamps ->
  for_each (getitem "timestamp") metrics = Ok (map VStr stamps).
Proof.
  revert stamps. induction metrics as [| m ms IH]; intros [| s stamps] H;
    simpl in H; try discriminate; [reflexivity |].
  injection H as Hm Hms. simpl. unfold getitem at 1. rewrite Hm. simpl.
  rewrite (IH _ Hms). reflexivity.
Qed.

Lemma timestamps_missing (metrics : list dict) (m : dict) :
  In m metrics -> lookup "timestamp" m = None ->
  for_each (getitem "timestamp") metrics = Raise (KeyError "timestamp").
Proof.
  induction metrics as [| x ms IH]; simpl; intros Hin Hm; [contradiction |].
  unfold getitem at 1. destruct (lookup "timestamp" x) as [v |] eqn:Ex; simpl.
  - destruct Hin as [-> | Hin]; [congruence |].
    rewrite (IH Hin Hm). reflexivity.
  - reflexivity.
Qed.

(** The three guarded exports raise nothing when handed tables. *)
Lemma exports_of_tables (timestamp : string) (d : deployment_tables)
  (l : lead_time_tables) (c : change_tables) (A : Type) (k : io A) (out : list file) :
  exists out',
    (export_deployment_frequency timestamp (Tables d) ;;;
     export_lead_time timestamp (Tables l) ;;;
     export_change_failure_rate timestamp (Tables c) ;;; k) out = k out'.
Proof.
  unfold export_deployment_frequency, export_lead_time, export_change_failure_rate,
    io_bind, lift, write, io_ret, truth.
  destruct (is_empty (dep_daily d)), (is_empty (lt_daily_average l)),
    (is_empty (cfr_daily c)); simpl; eauto.
Qed.

(** C10: the summary takes [start] and [end] as the least and the greatest
    raw [timestamp] text of all loaded records, compared as text; it reads
    the key from every loaded record, so one record without it, inert or
    not, makes the summary raise [KeyError], which ends a run whose
    aggregations and exports have gone through. *)
Theorem summary_date_range (raw_dir : directory) (timestamp now : string) :
  let metrics := load_metrics raw_dir in
  (forall stamps,
      metrics <> [] ->
      map (lookup "timestamp") metrics = map (fun s => Some (VStr s)) stamps ->
      exists lo hi,
        make_summary now metrics
        = Ok (mkSummary now (Z.of_nat (List.length metrics)) (VStr lo) (VStr hi))
        /\ In lo stamps /\ In hi stamps
        /\ forall s, In s stamps -> String.leb lo s = true /\ String.leb s hi = true)
  /\ (forall m,
         In m metrics -> lookup "timestamp" m = None ->
         make_summary now metrics = Raise (KeyError "timestamp")
         /\ forall d l c,
             calculate_deployment_frequency metrics = Ok (Tables d) ->
             calculate_lead_time metrics = Ok (Tables l) ->
             calculate_change_failure_rate metrics = Ok (Tables c) ->
             fst (generate_powerbi_export raw_dir timestamp now [])
             = Raise (KeyError "timestamp")).
Proof.
  intros metrics. split.
  - intros stamps Hne Hs. unfold make_summary.
    rewrite (timestamps_read _ _ Hs). cbn [bind].
    destruct stamps as [| s0 stamps].
    { destruct metrics; [contradiction | discriminate]. }
    cbn [map py_min py_max].
    destruct (min_loop_text s0 stamps) as (lo & Elo & Hlo & Hle).
    destruct (max_loop_text s0 stamps) as (hi & Ehi & Hhi & Hge).
    rewrite Elo. cbn [bind]. rewrite Ehi. cbn [bind].
    exists lo, hi. repeat split; auto.
  - intros m Hin Hm.
    assert (Hsum : make_summary now metrics = Raise (KeyError "timestamp")).
    { unfold make_summary. rewrite (timestamps_missing _ _ Hin Hm). reflexivity. }
    split; [exact Hsum |].
    intros d l c Ed El Ec. unfold generate_powerbi_export. fold metrics.
    destruct metrics as [| m0 ms] eqn:Em; [contradiction |].
    unfold io_bind at 1. unfold lift at 1. rewrite Ed.
    unfold io_bind at 1. unfold lift at 1. rewrite El.
    unfold io_bind at 1. unfold lift at 1. rewrite Ec.
    match goal with
    | |- fst ((_ ;;; _ ;;; _ ;;; ?k) ?o) = _ =>
        destruct (exports_of_tables timestamp d l c _ k o) as (out' & ->)
    end.
    unfold io_bind at 1. unfold lift at 1. rewrite Hsum. reflexivity.
Qed.

Lemma summary_date_range_witness :
  (exists lo hi,
      make_summary "2024-01-05T06:00:00" (load_metrics (Some complete_files))
      = Ok (mkSummary "2024-01-05T06:00:00" 4 (VStr lo) (VStr hi))
      /\ In lo ["2024-01-01T09:30:00Z"; "2024-01-01T12:00:00Z";
                "2024-01-01T10:00:00Z"; "2024-01-01T16:45:00Z"]
      /\ In hi ["2024-01-01T09:30:00Z"; "2024-01-01T12:00:00Z";
                "2024-01-01T10:00:00Z"; "2024-01-01T16:45:00Z"]
      /\ forall s,
          In s ["2024-01-01T09:30:00Z"; "2024-01-01T12:00:00Z";
                "2024-01-01T10:00:00Z"; "2024-01-01T16:45:00Z"] ->
          String.leb lo s = true /\ String.leb s hi = true)
  /\ make_summary "2024-01-05T06:00:00" (load_metrics (Some files_with_inert))
     = Raise (KeyError "timestamp")
  /\ fst (generate_powerbi_export (Some files_with_inert)
            "20240105" "2024-01-05T06:00:00" [])
     = Raise (KeyError "timestamp").
Proof.
  split; [| split].
  - apply (proj1 (summary_date_range (Some complete_files)
                    "20240105" "2024-01-05T06:00:00")).
    + discriminate.
    + reflexivity.
  - apply (proj2 (summary_date_range (Some files_with_inert)
                    "20240105" "2024-01-05T06:00:00") sample_inert).
    + vm_compute. tauto.
    + reflexivity.
  - destruct (proj2 (summary_date_range (Some files_with_inert)
                       "20240105" "2024-01-05T06:00:00") sample_inert) as (_ & H).
    + vm_compute. tauto.
    + reflexivity.
    + eapply H; vm_compute; reflexivity.
Defined.

(** The comparison is on the text: of these two records the first has the
    smaller text and becomes [start], although its moment is the later one. *)
Example date_range_is_textual :
  make_summary "2024-01-05T06:00:00"
    [event "2024-01-01T23:00:00-05:00" "A" "deployment_frequency" [];
     event "2024-01-02T01:00:00+09:00" "A" "deployment_frequency" []]
  = Ok (mkSummary "2024-01-05T06:00:00" 2
          (VStr "2024-01-01T23:00:00-05:00") (VStr "2024-01-02T01:00:00+09:00"))
  /\ earlier (mkDatetime 2024 1 2 1 0 0 (Some 32400))
             (mkDatetime 2024 1 1 23 0 0 (Some (-18000)))
  /\ parser_parse (VStr "2024-01-02T01:00:00+09:00")
     = Ok (mkDatetime 2024 1 2 1 0 0 (Some 32400))
  /\ parser_parse (VStr "2024-01-01T23:00:00-05:00")
     = Ok (mkDatetime 2024 1 1 23 0 0 (Some (-18000))).
Proof.
  repeat split; vm_compute; reflexivity.
Qed.

(** ** Negative lead times (C7) *)

Lemma q_min_le (vs : list Q) (x : Q) : In x vs -> (q_min vs <= x)%Q.
Proof.
  destruct vs as [| v rest]; [contradiction |]. simpl q_min.
  assert (H : forall rest v,
             (fold_left (fun m y => if Qle_bool m y then m else y) rest v <= v)%Q
             /\ forall y, In y rest ->
                  (fold_left (fun m y => if Qle_bool m y then m else y) rest v <= y)%Q).
  { clear. induction rest as [| a rest IH]; intros v; simpl.
    - split; [apply Qle_refl | contradiction].
    - destruct (Qle_bool v a) eqn:E.
      + apply Qle_bool_iff in E. destruct (IH v) as [H1 H2].
        split; [exact H1 |]. intros y [<- | Hy]; [| auto].
        eapply Qle_trans; eauto.
      + assert (Hav : (a <= v)%Q).
        { apply Qlt_le_weak, Qnot_le_lt. intros H. apply Qle_bool_iff in H. congruence. }
        destruct (IH a) as [H1 H2].
        split; [eapply Qle_trans; eauto |]. intros y [<- | Hy]; auto. }
  destruct (H rest v) as [H1 H2]. intros [<- | Hx]; auto.
Qed.

Lemma q_max_ge (vs : list Q) (x : Q) : In x vs -> (x <= q_max vs)%Q.
Proof.
  destruct vs as [| v rest]; [contradiction |]. simpl q_max.
  assert (H : forall rest v,
             (v <= fold_left (fun m y => if Qle_bool y m then m else y) rest v)%Q
             /\ forall y, In y rest ->
                  (y <= fold_left (fun m y => if Qle_bool y m then m else y) rest v)%Q).
  { clear. induction rest as [| a rest IH]; intros v; simpl.
    - split; [apply Qle_refl | contradiction].
    - destruct (Qle_bool a v) eqn:E.
      + apply Qle_bool_iff in E. destruct (IH v) as [H1 H2].
        split; [exact H1 |]. intros y [<- | Hy]; [| auto].
        eapply Qle_trans; eauto.
      + assert (Hav : (v <= a)%Q).
        { apply Qlt_le_weak, Qnot_le_lt. intros H. apply Qle_bool_iff in H. congruence. }
        destruct (IH a) as [H1 H2].
        split; [eapply Qle_trans; eauto |]. intros y [<- | Hy]; auto. }
  destruct (H rest v) as [H1 H2]. intros [<- | Hx]; auto.
Qed.

Lemma q_min_in (vs : list Q) : vs <> [] -> In (q_min vs) vs.
Proof.
  destruct vs as [| v rest]; [contradiction |]. intros _. simpl q_min.
  revert v. induction rest as [| a rest IH]; intros v; simpl; [auto |].
  destruct (Qle_bool v a).
  - destruct (IH v) as [H | H]; auto.
  - destruct (IH a) as [H | H]; auto.
Qed.

Lemma q_max_in (vs : list Q) : vs <> [] -> In (q_max vs) vs.
Proof.
  destruct vs as [| v rest]; [contradiction |]. intros _. simpl q_max.
  revert v. induction rest as [| a rest IH]; intros v; simpl; [auto |].
  destruct (Qle_bool a v).
  - destruct (IH v) as [H | H]; auto.
  - destruct (IH a) as [H | H]; auto.
Qed.

(** What a lead-time row holds. *)
Lemma lead_time_row_made (m : dict) (r : lead_time) :
  lead_time_row m = Ok r ->
  exists secs,
    sub_total_seconds (lt_deploy_timestamp r) (lt_commit_timestamp r) = Ok secs
    /\ lead_time_seconds r = inject_Z secs
    /\ lead_time_hours r = Qred (inject_Z secs / 3600)
    /\ getitem "timestamp" m = Ok (lt_timestamp r)
    /\ getitem "service" m = Ok (lt_service r).
Proof.
  unfold lead_time_row. intros H.
  apply bind_ok in H as (lt & _ & H).
  apply bind_ok in H as (c & _ & H).
  apply bind_ok in H as (commit_time & _ & H).
  apply bind_ok in H as (d & _ & H).
  apply bind_ok in H as (deploy_time & _ & H).
  apply bind_ok in H as (secs & Hsecs & H).
  apply bind_ok in H as (ts & Hts & H).
  apply bind_ok in H as (svc & Hsvc & H).
  apply bind_ok in H as (sha & _ & H).
  injection H as <-. simpl. exists secs. auto.
Qed.

Lemma sub_total_seconds_instant (a b : datetime) (secs : Z) :
  sub_total_seconds a b = Ok secs -> secs = instant a - instant b.
Proof.
  unfold sub_total_seconds, instant.
  destruct (utcoffset a), (utcoffset b); intros H; try discriminate;
    injection H as <-; lia.
Qed.

(** A deployment stamped before its commit has a negative lead time. *)
Lemma negative_hours (m : dict) (r : lead_time) :
  lead_time_row m = Ok r ->
  earlier (lt_deploy_timestamp r) (lt_commit_timestamp r) ->
  (lead_time_hours r < 0)%Q.
Proof.
  intros Hr He. destruct (lead_time_row_made _ _ Hr) as (secs & Hs & _ & -> & _).
  apply sub_total_seconds_instant in Hs. unfold earlier in He.
  rewrite Qred_correct.
  assert (Hq : (inject_Z secs < 0)%Q).
  { change 0%Q with (inject_Z 0). rewrite <- Zlt_Qlt. lia. }
  assert (E : (inject_Z secs / 3600 == inject_Z secs * (1 # 3600))%Q) by field.
  rewrite E. lra.
Qed.

(** The hours grouped under a key are the hours of the canonical rows of that
    day and service. *)
Lemma bucket_hours_raw (df : list (stamped lead_time))
  (rows : list ((date * string) * stamped lead_time)) (k : date * string) :
  for_each (keyed lt_service dt_date) df = Ok rows ->
  bucket_hours k rows = hours_in_bucket df (fst k) (snd k).
Proof.
  unfold bucket_hours, hours_in_bucket, group_rows. intros H.
  apply for_each_ok in H.
  induction H as [| r kr df rows Hr _ IH]; [reflexivity |].
  unfold keyed, bucket in Hr.
  apply bind_ok in Hr as (k0 & Hk & Hr). injection Hr as <-.
  apply bind_ok in Hk as (s & Hs & Hk). injection Hk as <-.
  apply hashable_ok in Hs. cbn [filter fst snd].
  replace (day_key_eqb k (dt_date (st_time r), s))
    with (date_eqb (fst k) (dt_date (st_time r))
          && value_is (snd k) (lt_service (st_row r)))
    by (rewrite Hs; reflexivity).
  destruct (_ && _); cbn [map snd]; rewrite IH; reflexivity.
Qed.

(** The row of a lead-time record that extracts, in the tables: the
    aggregation returns, the row is in the canonical table, and the daily
    row of its day and service takes its statistics over the hours of the
    canonical rows of that day and service, the row's own among them. *)
Lemma lead_time_row_aggregated (metrics : list dict) (m : dict) (r : lead_time) :
  (forall x, In x metrics -> contains "lead_time_for_changes" x = true ->
             lead_time_ready x = true /\ event_zone x = event_zone m) ->
  In m metrics ->
  contains "lead_time_for_changes" m = true ->
  lead_time_row m = Ok r ->
  exists t sr row,
      calculate_lead_time metrics = Ok (Tables t)
      /\ In sr (lt_raw t) /\ st_row sr = r
      /\ In row (lt_daily_average t)
      /\ ltd_date row = dt_date (st_time sr)
      /\ lt_service r = VStr (ltd_service row)
      /\ let hours := hours_in_bucket (lt_raw t) (ltd_date row) (ltd_service row) in
         In (lead_time_hours r) hours
         /\ avg_lead_time_hours row = q_mean hours
         /\ median_lead_time_hours row = q_median hours
         /\ min_lead_time_hours row = q_min hours
         /\ max_lead_time_hours row = q_max hours.
Proof.
  intros Hready Hin Hk Hr.
  (* the extraction goes through *)
  assert (Hex : extractable "lead_time_for_changes" lead_time_row metrics).
  { intros x Hx Hkx. destruct (Hready x Hx Hkx) as (Hx' & _).
    unfold lead_time_ready in Hx'.
    destruct (lead_time_row x); [reflexivity | discriminate]. }
  destruct (extract_rows _ _ _ Hex) as (lead_times & E & _ & Hrows).
  destruct (Hrows m Hin Hk) as (r0 & Hr0 & Hinr).
  rewrite Hr in Hr0. injection Hr0 as <-.
  assert (Hall : forall r', In r' lead_times ->
             is_ok (to_datetime (lt_timestamp r')) = true
             /\ is_ok (hashable (lt_service r')) = true
             /\ forall t, to_datetime (lt_timestamp r') = Ok t ->
                          event_zone m = Some (utcoffset t)).
  { intros r' Hr'. pose proof (extract_ok _ _ _ _ E) as F.
    destruct (Forall2_In_r _ _ _ _ F Hr') as (x & Hx & Hrow).
    apply filter_In in Hx as (Hx & Hkx).
    destruct (Hready x Hx Hkx) as (Hx' & Hzone). unfold lead_time_ready in Hx'.
    rewrite Hrow in Hx'. apply andb_true_iff in Hx' as (Ht & Hh).
    split; [exact Ht |]. split; [exact Hh |].
    intros t Et. rewrite <- Hzone. unfold event_zone.
    destruct (lead_time_row_made _ _ Hrow) as (_ & _ & _ & _ & -> & _).
    rewrite Et. reflexivity. }
  (* every time stamp parses, all in one zone *)
  destruct (for_each_total (stamp lt_timestamp) lead_times) as (df & Hdf).
  { intros r' Hr'. destruct (Hall r' Hr') as (Ht & _). unfold stamp.
    destruct (to_datetime (lt_timestamp r')); [reflexivity | discriminate]. }
  pose proof (for_each_ok _ _ _ Hdf) as Fdf.
  assert (Hzone : same_zone (map st_time df) = true).
  { destruct (event_zone m) as [z |] eqn:Ez.
    - apply (same_zone_all z). intros t Ht.
      apply in_map_iff in Ht as (sr' & <- & Hsr').
      destruct (Forall2_In_r _ _ _ _ Fdf Hsr') as (r' & Hr' & Hst).
      apply stamp_ok in Hst as (_ & Hst).
      destruct (Hall r' Hr') as (_ & _ & Hz). specialize (Hz _ Hst). congruence.
    - destruct (Forall2_In_l _ _ _ r Fdf Hinr) as (sr' & _ & Hst).
      apply stamp_ok in Hst as (_ & Hst).
      destruct (Hall r Hinr) as (_ & _ & Hz). specialize (Hz _ Hst). discriminate. }
  assert (Hframe : stamp_frame lt_timestamp lead_times = Ok df).
  { unfold stamp_frame. rewrite Hdf. cbn [bind]. rewrite Hzone. reflexivity. }
  destruct (Forall2_In_l _ _ _ r Fdf Hinr) as (sr & Hsr & Hstamp).
  apply stamp_ok in Hstamp as (Hrow & _).
  (* every row gets its key *)
  destruct (for_each_total (keyed lt_service dt_date) df) as (rows & Hkeyed).
  { intros sr' Hsr'. destruct (Forall2_In_r _ _ _ _ Fdf Hsr') as (r' & Hr' & Hst).
    apply stamp_ok in Hst as (Hrow' & _). destruct (Hall r' Hr') as (_ & Hh & _).
    unfold keyed, bucket. rewrite Hrow'.
    destruct (hashable (lt_service r')); [reflexivity | discriminate]. }
  pose proof (for_each_ok _ _ _ Hkeyed) as Frows.
  destruct (Forall2_In_l _ _ _ sr Frows Hsr) as ([k sr'] & Hkr & Hkey).
  apply keyed_ok in Hkey as (Hsnd & Hdate & Hsvc). simpl in Hsnd, Hdate, Hsvc.
  subst sr'. rewrite Hrow in Hsvc.
  exists (mkLeadTimeTables
            (map (lead_time_agg rows) (group_keys day_key_eqb day_key_leb (map fst rows)))
            df),
    sr, (lead_time_agg rows k).
  split.
  { unfold calculate_lead_time. rewrite E. cbn [bind].
    destruct lead_times as [| r1 rest]; [contradiction |].
    rewrite Hframe. cbn [bind]. rewrite Hkeyed. reflexivity. }
  cbn [lt_raw lt_daily_average].
  split; [exact Hsr |]. split; [exact Hrow |].
  split.
  { apply in_map. apply (In_group_keys _ _ day_key_eqb_eq).
    apply (in_map fst) in Hkr. exact Hkr. }
  unfold lead_time_agg. cbn [ltd_date ltd_service avg_lead_time_hours
    median_lead_time_hours min_lead_time_hours max_lead_time_hours].
  rewrite (bucket_hours_raw _ _ k Hkeyed).
  split; [exact Hdate |]. split; [exact Hsvc |].
  assert (Hmem : In (lead_time_hours r) (hours_in_bucket df (fst k) (snd k))).
  { unfold hours_in_bucket. rewrite <- Hrow.
    apply (in_map (fun x => lead_time_hours (st_row x))).
    apply filter_In. split; [exact Hsr |].
    rewrite Hdate, Hrow, Hsvc. simpl.
    rewrite String.eqb_refl, andb_true_r. apply date_eqb_eq. reflexivity. }
  cbv zeta. repeat split; auto.
Qed.


(** ** The statistics of a bucket *)

Lemma qle_bool_total (x y : Q) : Qle_bool x y = true \/ Qle_bool y x = true.
Proof.
  rewrite !Qle_bool_iff. destruct (Qlt_le_dec x y) as [H | H]; [left | right]; lra.
Qed.

Lemma qle_bool_trans (x y z : Q) :
  Qle_bool x y = true -> Qle_bool y z = true -> Qle_bool x z = true.
Proof. rewrite !Qle_bool_iff. apply Qle_trans. Qed.

Lemma ascending_nth {K : Type} (key_leb : K -> K -> bool) (d : K) (l : list K) :
  (forall x, key_leb x x = true) ->
  ascending key_leb l = true ->
  forall i j, (i <= j)%nat -> (j < List.length l)%nat ->
              key_leb (nth i l d) (nth j l d) = true.
Proof.
  intros Hrefl. induction l as [| a l IH]; intros Ha i j Hij Hj.
  - cbn [List.length] in Hj. lia.
  - cbn [ascending] in Ha. apply andb_true_iff in Ha as [Hall Ha].
    cbn [List.length] in Hj. destruct i as [| i], j as [| j]; cbn [nth].
    + apply Hrefl.
    + apply (proj1 (forallb_forall _ _) Hall). apply nth_In. lia.
    + lia.
    + apply IH; [exact Ha | lia | lia].
Qed.

Lemma q_sum_sum_of (vs : list Q) : q_sum vs = sum_of vs.
Proof.
  induction vs as [| v vs IH]; [reflexivity |].
  unfold q_sum in *. cbn [fold_right sum_of]. rewrite IH. reflexivity.
Qed.

Lemma sum_of_abs_nonneg (vs : list Q) : (0 <= sum_of (map Qabs vs))%Q.
Proof.
  induction vs as [| v vs IH]; cbn [map sum_of]; [lra |].
  pose proof (Qabs_nonneg v). lra.
Qed.

Lemma unit_roundoff_pos : (0 < unit_roundoff)%Q.
Proof. reflexivity. Qed.

(** A value that is exact is within every rounding. *)
Lemma rounds_exact (y x : Q) : (x == y)%Q -> rounds y x.
Proof.
  intros E. unfold rounds.
  assert (Z0 : (Qabs (x - y) == 0)%Q).
  { assert (E0 : (x - y == 0)%Q) by lra. rewrite E0. reflexivity. }
  rewrite Z0. pose proof (Qabs_nonneg y). pose proof unit_roundoff_pos.
  apply Qmult_le_0_compat; lra.
Qed.

Lemma q_mean_is_mean (vs : list Q) : vs <> [] -> mean_of vs (q_mean vs).
Proof.
  intros Hne. unfold mean_of, q_mean. cbv zeta.
  set (n := inject_Z (Z.of_nat (List.length vs))).
  assert (Hn : (0 < n)%Q).
  { unfold n. change 0%Q with (inject_Z 0). rewrite <- Zlt_Qlt.
    destruct vs; [contradiction | simpl; lia]. }
  assert (E : (Qred (q_sum vs / n) * n - sum_of vs == 0)%Q).
  { rewrite Qred_correct, q_sum_sum_of. field. lra. }
  assert (Z0 : (Qabs (Qred (q_sum vs / n) * n - sum_of vs) == 0)%Q).
  { rewrite E. reflexivity. }
  rewrite Z0. pose proof (sum_of_abs_nonneg vs). pose proof unit_roundoff_pos.
  apply Qmult_le_0_compat; [| assumption].
  apply Qmult_le_0_compat; [| lra]. lra.
Qed.

Lemma half_even (n : nat) :
  Nat.even n = true -> n <> 0%nat -> ((n - 1) / 2 = n / 2 - 1)%nat.
Proof.
  intros He Hn. apply Nat.even_spec in He as (k & ->).
  destruct k as [| k]; [contradiction |].
  replace (2 * S k - 1)%nat with (k * 2 + 1)%nat by lia.
  replace (2 * S k)%nat with (S k * 2)%nat by lia.
  rewrite Nat.div_add_l, Nat.div_mul by lia.
  change (1 / 2)%nat with 0%nat. lia.
Qed.

Lemma half_odd (n : nat) : Nat.even n = false -> ((n - 1) / 2 = n / 2)%nat.
Proof.
  intros Ho.
  assert (Hodd : Nat.odd n = true).
  { rewrite <- Nat.negb_even, Ho. reflexivity. }
  apply Nat.odd_spec in Hodd as (k & ->).
  replace (2 * k + 1 - 1)%nat with (k * 2)%nat by lia.
  replace (2 * k + 1)%nat with (k * 2 + 1)%nat by lia.
  rewrite Nat.div_add_l, Nat.div_mul by lia.
  change (1 / 2)%nat with 0%nat. lia.
Qed.

Lemma q_median_is_median (vs : list Q) : vs <> [] -> median_of vs (q_median vs).
Proof.
  intros Hne. unfold median_of, q_median.
  pose proof (sort_keys_perm Qle_bool vs) as Hp.
  pose proof (sort_keys_ascending Qle_bool qle_bool_total qle_bool_trans vs) as Hs.
  set (sorted := sort_keys Qle_bool vs) in *.
  exists sorted. split; [exact Hp |]. split; [exact Hs |].
  rewrite (Permutation_length Hp). cbv zeta.
  set (n := List.length vs).
  assert (Hn : n <> 0%nat).
  { unfold n. destruct vs; [contradiction | discriminate]. }
  assert (Hlen : List.length sorted = n) by apply (Permutation_length Hp).
  assert (Hhalf : (n / 2 < n)%nat) by (apply Nat.div_lt; lia).
  assert (Hle : forall i j, (i <= j)%nat -> (j < n)%nat ->
                            (nth i sorted 0 <= nth j sorted 0)%Q).
  { intros i j Hij Hj. apply Qle_bool_iff.
    apply (ascending_nth Qle_bool 0%Q sorted); [| exact Hs | exact Hij | lia].
    intros x. apply Qle_bool_iff. apply Qle_refl. }
  pose proof unit_roundoff_pos as Hu.
  destruct (Nat.even n) eqn:He.
  - rewrite (half_even n He Hn).
    pose proof (Hle (n / 2 - 1)%nat (n / 2)%nat) as Hlohi.
    set (lo := nth (n / 2 - 1) sorted 0%Q) in *.
    set (hi := nth (n / 2) sorted 0%Q) in *.
    assert (Hlh : (lo <= hi)%Q) by (apply Hlohi; lia).
    pose proof (Qred_correct ((lo + hi) / 2)) as E.
    assert (E2 : ((lo + hi) / 2 == (lo + hi) * (1 # 2))%Q) by field.
    split; [lra |]. split; [lra |].
    assert (Z0 : (Qabs (2 * Qred ((lo + hi) / 2) - (lo + hi)) == 0)%Q).
    { assert (E0 : (2 * Qred ((lo + hi) / 2) - (lo + hi) == 0)%Q) by lra.
      rewrite E0. reflexivity. }
    rewrite Z0. pose proof (Qabs_nonneg (lo + hi)).
    apply Qmult_le_0_compat; [| lra]. lra.
  - rewrite (half_odd n He).
    set (mid := nth (n / 2) sorted 0%Q).
    split; [apply Qle_refl |]. split; [apply Qle_refl |].
    assert (Z0 : (Qabs (2 * mid - (mid + mid)) == 0)%Q).
    { assert (E0 : (2 * mid - (mid + mid) == 0)%Q) by lra.
      rewrite E0. reflexivity. }
    rewrite Z0. pose proof (Qabs_nonneg (mid + mid)).
    apply Qmult_le_0_compat; [| lra]. lra.
Qed.

Lemma q_min_is_least (vs : list Q) : vs <> [] -> least_of vs (q_min vs).
Proof.
  intros Hne. split; [apply q_min_in, Hne | intros v Hv; apply q_min_le, Hv].
Qed.

Lemma q_max_is_greatest (vs : list Q) : vs <> [] -> greatest_of vs (q_max vs).
Proof.
  intros Hne. split; [apply q_max_in, Hne | intros v Hv; apply q_max_ge, Hv].
Qed.

(** ** The row of a record, field by field *)

Lemma getitem_ok (k : string) (d : dict) (v : value) :
  getitem k d = Ok v -> lookup k d = Some v.
Proof.
  unfold getitem. destruct (lookup k d); intros H; [injection H as -> | discriminate].
  reflexivity.
Qed.

Lemma subscript_ok (k : string) (v x : value) :
  subscript k v = Ok x -> exists payload, v = VObj payload /\ lookup k payload = Some x.
Proof.
  destruct v as [s | payload]; cbn [subscript]; intros H; [discriminate |].
  exists payload. split; [reflexivity | apply getitem_ok, H].
Qed.

Lemma get_default_ok (k : string) (default v x : value) :
  get_default k default v = Ok x ->
  exists payload, v = VObj payload /\ x = field_or k default payload.
Proof.
  destruct v as [s | payload]; cbn [get_default]; intros H; [discriminate |].
  injection H as <-. exists payload. split; reflexivity.
Qed.

Lemma deployment_row_canonical (m : dict) (r : deployment) :
  deployment_row m = Ok r ->
  exists ts svc payload id,
    lookup "timestamp" m = Some ts
    /\ lookup "service" m = Some svc
    /\ lookup "deployment_frequency" m = Some (VObj payload)
    /\ lookup "deployment_id" payload = Some id
    /\ r = canonical_deployment ts svc payload id.
Proof.
  unfold deployment_row. intros H.
  apply bind_ok in H as (ts & Hts & H).
  apply bind_ok in H as (svc & Hsvc & H).
  apply bind_ok in H as (p & Hp & H).
  apply bind_ok in H as (id & Hid & H).
  apply bind_ok in H as (branch & Hb & H).
  apply bind_ok in H as (sha & Hsha & H).
  injection H as <-.
  apply subscript_ok in Hid as (payload & -> & Hid).
  apply get_default_ok in Hb as (p1 & E1 & ->). injection E1 as <-.
  apply get_default_ok in Hsha as (p2 & E2 & ->). injection E2 as <-.
  exists ts, svc, payload, id.
  repeat split; auto using getitem_ok.
Qed.

Lemma change_row_canonical (m : dict) (r : change) :
  change_row m = Ok r ->
  exists ts svc payload status,
    lookup "timestamp" m = Some ts
    /\ lookup "service" m = Some svc
    /\ lookup "change_failure_rate" m = Some (VObj payload)
    /\ lookup "status" payload = Some status
    /\ r = canonical_change ts svc payload status.
Proof.
  unfold change_row. intros H.
  apply bind_ok in H as (p & Hp & H).
  apply bind_ok in H as (ts & Hts & H).
  apply bind_ok in H as (svc & Hsvc & H).
  apply bind_ok in H as (status & Hst & H).
  apply bind_ok in H as (run & Hrun & H).
  apply bind_ok in H as (sha & Hsha & H).
  injection H as <-.
  apply subscript_ok in Hst as (payload & -> & Hst).
  apply get_default_ok in Hrun as (p1 & E1 & ->). injection E1 as <-.
  apply get_default_ok in Hsha as (p2 & E2 & ->). injection E2 as <-.
  exists ts, svc, payload, status.
  repeat split; auto using getitem_ok.
Qed.

Lemma lead_time_row_canonical (m : dict) (r : lead_time) :
  lead_time_row m = Ok r ->
  exists ts svc payload c d tc td,
    lookup "timestamp" m = Some ts
    /\ lookup "service" m = Some svc
    /\ lookup "lead_time_for_changes" m = Some (VObj payload)
    /\ lookup "commit_timestamp" payload = Some c
    /\ lookup "deploy_timestamp" payload = Some d
    /\ parser_parse c = Ok tc
    /\ parser_parse d = Ok td
    /\ canonical_lead_time ts svc payload tc td r.
Proof.
  unfold lead_time_row. intros H.
  apply bind_ok in H as (lt & Hlt & H).
  apply bind_ok in H as (c & Hc & H).
  apply bind_ok in H as (tc & Ptc & H).
  apply bind_ok in H as (d & Hd & H).
  apply bind_ok in H as (td & Ptd & H).
  apply bind_ok in H as (secs & Hsecs & H).
  apply bind_ok in H as (ts & Hts & H).
  apply bind_ok in H as (svc & Hsvc & H).
  apply bind_ok in H as (sha & Hsha & H).
  injection H as <-.
  apply subscript_ok in Hc as (payload & -> & Hc).
  apply subscript_ok in Hd as (p1 & E1 & Hd). injection E1 as <-.
  apply get_default_ok in Hsha as (p2 & E2 & ->). injection E2 as <-.
  apply sub_total_seconds_instant in Hsecs. subst secs.
  exists ts, svc, payload, c, d, tc, td.
  split; [apply getitem_ok, Hts |]. split; [apply getitem_ok, Hsvc |].
  split; [apply getitem_ok, Hlt |]. split; [exact Hc |]. split; [exact Hd |].
  split; [exact Ptc |]. split; [exact Ptd |].
  unfold canonical_lead_time.
  do 6 (split; [reflexivity |]).
  split.
  - apply (rounds_exact _ (Qred (inject_Z (instant td - instant tc) / 60))),
      Qred_correct.
  - apply (rounds_exact _ (Qred (inject_Z (instant td - instant tc) / 3600))),
      Qred_correct.
Qed.



(** ** Records with several payloads (C9) *)



(** * Further properties of the aggregation script *)

(** ** Ingestion *)

Lemma load_files_app (fs1 fs2 : list (string * option dict)) :
  load_files (fs1 ++ fs2) = (load_files fs1 ++ load_files fs2)%list.
Proof.
  induction fs1 as [| [n c] fs1 IH]; simpl; [reflexivity |].
  destruct (endswith n ".json"); [| exact IH].
  destruct c; [| exact IH]. simpl. rewrite IH. reflexivity.
Qed.

(** X1: a file whose name does not end in [.json], or whose content fails to
    load, is passed over: the records loaded from the files around it are
    the same, in the same order, as if it were not there; a [.json] file that
    loads puts its record between theirs. *)
Theorem load_metrics_skips_one_file
  (before after : list (string * option dict)) (name : string) (content : option dict) :
  (loads (name, content) = false ->
   load_metrics (Some (before ++ (name, content) :: after)%list)
   = load_metrics (Some (before ++ after)%list))
  /\ (forall data, endswith name ".json" = true -> content = Some data ->
        load_metrics (Some (before ++ (name, content) :: after)%list)
        = (load_metrics (Some before) ++ data :: load_metrics (Some after))%list).
Proof.
  unfold load_metrics, loads. rewrite !load_files_app. simpl. split.
  - intros H. destruct (endswith name ".json"); [| reflexivity].
    destruct content; [discriminate | reflexivity].
  - intros data Hn ->. rewrite Hn. reflexivity.
Qed.

Lemma load_metrics_skips_one_file_witness :
  load_metrics (Some (complete_files ++ ("broken.json", None) :: scenario_files)%list)
  = load_metrics (Some (complete_files ++ scenario_files)%list).
Proof.
  apply (proj1 (load_metrics_skips_one_file complete_files scenario_files
                  "broken.json" None)).
  reflexivity.
Defined.

Lemma load_files_nothing (files : list (string * option dict)) :
  (forall f, In f files -> loads f = false) -> load_files files = [].
Proof.
  induction files as [| [n c] files IH]; intros H; [reflexivity |].
  pose proof (H (n, c) (or_introl eq_refl)) as Hf. unfold loads in Hf. simpl in Hf.
  simpl. destruct (endswith n ".json"); [| apply IH; intros; apply H; right; assumption].
  destruct c; [discriminate |]. apply IH. intros. apply H. right. assumption.
Qed.

(** X2: when the raw directory is missing, or none of its files is a [.json]
    file that loads, the run returns before any aggregation: no exception,
    no summary, and no file written. *)
Theorem nothing_loaded_nothing_written
  (files : list (string * option dict)) (timestamp now : string) (out : list file) :
  (forall f, In f files -> loads f = false) ->
  generate_powerbi_export (Some files) timestamp now out = (Ok None, out)
  /\ generate_powerbi_export None timestamp now out = (Ok None, out).
Proof.
  intros H. unfold generate_powerbi_export, load_metrics.
  rewrite (load_files_nothing files H). split; reflexivity.
Qed.

Lemma nothing_loaded_nothing_written_witness :
  generate_powerbi_export (Some unreadable_files) "20240105" "2024-01-05T06:00:00" []
  = (Ok None, []).
Proof.
  apply (nothing_loaded_nothing_written unreadable_files
           "20240105" "2024-01-05T06:00:00" []).
  intros f [<- | [<- | []]]; reflexivity.
Defined.

(** ** Records without the payload of a metric *)

Lemma extract_skips {A : Type} (key : string) (row : dict -> result A)
  (before after : list dict) (m : dict) :
  contains key m = false ->
  extract key row (before ++ m :: after) = extract key row (before ++ after).
Proof.
  intros H. induction before as [| x before IH]; simpl.
  - rewrite H. reflexivity.
  - rewrite IH. reflexivity.
Qed.

(** X3: a record that does not carry a metric's payload key leaves that
    metric's whole result unchanged, wherever it stands in the batch and
    whatever else it holds; a record with none of the three keys changes no
    result. *)
Theorem record_without_key_changes_nothing (before after : list dict) (m : dict) :
  (contains "deployment_frequency" m = false ->
   calculate_deployment_frequency (before ++ m :: after)
   = calculate_deployment_frequency (before ++ after))
  /\ (contains "lead_time_for_changes" m = false ->
      calculate_lead_time (before ++ m :: after)
      = calculate_lead_time (before ++ after))
  /\ (contains "change_failure_rate" m = false ->
      calculate_change_failure_rate (before ++ m :: after)
      = calculate_change_failure_rate (before ++ after)).
Proof.
  unfold calculate_deployment_frequency, calculate_lead_time,
    calculate_change_failure_rate.
  repeat split; intros H; rewrite (extract_skips _ _ _ _ _ H); reflexivity.
Qed.

Lemma record_without_key_changes_nothing_witness :
  calculate_deployment_frequency ([sample_deployment] ++ sample_inert :: [sample_combined])
  = calculate_deployment_frequency ([sample_deployment] ++ [sample_combined])
  /\ calculate_lead_time ([sample_deployment] ++ sample_inert :: [sample_combined])
     = calculate_lead_time ([sample_deployment] ++ [sample_combined])
  /\ calculate_change_failure_rate ([sample_deployment] ++ sample_inert :: [sample_combined])
     = calculate_change_failure_rate ([sample_deployment] ++ [sample_combined]).
Proof.
  destruct (record_without_key_changes_nothing
              [sample_deployment] [sample_combined] sample_inert) as (H1 & H2 & H3).
  split; [apply H1; reflexivity |]. split; [apply H2 | apply H3]; reflexivity.
Defined.

(** ** The run as a whole *)

Lemma stamp_frame_made {A : Type} (timestamp : A -> value) (rows : list A)
  (df : list (stamped A)) :
  stamp_frame timestamp rows = Ok df ->
  for_each (stamp timestamp) rows = Ok df /\ same_zone (map st_time df) = true.
Proof.
  unfold stamp_frame. intros H. apply bind_ok in H as (df' & Hdf & H).
  destruct (same_zone (map st_time df')) eqn:Hz; [| discriminate].
  injection H as <-. auto.
Qed.

Lemma for_each_length {A B : Type} (f : A -> result B) (xs : list A) (ys : list B) :
  for_each f xs = Ok ys -> List.length ys = List.length xs.
Proof.
  intros H. apply for_each_ok in H. symmetry. eapply Forall2_length. exact H.
Qed.

(** The canonical deployment table of a populated result: one row per record
    that carries the payload, none missing. *)
Lemma deployment_frame_made (metrics : list dict) (t : deployment_tables) :
  calculate_deployment_frequency metrics = Ok (Tables t) ->
  exists deployments,
    extract "deployment_frequency" deployment_row metrics = Ok deployments
    /\ deployments <> []
    /\ stamp_frame dep_timestamp deployments = Ok (dep_raw t).
Proof.
  unfold calculate_deployment_frequency. intros H.
  apply bind_ok in H as (deployments & He & H).
  destruct deployments as [| d ds]; [discriminate |].
  apply bind_ok in H as (df & Hdf & H).
  apply bind_ok in H as (days & _ & H).
  apply bind_ok in H as (weeks & _ & H).
  apply bind_ok in H as (months & _ & H).
  injection H as <-. simpl. exists (d :: ds). repeat split; auto. discriminate.
Qed.

Lemma lead_time_tables_made (metrics : list dict) (t : lead_time_tables) :
  calculate_lead_time metrics = Ok (Tables t) ->
  exists lead_times rows,
    extract "lead_time_for_changes" lead_time_row metrics = Ok lead_times
    /\ lead_times <> []
    /\ stamp_frame lt_timestamp lead_times = Ok (lt_raw t)
    /\ for_each (keyed lt_service dt_date) (lt_raw t) = Ok rows
    /\ lt_daily_average t
       = map (lead_time_agg rows) (group_keys day_key_eqb day_key_leb (map fst rows)).
Proof.
  unfold calculate_lead_time. intros H.
  apply bind_ok in H as (lead_times & He & H).
  destruct lead_times as [| l ls]; [discriminate |].
  apply bind_ok in H as (df & Hdf & H).
  apply bind_ok in H as (rows & Hrows & H).
  injection H as <-. simpl. exists (l :: ls), rows. repeat split; auto. discriminate.
Qed.

Lemma change_frame_made (metrics : list dict) (t : change_tables) :
  calculate_change_failure_rate metrics = Ok (Tables t) ->
  exists changes,
    extract "change_failure_rate" change_row metrics = Ok changes
    /\ changes <> []
    /\ stamp_frame ch_timestamp changes = Ok (cfr_raw t).
Proof.
  unfold calculate_change_failure_rate. intros H.
  apply bind_ok in H as (changes & He & H).
  destruct changes as [| c cs]; [discriminate |].
  apply bind_ok in H as (df & Hdf & H).
  apply bind_ok in H as (days & _ & H).
  apply bind_ok in H as (daily & _ & H).
  apply bind_ok in H as (weeks & _ & H).
  apply bind_ok in H as (weekly & _ & H).
  injection H as <-. simpl. exists (c :: cs). repeat split; auto. discriminate.
Qed.

Lemma for_each_nonempty {A B : Type} (f : A -> result B) (xs : list A) (ys : list B) :
  for_each f xs = Ok ys -> xs <> [] -> ys <> [].
Proof.
  intros H Hx. apply for_each_length in H.
  destruct xs; [contradiction |]. destruct ys; [discriminate | discriminate].
Qed.

Lemma group_keys_nonempty {K : Type} (key_eqb key_leb : K -> K -> bool) (l : list K) :
  (forall x y, key_eqb x y = true <-> x = y) ->
  l <> [] -> group_keys key_eqb key_leb l <> [].
Proof.
  intros Heq Hl. destruct l as [| k l]; [contradiction |].
  assert (Hin : In k (group_keys key_eqb key_leb (k :: l))).
  { apply (In_group_keys _ _ Heq). left. reflexivity. }
  intros E. rewrite E in Hin. contradiction.
Qed.

Lemma map_nonempty {A B : Type} (f : A -> B) (l : list A) : l <> [] -> map f l <> [].
Proof. destruct l; [contradiction | discriminate]. Qed.

Lemma deployment_daily_nonempty (metrics : list dict) (t : deployment_tables) :
  calculate_deployment_frequency metrics = Ok (Tables t) -> dep_daily t <> [].
Proof.
  intros E.
  destruct (deployment_frame_made _ _ E) as (ds & _ & Hne & Hdf).
  apply stamp_frame_made in Hdf as (Hdf & _).
  destruct (deployment_tables_made _ _ E) as (days & _ & _ & Hd & -> & _).
  unfold groupby_size. apply map_nonempty.
  apply (group_keys_nonempty _ _ _ day_key_eqb_eq).
  eapply for_each_nonempty; [exact Hd |].
  eapply for_each_nonempty; [exact Hdf | exact Hne].
Qed.

Lemma lead_time_daily_nonempty (metrics : list dict) (t : lead_time_tables) :
  calculate_lead_time metrics = Ok (Tables t) -> lt_daily_average t <> [].
Proof.
  intros E.
  destruct (lead_time_tables_made _ _ E) as (ls & rows & _ & Hne & Hdf & Hrows & ->).
  apply stamp_frame_made in Hdf as (Hdf & _).
  apply map_nonempty. apply (group_keys_nonempty _ _ _ day_key_eqb_eq).
  apply map_nonempty.
  eapply for_each_nonempty; [exact Hrows |].
  eapply for_each_nonempty; [exact Hdf | exact Hne].
Qed.

Lemma change_daily_nonempty (metrics : list dict) (t : change_tables) :
  calculate_change_failure_rate metrics = Ok (Tables t) -> cfr_daily t <> [].
Proof.
  intros E.
  destruct (change_frame_made _ _ E) as (cs & _ & Hne & Hdf).
  apply stamp_frame_made in Hdf as (Hdf & _).
  destruct (change_tables_made _ _ E) as (days & _ & _ & Hdays & Hd & _).
  unfold failure_table, reset_index in Hd.
  eapply for_each_nonempty; [exact Hd |].
  apply map_nonempty. unfold unstack_sizes. apply map_nonempty.
  apply (group_keys_nonempty _ _ _ day_key_eqb_eq). apply map_nonempty.
  eapply for_each_nonempty; [exact Hdays |].
  eapply for_each_nonempty; [exact Hdf | exact Hne].
Qed.

(** X4: an exception in an aggregation ends the run with that exception
    before the first export; the aggregations run in the order deployment
    frequency, lead time, change failure rate, and no file is written. *)
Theorem aggregation_failure_writes_nothing
  (raw_dir : directory) (timestamp now : string) (out : list file) (e : exn) :
  load_metrics raw_dir <> [] ->
  calculate_deployment_frequency (load_metrics raw_dir) = Raise e
  \/ (is_ok (calculate_deployment_frequency (load_metrics raw_dir)) = true
      /\ calculate_lead_time (load_metrics raw_dir) = Raise e)
  \/ (is_ok (calculate_deployment_frequency (load_metrics raw_dir)) = true
      /\ is_ok (calculate_lead_time (load_metrics raw_dir)) = true
      /\ calculate_change_failure_rate (load_metrics raw_dir) = Raise e) ->
  generate_powerbi_export raw_dir timestamp now out = (Raise e, out).
Proof.
  intros Hne H. unfold generate_powerbi_export.
  destruct (load_metrics raw_dir) as [| m ms]; [contradiction |].
  unfold io_bind, lift.
  destruct H as [H | [(Hd & H) | (Hd & Hl & H)]].
  - rewrite H. reflexivity.
  - destruct (calculate_deployment_frequency (m :: ms)); [| discriminate].
    rewrite H. reflexivity.
  - destruct (calculate_deployment_frequency (m :: ms)); [| discriminate].
    destruct (calculate_lead_time (m :: ms)); [| discriminate].
    rewrite H. reflexivity.
Qed.

Lemma aggregation_failure_writes_nothing_witness :
  generate_powerbi_export
    (Some (complete_files ++ [("bad.json", Some deployment_without_id)])%list)
    "20240105" "2024-01-05T06:00:00" []
  = (Raise (KeyError "deployment_id"), []).
Proof.
  apply (aggregation_failure_writes_nothing
           (Some (complete_files ++ [("bad.json", Some deployment_without_id)])%list)
           "20240105" "2024-01-05T06:00:00" [] (KeyError "deployment_id")).
  - discriminate.
  - left. vm_compute. reflexivity.
Defined.

(** X5: when the three aggregations return and one of them returns the empty
    frame, its export guard raises [ValueError]: the run ends with it and
    writes no summary, whatever the other two metrics hold. *)
Theorem empty_metric_ends_run
  (raw_dir : directory) (timestamp now : string) (out : list file)
  (a : aggregate deployment_tables) (b : aggregate lead_time_tables)
  (c : aggregate change_tables) :
  load_metrics raw_dir <> [] ->
  calculate_deployment_frequency (load_metrics raw_dir) = Ok a ->
  calculate_lead_time (load_metrics raw_dir) = Ok b ->
  calculate_change_failure_rate (load_metrics raw_dir) = Ok c ->
  a = EmptyFrame \/ b = EmptyFrame \/ c = EmptyFrame ->
  exists out',
    generate_powerbi_export raw_dir timestamp now out = (Raise ValueError, out')
    /\ filter is_summary out' = filter is_summary out.
Proof.
  intros Hne Ha Hb Hc Hempty. unfold generate_powerbi_export.
  destruct (load_metrics raw_dir) as [| m ms]; [contradiction |].
  unfold io_bind at 1. unfold lift at 1. rewrite Ha.
  unfold io_bind at 1. unfold lift at 1. rewrite Hb.
  unfold io_bind at 1. unfold lift at 1. rewrite Hc.
  unfold export_deployment_frequency, export_lead_time, export_change_failure_rate,
    io_bind, lift, write, io_ret, truth.
  destruct a as [| ta], b as [| tb], c as [| tc];
    try (destruct Hempty as [H | [H | H]]; discriminate H);
    try destruct (is_empty (dep_daily ta));
    try destruct (is_empty (lt_daily_average tb));
    cbn [andb negb fst snd];
    eexists; (split; [reflexivity |]);
    rewrite ?filter_app; cbn [filter is_summary snd]; rewrite ?app_nil_r; reflexivity.
Qed.

Lemma empty_metric_ends_run_witness :
  exists out',
    generate_powerbi_export (Some scenario_files) "20240105" "2024-01-05T06:00:00" []
    = (Raise ValueError, out')
    /\ filter is_summary out' = filter is_summary [].
Proof.
  eapply (empty_metric_ends_run (Some scenario_files) "20240105" "2024-01-05T06:00:00" []).
  - discriminate.
  - vm_compute. reflexivity.
  - vm_compute. reflexivity.
  - vm_compute. reflexivity.
  - right. left. reflexivity.
Defined.

(** With text time stamps the summary is made, with the least and the
    greatest text. *)
Lemma summary_made (now : string) (metrics : list dict) (stamps : list string) :
  metrics <> [] ->
  map (lookup "timestamp") metrics = map (fun s => Some (VStr s)) stamps ->
  exists lo hi,
    make_summary now metrics
    = Ok (mkSummary now (Z.of_nat (List.length metrics)) (VStr lo) (VStr hi)).
Proof.
  intros Hne Hs. unfold make_summary.
  rewrite (timestamps_read _ _ Hs). cbn [bind].
  destruct stamps as [| s0 stamps].
  { destruct metrics; [contradiction | discriminate]. }
  cbn [map py_min py_max].
  destruct (min_loop_text s0 stamps) as (lo & Elo & _).
  destruct (max_loop_text s0 stamps) as (hi & Ehi & _).
  rewrite Elo. cbn [bind]. rewrite Ehi. cbn [bind]. eauto.
Qed.

Lemma is_empty_false {A : Type} (l : list A) : l <> [] -> is_empty l = false.
Proof. destruct l; [contradiction | reflexivity]. Qed.

(** X6: when the three aggregations return tables and every loaded record
    has a text [timestamp], the run completes: it writes the three
    deployment files, the two lead-time files, the two change-failure files
    and the summary, in that order, each holding the matching table, and the
    summary counts every loaded record, inert ones included. *)
Theorem complete_run_writes_eight_files
  (raw_dir : directory) (timestamp now : string) (out : list file)
  (d : deployment_tables) (l : lead_time_tables) (c : change_tables)
  (stamps : list string) :
  calculate_deployment_frequency (load_metrics raw_dir) = Ok (Tables d) ->
  calculate_lead_time (load_metrics raw_dir) = Ok (Tables l) ->
  calculate_change_failure_rate (load_metrics raw_dir) = Ok (Tables c) ->
  map (lookup "timestamp") (load_metrics raw_dir)
  = map (fun s => Some (VStr s)) stamps ->
  exists s,
    make_summary now (load_metrics raw_dir) = Ok s
    /\ total_metrics s = Z.of_nat (List.length (load_metrics raw_dir))
    /\ generated_at s = now
    /\ generate_powerbi_export raw_dir timestamp now out
       = (Ok (Some s),
          (out ++ [(powerbi "deployment_frequency_daily" timestamp,
                    DeploymentDaily (dep_daily d));
                   (powerbi "deployment_frequency_weekly" timestamp,
                    DeploymentByPeriod (dep_weekly d));
                   (powerbi "deployment_frequency_monthly" timestamp,
                    DeploymentByPeriod (dep_monthly d));
                   (powerbi "lead_time_daily" timestamp,
                    LeadTimeDaily (lt_daily_average l));
                   (powerbi "lead_time_raw" timestamp, LeadTimeRaw (lt_raw l));
                   (powerbi "change_failure_rate_daily" timestamp,
                    ChangeFailureDaily (cfr_daily c));
                   (powerbi "change_failure_rate_weekly" timestamp,
                    ChangeFailureWeekly (cfr_weekly c));
                   (("metrics/aggregated/summary_" ++ timestamp ++ ".json")%string,
                    SummaryDocument s)])%list).
Proof.
  intros Hd Hl Hc Hs.
  assert (Hne : load_metrics raw_dir <> []).
  { intros E. rewrite E in Hd. discriminate. }
  destruct (summary_made now (load_metrics raw_dir) stamps Hne Hs) as (lo & hi & Hsum).
  eexists. split; [exact Hsum |]. split; [reflexivity |]. split; [reflexivity |].
  unfold generate_powerbi_export.
  destruct (load_metrics raw_dir) as [| m ms] eqn:Em; [contradiction |].
  unfold io_bind at 1. unfold lift at 1. rewrite Hd.
  unfold io_bind at 1. unfold lift at 1. rewrite Hl.
  unfold io_bind at 1. unfold lift at 1. rewrite Hc.
  unfold export_deployment_frequency, export_lead_time, export_change_failure_rate,
    io_bind, lift, write, io_ret, truth.
  rewrite (is_empty_false _ (deployment_daily_nonempty _ _ Hd)).
  rewrite (is_empty_false _ (lead_time_daily_nonempty _ _ Hl)).
  rewrite (is_empty_false _ (change_daily_nonempty _ _ Hc)).
  cbn [andb negb]. rewrite Hsum.
  repeat rewrite <- app_assoc. reflexivity.
Qed.

Lemma complete_run_writes_eight_files_witness :
  exists s,
    total_metrics s = 4
    /\ fst (generate_powerbi_export (Some complete_files)
              "20240105" "2024-01-05T06:00:00" []) = Ok (Some s)
    /\ paths (snd (generate_powerbi_export (Some complete_files)
                     "20240105" "2024-01-05T06:00:00" []))
       = full_export_paths "20240105".
Proof.
  destruct (complete_run_writes_eight_files (Some complete_files)
              "20240105" "2024-01-05T06:00:00" []
              (tables_or (mkDeploymentTables [] [] [] [])
                 (calculate_deployment_frequency (load_metrics (Some complete_files))))
              (tables_or (mkLeadTimeTables [] [])
                 (calculate_lead_time (load_metrics (Some complete_files))))
              (tables_or (mkChangeTables [] [] [])
                 (calculate_change_failure_rate (load_metrics (Some complete_files))))
              ["2024-01-01T09:30:00Z"; "2024-01-01T12:00:00Z";
               "2024-01-01T10:00:00Z"; "2024-01-01T16:45:00Z"])
    as (s & _ & Ht & _ & Hrun).
  - vm_compute. reflexivity.
  - vm_compute. reflexivity.
  - vm_compute. reflexivity.
  - reflexivity.
  - exists s. rewrite Hrun. split; [exact Ht |]. split; reflexivity.
Defined.

(** ** The deployment tables *)

Lemma filter_all {A : Type} (l : list A) : filter (fun _ => true) l = l.
Proof. induction l as [| x l IH]; simpl; [reflexivity | rewrite IH; reflexivity]. Qed.

Lemma total_count_groupby {K : Type} (key_eqb key_leb : K -> K -> bool) (l : list K) :
  (forall x y, key_eqb x y = true <-> x = y) ->
  total_count (groupby_size key_eqb key_leb l) = Z.of_nat (List.length l).
Proof.
  intros Heq.
  change (total_count (groupby_size key_eqb key_leb l))
    with (sum_counts (fun _ => true) (groupby_size key_eqb key_leb l)).
  rewrite (sum_counts_groupby key_eqb key_leb Heq). unfold count_if.
  rewrite filter_all. reflexivity.
Qed.

Lemma total_count_labels (str : Z -> string) (table : list (Z * string * Z)) :
  total_count (map (label_period str) table) = total_count table.
Proof.
  induction table as [| [[p s] c] table IH]; [reflexivity |].
  cbn [map label_period total_count fold_right snd].
  f_equal. exact IH.
Qed.

(** X7: in a populated deployment result the [deployment_count] column of the
    daily, of the weekly and of the monthly table each add up to the number
    of records that carry [deployment_frequency]: every such record is
    counted once in each table, whatever its [deployment_id], and none is
    merged with another. *)
Theorem deployment_counts_are_conserved (metrics : list dict) (t : deployment_tables) :
  calculate_deployment_frequency metrics = Ok (Tables t) ->
  let n := Z.of_nat (List.length (filter (contains "deployment_frequency") metrics)) in
  total_count (dep_daily t) = n
  /\ total_count (dep_weekly t) = n
  /\ total_count (dep_monthly t) = n
  /\ Z.of_nat (List.length (dep_raw t)) = n
  /\ 0 < n.
Proof.
  intros E n.
  destruct (deployment_frame_made _ _ E) as (ds & He & Hne & Hdf).
  apply stamp_frame_made in Hdf as (Hdf & _).
  destruct (deployment_tables_made _ _ E)
    as (days & weeks & months & Hd & -> & Hw & -> & Hm & ->).
  assert (Hlen : List.length (dep_raw t)
                 = List.length (filter (contains "deployment_frequency") metrics)).
  { rewrite (for_each_length _ _ _ Hdf). apply extract_ok in He.
    symmetry. eapply Forall2_length. exact He. }
  rewrite !total_count_labels.
  rewrite (total_count_groupby _ _ _ day_key_eqb_eq).
  rewrite !(total_count_groupby _ _ _ period_key_eqb_eq).
  rewrite (for_each_length _ _ _ Hd), (for_each_length _ _ _ Hw),
    (for_each_length _ _ _ Hm), Hlen.
  repeat split; try reflexivity.
  unfold n. rewrite <- Hlen, (for_each_length _ _ _ Hdf).
  destruct ds; [contradiction | simpl; lia].
Qed.

Lemma deployment_counts_are_conserved_witness :
  total_count (dep_daily sample_deployment_tables) = 5
  /\ total_count (dep_weekly sample_deployment_tables) = 5
  /\ total_count (dep_monthly sample_deployment_tables) = 5.
Proof.
  destruct (deployment_counts_are_conserved sample_deployments sample_deployment_tables)
    as (H1 & H2 & H3 & _).
  - vm_compute. reflexivity.
  - split; [exact H1 |]. split; [exact H2 | exact H3].
Defined.

Lemma months_of_days {A : Type} (service : A -> value) (df : list (stamped A))
  (days : list (date * string)) (months : list (Z * string)) :
  for_each (bucket service dt_date) df = Ok days ->
  for_each (bucket service to_period_M) df = Ok months ->
  months = map (fun k => (period_M (fst k), snd k)) days.
Proof.
  intros Hd Hm. apply for_each_ok in Hd, Hm.
  revert months Hm. induction Hd as [| r k df days Hr _ IH]; intros months Hm.
  - inversion Hm. reflexivity.
  - inversion Hm as [| r' k' df' months' Hr' Hm']; subst. simpl. f_equal; [| auto].
    unfold bucket in Hr, Hr'.
    destruct (hashable (service (st_row r))); simpl in Hr, Hr'; [| discriminate].
    injection Hr as <-. injection Hr' as <-. reflexivity.
Qed.

(** The label of the monthly period of a date is its year and month. *)
Lemma month_str_of_date (d : date) :
  1 <= d_month d <= 12 ->
  month_str (period_M d) = (pad4 (d_year d) ++ "-" ++ pad2 (d_month d))%string.
Proof.
  intros Hm. unfold month_str, period_M.
  assert (Hq : ((d_year d - 1970) * 12 + d_month d - 1) / 12 = d_year d - 1970).
  { Z.div_mod_to_equations. lia. }
  assert (Hr : ((d_year d - 1970) * 12 + d_month d - 1) mod 12 = d_month d - 1).
  { Z.div_mod_to_equations. lia. }
  rewrite Hq, Hr.
  replace (1970 + (d_year d - 1970)) with (d_year d) by lia.
  replace (d_month d - 1 + 1) with (d_month d) by lia. reflexivity.
Qed.

(** The days of the day keys are dates that were read from time stamps. *)
Lemma day_keys_valid {A : Type} (timestamp service : A -> value) (rows : list A)
  (df : list (stamped A)) (days : list (date * string)) (k : date * string) :
  for_each (stamp timestamp) rows = Ok df ->
  for_each (bucket service dt_date) df = Ok days ->
  In k days ->
  valid_ymd (d_year (fst k)) (d_month (fst k)) (d_day (fst k)) = true.
Proof.
  intros Hdf Hd Hk. apply for_each_ok in Hdf, Hd.
  destruct (Forall2_In_r _ _ _ _ Hd Hk) as (r & Hr & Hb).
  destruct (Forall2_In_r _ _ _ _ Hdf Hr) as (a & _ & Hs).
  apply stamp_ok in Hs as (_ & Ht). apply to_datetime_valid in Ht.
  unfold bucket in Hb. destruct (hashable (service (st_row r))); [| discriminate].
  simpl in Hb. injection Hb as <-. exact Ht.
Qed.

(** X8: in a populated deployment result every monthly row holds, for its
    month and service, the sum of the [deployment_count] of the daily rows of
    that service whose day lies in that month; every daily row is covered by
    the monthly row labelled with its year and month, [YYYY-MM]. *)
Theorem monthly_count_is_sum_of_daily (metrics : list dict) (t : deployment_tables) :
  calculate_deployment_frequency metrics = Ok (Tables t) ->
  (forall label svc c,
      In (label, svc, c) (dep_monthly t) ->
      exists p, label = month_str p
                /\ c = daily_count_in_month (dep_daily t) p svc
                /\ exists d c', In (d, svc, c') (dep_daily t) /\ period_M d = p)
  /\ (forall d svc c',
         In (d, svc, c') (dep_daily t) ->
         In ((pad4 (d_year d) ++ "-" ++ pad2 (d_month d))%string, svc,
             daily_count_in_month (dep_daily t) (period_M d) svc) (dep_monthly t)).
Proof.
  intros E.
  destruct (deployment_frame_made _ _ E) as (ds & _ & _ & Hdf).
  apply stamp_frame_made in Hdf as (Hdf & _).
  destruct (deployment_tables_made _ _ E)
    as (days & weeks & months & Hd & Ed & _ & _ & Hm & Em).
  pose proof (months_of_days _ _ _ _ Hd Hm) as Hmonths.
  assert (Hsum : forall p svc,
             count_key period_key_eqb (p, svc) months
             = daily_count_in_month (dep_daily t) p svc).
  { intros p svc. rewrite Hmonths, count_key_map, Ed. symmetry.
    exact (sum_counts_groupby day_key_eqb day_key_leb day_key_eqb_eq
             (fun k => period_key_eqb (p, svc) (period_M (fst k), snd k)) days). }
  split.
  - intros label svc c Hin. rewrite Em in Hin.
    apply in_map_iff in Hin as ([[p s] c0] & Hl & Hin). simpl in Hl.
    injection Hl as <- <- <-.
    apply (groupby_size_In _ _ period_key_eqb_eq) in Hin as (Hin & ->).
    exists p. split; [reflexivity |]. split; [apply Hsum |].
    rewrite Hmonths in Hin. apply in_map_iff in Hin as ([d s'] & Hk & Hin).
    simpl in Hk. injection Hk as <- <-.
    exists d, (count_key day_key_eqb (d, s') days). split; [| reflexivity].
    rewrite Ed. apply (groupby_size_In _ _ day_key_eqb_eq). auto.
  - intros d svc c' Hin. rewrite Ed in Hin.
    apply (groupby_size_In _ _ day_key_eqb_eq) in Hin as (Hin & _).
    pose proof (day_keys_valid _ _ _ _ _ _ Hdf Hd Hin) as Hv. simpl in Hv.
    unfold valid_ymd in Hv. rewrite !andb_true_iff, !Z.leb_le in Hv.
    rewrite <- (month_str_of_date d) by lia.
    rewrite Em. apply in_map_iff.
    exists (period_M d, svc, count_key period_key_eqb (period_M d, svc) months).
    split; [simpl; rewrite Hsum; reflexivity |].
    apply (groupby_size_In _ _ period_key_eqb_eq). split; [| reflexivity].
    rewrite Hmonths. apply in_map_iff. exists (d, svc). auto.
Qed.

Lemma monthly_count_is_sum_of_daily_witness :
  In ("2024-01", "A",
      daily_count_in_month (dep_daily sample_deployment_tables)
        (period_M (mkDate 2024 1 3)) "A")
     (dep_monthly sample_deployment_tables)
  /\ daily_count_in_month (dep_daily sample_deployment_tables)
       (period_M (mkDate 2024 1 3)) "A" = 3.
Proof.
  destruct (monthly_count_is_sum_of_daily sample_deployments sample_deployment_tables)
    as (_ & Hcover).
  - vm_compute. reflexivity.
  - split; [| vm_compute; reflexivity].
    apply (Hcover (mkDate 2024 1 3) "A" 2). vm_compute. auto.
Defined.

(** ** Lead-time statistics *)

Lemma q_median_bounds (vs : list Q) (lo hi : Q) :
  vs <> [] ->
  (forall x, In x vs -> (lo <= x)%Q /\ (x <= hi)%Q) ->
  (lo <= q_median vs)%Q /\ (q_median vs <= hi)%Q.
Proof.
  intros Hne H. unfold q_median.
  pose proof (sort_keys_perm Qle_bool vs) as Hp.
  set (sorted := sort_keys Qle_bool vs) in *.
  assert (Hs : forall x, In x sorted -> (lo <= x)%Q /\ (x <= hi)%Q).
  { intros x Hx. apply H. eapply Permutation_in; [exact Hp | exact Hx]. }
  assert (Hlen : List.length sorted <> 0%nat).
  { rewrite (Permutation_length Hp). destruct vs; [contradiction | discriminate]. }
  assert (Hnth : forall i, (i < List.length sorted)%nat ->
                           (lo <= nth i sorted 0)%Q /\ (nth i sorted 0 <= hi)%Q).
  { intros i Hi. apply Hs. apply nth_In. exact Hi. }
  assert (Hhalf : (List.length sorted / 2 < List.length sorted)%nat).
  { apply Nat.div_lt; lia. }
  destruct (Nat.even (List.length sorted)).
  - destruct (Hnth (List.length sorted / 2)%nat Hhalf) as [A1 A2].
    destruct (Hnth (List.length sorted / 2 - 1)%nat) as [B1 B2]; [lia |].
    rewrite Qred_correct. split.
    + apply Qle_shift_div_l; lra.
    + apply Qle_shift_div_r; lra.
  - apply Hnth. exact Hhalf.
Qed.

(** X9: every row of the daily lead-time table takes its four statistics
    over the hours of the canonical rows of its day and service, which are
    never none: the minimum and the maximum are the least and the greatest
    of those lead times, the median is their middle value (between the two
    middle ones for an even number), so it lies between the minimum and the
    maximum, and the mean is their sum divided by their number, within the
    rounding of binary64. *)
Theorem lead_time_statistics_are_ordered
  (metrics : list dict) (t : lead_time_tables) (row : lead_time_daily) :
  calculate_lead_time metrics = Ok (Tables t) ->
  In row (lt_daily_average t) ->
  let hours := hours_in_bucket (lt_raw t) (ltd_date row) (ltd_service row) in
  hours <> []
  /\ least_of hours (min_lead_time_hours row)
  /\ greatest_of hours (max_lead_time_hours row)
  /\ median_of hours (median_lead_time_hours row)
  /\ mean_of hours (avg_lead_time_hours row)
  /\ (min_lead_time_hours row <= median_lead_time_hours row)%Q
  /\ (median_lead_time_hours row <= max_lead_time_hours row)%Q.
Proof.
  intros E Hin.
  destruct (lead_time_tables_made _ _ E) as (ls & rows & _ & _ & _ & Hrows & Ht).
  rewrite Ht in Hin. apply in_map_iff in Hin as (k & <- & Hk).
  apply (proj1 (In_group_keys day_key_eqb day_key_leb day_key_eqb_eq _ _)) in Hk.
  unfold lead_time_agg. cbn [ltd_date ltd_service avg_lead_time_hours
    median_lead_time_hours min_lead_time_hours max_lead_time_hours].
  rewrite (bucket_hours_raw _ _ k Hrows).
  assert (Hne : hours_in_bucket (lt_raw t) (fst k) (snd k) <> []).
  { rewrite <- (bucket_hours_raw _ _ k Hrows). unfold bucket_hours, group_rows.
    apply in_map_iff in Hk as (kr & Hkr & Hinr).
    apply map_nonempty. intros Hnil.
    assert (Hf : In kr (filter (fun r => day_key_eqb k (fst r)) rows)).
    { apply filter_In. split; [exact Hinr |]. apply day_key_eqb_eq. auto. }
    rewrite Hnil in Hf. contradiction. }
  set (hours := hours_in_bucket (lt_raw t) (fst k) (snd k)) in *.
  assert (Hb : forall x, In x hours -> (q_min hours <= x)%Q /\ (x <= q_max hours)%Q).
  { intros x Hx. split; [apply q_min_le | apply q_max_ge]; exact Hx. }
  destruct (q_median_bounds hours _ _ Hne Hb) as [D1 D2].
  cbv zeta.
  split; [exact Hne |].
  split; [apply q_min_is_least, Hne |].
  split; [apply q_max_is_greatest, Hne |].
  split; [apply q_median_is_median, Hne |].
  split; [apply q_mean_is_mean, Hne |].
  split; [exact D1 | exact D2].
Qed.

Lemma lead_time_statistics_are_ordered_witness :
  let row := mkLeadTimeDaily (mkDate 2024 1 1) "A" (5 # 4) (5 # 4) (- 1 # 2) 3 in
  least_of [3%Q; (- 1 # 2)%Q] (min_lead_time_hours row)
  /\ greatest_of [3%Q; (- 1 # 2)%Q] (max_lead_time_hours row)
  /\ mean_of [3%Q; (- 1 # 2)%Q] (avg_lead_time_hours row)
  /\ (min_lead_time_hours row <= median_lead_time_hours row)%Q.
Proof.
  intros row.
  destruct (lead_time_statistics_are_ordered sample_lead_times
              (tables_or (mkLeadTimeTables [] []) (calculate_lead_time sample_lead_times))
              row) as (_ & H1 & H2 & _ & H3 & H4 & _).
  - vm_compute. reflexivity.
  - vm_compute. auto.
  - split; [exact H1 |]. split; [exact H2 |]. split; [exact H3 | exact H4].
Defined.

(** X10: a lead-time record with a time stamp, a service and a payload
    whose two stamps parse on the same kind of clock (both naive, or both
    with an offset) gets a row, and the row is a difference of two moments:
    it holds the payload's two stamps, its seconds are the deploy moment
    minus the commit moment (in UTC when they carry an offset, whatever the
    two offsets), its minutes and hours are those seconds divided by 60 and
    by 3600, and its hours are negative exactly when the deploy moment comes
    first. *)
Theorem lead_time_row_units
  (m payload : dict) (ts svc c d : value) (tc td : datetime) :
  lookup "timestamp" m = Some ts ->
  lookup "service" m = Some svc ->
  lookup "lead_time_for_changes" m = Some (VObj payload) ->
  lookup "commit_timestamp" payload = Some c ->
  lookup "deploy_timestamp" payload = Some d ->
  parser_parse c = Ok tc ->
  parser_parse d = Ok td ->
  (utcoffset td = None <-> utcoffset tc = None) ->
  exists r,
    lead_time_row m = Ok r
    /\ canonical_lead_time ts svc payload tc td r
    /\ ((lead_time_hours r < 0)%Q <-> instant td < instant tc)
    /\ ((lead_time_hours r == 0)%Q <-> instant td = instant tc).
Proof.
  intros Hts Hsvc Hm Hc Hd Pc Pd Hclock.
  assert (Hsub : sub_total_seconds td tc = Ok (instant td - instant tc)).
  { unfold sub_total_seconds, instant.
    destruct (utcoffset td) as [od |], (utcoffset tc) as [oc |].
    - f_equal; lia.
    - destruct Hclock as [_ H]. specialize (H eq_refl). discriminate.
    - destruct Hclock as [H _]. specialize (H eq_refl). discriminate.
    - f_equal; lia. }
  set (secs := instant td - instant tc) in *.
  exists (mkLeadTime ts svc (field_or "commit_sha" (VStr "") payload) tc td
            (inject_Z secs) (Qred (inject_Z secs / 60)) (Qred (inject_Z secs / 3600))).
  split.
  { unfold lead_time_row, getitem. rewrite Hm. cbn [bind subscript].
    unfold getitem. rewrite Hc. cbn [bind]. rewrite Pc. cbn [bind].
    rewrite Hd. cbn [bind]. rewrite Pd. cbn [bind]. rewrite Hsub. cbn [bind].
    rewrite Hts. cbn [bind]. rewrite Hsvc. reflexivity. }
  split.
  { unfold canonical_lead_time.
    do 6 (split; [reflexivity |]).
    split.
    - apply (rounds_exact _ (Qred (inject_Z secs / 60))), Qred_correct.
    - apply (rounds_exact _ (Qred (inject_Z secs / 3600))), Qred_correct. }
  change (lead_time_hours _) with (Qred (inject_Z secs / 3600)).
  pose proof (Qred_correct (inject_Z secs / 3600)) as E.
  assert (E2 : (inject_Z secs / 3600 == inject_Z secs * (1 # 3600))%Q) by field.
  split; split; intros H.
  - assert (Hq : (inject_Z secs < inject_Z 0)%Q) by (change (inject_Z 0) with 0%Q; lra).
    rewrite <- Zlt_Qlt in Hq. lia.
  - assert (Hq : (inject_Z secs < inject_Z 0)%Q) by (rewrite <- Zlt_Qlt; lia).
    change (inject_Z 0) with 0%Q in Hq. lra.
  - assert (Hq : (inject_Z secs == inject_Z 0)%Q) by (change (inject_Z 0) with 0%Q; lra).
    rewrite inject_Z_injective in Hq. lia.
  - assert (Hq : secs = 0) by lia. rewrite Hq in *. change (inject_Z 0) with 0%Q in *. lra.
Qed.

Lemma lead_time_row_units_witness :
  exists r,
    lead_time_row sample_skewed = Ok r
    /\ lead_time_seconds r = inject_Z (- 1800)
    /\ lt_deploy_timestamp r = mkDatetime 2024 1 1 7 30 0 (Some 0)
    /\ (lead_time_hours r < 0)%Q.
Proof.
  destruct (lead_time_row_units sample_skewed
              [("commit_timestamp", VStr "2024-01-01T08:00:00Z");
               ("deploy_timestamp", VStr "2024-01-01T07:30:00Z")]
              (VStr "2024-01-01T12:30:00Z") (VStr "A")
              (VStr "2024-01-01T08:00:00Z") (VStr "2024-01-01T07:30:00Z")
              (mkDatetime 2024 1 1 8 0 0 (Some 0)) (mkDatetime 2024 1 1 7 30 0 (Some 0)))
    as (r & Hr & Hcan & Hneg & _); try reflexivity.
  destruct Hcan as (_ & _ & _ & _ & Htd & Hs & _).
  exists r. split; [exact Hr |]. split; [exact Hs |]. split; [exact Htd |].
  apply Hneg. vm_compute. reflexivity.
Defined.

(** X11: a lead-time payload with one naive time stamp and one with an
    offset cannot be subtracted: the row raises [TypeError], and so does the
    lead-time aggregation of every batch that holds such a record after
    records that extract; nothing is aggregated. *)
Theorem mixed_clock_lead_time_raises
  (before after : list dict) (m payload : dict) (c d : value) (tc td : datetime) :
  lookup "lead_time_for_changes" m = Some (VObj payload) ->
  lookup "commit_timestamp" payload = Some c ->
  lookup "deploy_timestamp" payload = Some d ->
  parser_parse c = Ok tc ->
  parser_parse d = Ok td ->
  zone_eqb (utcoffset tc) (utcoffset td) = false ->
  (utcoffset tc = None \/ utcoffset td = None) ->
  extractable "lead_time_for_changes" lead_time_row before ->
  lead_time_row m = Raise TypeError
  /\ calculate_lead_time (before ++ m :: after) = Raise TypeError.
Proof.
  intros Hm Hc Hd Pc Pd Hz Hnone Hbefore.
  assert (Hrow : lead_time_row m = Raise TypeError).
  { unfold lead_time_row, subscript, getitem. rewrite Hm. cbn [bind].
    rewrite Hc. cbn [bind]. rewrite Pc. cbn [bind].
    rewrite Hd. cbn [bind]. rewrite Pd. cbn [bind].
    unfold sub_total_seconds.
    destruct (utcoffset td), (utcoffset tc); try reflexivity.
    - destruct Hnone; discriminate.
    - discriminate. }
  split; [exact Hrow |].
  assert (Hk : contains "lead_time_for_changes" m = true).
  { unfold contains. rewrite Hm. reflexivity. }
  unfold calculate_lead_time.
  assert (He : extract "lead_time_for_changes" lead_time_row (before ++ m :: after)
               = Raise TypeError).
  { induction before as [| x before IH]; simpl.
    - rewrite Hk, Hrow. reflexivity.
    - assert (Hx : contains "lead_time_for_changes" x = true ->
                   is_ok (lead_time_row x) = true).
      { apply Hbefore. left. reflexivity. }
      rewrite IH by (intros y Hy; apply Hbefore; right; exact Hy).
      destruct (contains "lead_time_for_changes" x); [| reflexivity].
      destruct (lead_time_row x); [reflexivity |].
      specialize (Hx eq_refl). discriminate. }
  rewrite He. reflexivity.
Qed.

Lemma mixed_clock_lead_time_raises_witness :
  lead_time_row sample_mixed_clocks = Raise TypeError
  /\ calculate_lead_time ([sample_lead_time; sample_deployment]
                           ++ sample_mixed_clocks :: [sample_skewed])
     = Raise TypeError.
Proof.
  apply (mixed_clock_lead_time_raises
           [sample_lead_time; sample_deployment] [sample_skewed] sample_mixed_clocks
           [("commit_timestamp", VStr "2024-01-01T08:00:00");
            ("deploy_timestamp", VStr "2024-01-01T11:00:00+02:00")]
           (VStr "2024-01-01T08:00:00") (VStr "2024-01-01T11:00:00+02:00")
           (mkDatetime 2024 1 1 8 0 0 None) (mkDatetime 2024 1 1 11 0 0 (Some 7200)));
    try reflexivity.
  - left. reflexivity.
  - intros x [<- | [<- | []]] H; [reflexivity | discriminate H].
Defined.

(** ** The columns of the change-failure tables *)

Section UnstackColumns.
Context {P : Type}.
Variable key_eqb : P * string -> P * string -> bool.
Variable key_leb : P * string -> P * string -> bool.
Hypothesis key_eqb_eq : forall x y, key_eqb x y = true <-> x = y.

(** A row of the unstacked table has a column only for a status that occurs
    in the frame. *)
Lemma unstack_row_status (keys : list ((P * string) * string)) (k : P * string)
  (cs : columns) (st : string) :
  In (k, cs) (unstack_sizes key_eqb key_leb keys) ->
  has_col st cs = true -> In st (map snd keys).
Proof.
  unfold unstack_sizes. intros H. cbv zeta in H.
  apply in_map_iff in H as (k' & E & _). injection E as _ Ecs. subst cs.
  unfold has_col. rewrite col_status_cells.
  destruct (existsb (String.eqb st) _) eqn:Ex; [| discriminate]. intros _.
  apply (existsb_key String.eqb String.eqb_eq) in Ex.
  apply (proj1 (In_group_keys String.eqb String.leb String.eqb_eq _ _)) in Ex.
  exact Ex.
Qed.
End UnstackColumns.

Lemma col_with_rates_other (with_success_rate : bool) (name : string) (cs : columns) :
  name <> "success" -> name <> "failure" -> name <> "total_changes" ->
  name <> "failure_rate" -> (with_success_rate = true -> name <> "success_rate") ->
  col name (with_rates with_success_rate cs) = col name cs.
Proof.
  intros H1 H2 H3 H4 H5. unfold with_rates.
  destruct with_success_rate.
  - rewrite !col_set_col.
    destruct (String.eqb_spec name "success_rate") as [E | _];
      [exfalso; apply (H5 eq_refl); exact E |].
    destruct (String.eqb_spec name "failure_rate") as [E | _]; [contradiction |].
    destruct (String.eqb_spec name "total_changes") as [E | _]; [contradiction |].
    rewrite !col_ensure_other by assumption. reflexivity.
  - rewrite !col_set_col.
    destruct (String.eqb_spec name "failure_rate") as [E | _]; [contradiction |].
    destruct (String.eqb_spec name "total_changes") as [E | _]; [contradiction |].
    rewrite !col_ensure_other by assumption. reflexivity.
Qed.

Lemma status_in_frame (P : Type) (period : datetime -> P) (raw : list (stamped change))
  (keys : list ((P * string) * string)) (st : string) :
  for_each (bucket_status period) raw = Ok keys ->
  In st (map snd keys) ->
  exists r, In r raw /\ ch_status (st_row r) = VStr st.
Proof.
  intros H Hin. apply for_each_ok in H.
  apply in_map_iff in Hin as (key & <- & Hkey).
  destruct (Forall2_In_r _ _ _ _ H Hkey) as (r & Hr & Hb).
  exists r. split; [exact Hr |].
  unfold bucket_status in Hb. apply bind_ok in Hb as (k & _ & Hb).
  apply bind_ok in Hb as (s & Hs & Hb). injection Hb as <-.
  apply hashable_ok in Hs. exact Hs.
Qed.

(** X12: every row of the daily and of the weekly change-failure table has
    integer [success], [failure] and [total_changes] columns (zero-filled
    when no change of the frame has that status) and a float [failure_rate];
    daily rows also have a float [success_rate], while a weekly row has a
    [success_rate] column only when some change of the frame has the very
    status [success_rate]. *)
Theorem change_failure_columns (metrics : list dict) (t : change_tables) :
  calculate_change_failure_rate metrics = Ok (Tables t) ->
  (forall r, In r (cfr_daily t) ->
     exists s f x y,
       col "success" (cfr_cells r) = Some (CInt s)
       /\ col "failure" (cfr_cells r) = Some (CInt f)
       /\ col "total_changes" (cfr_cells r) = Some (CInt (s + f))
       /\ col "failure_rate" (cfr_cells r) = Some (CFloat x)
       /\ col "success_rate" (cfr_cells r) = Some (CFloat y))
  /\ (forall r, In r (cfr_weekly t) ->
        (exists s f x,
            col "success" (cfr_cells r) = Some (CInt s)
            /\ col "failure" (cfr_cells r) = Some (CInt f)
            /\ col "total_changes" (cfr_cells r) = Some (CInt (s + f))
            /\ col "failure_rate" (cfr_cells r) = Some (CFloat x))
        /\ (has_col "success_rate" (cfr_cells r) = true ->
            exists c, In c (cfr_raw t)
                      /\ ch_status (st_row c) = VStr "success_rate")).
Proof.
  intros E.
  destruct (change_tables_made _ _ E) as (days & weeks & wk & Hdays & Hd & Hweeks & Hw & Ht).
  split.
  - intros r Hin.
    destruct (failure_table_row _ _ _ _ _ _ _ Hd Hin) as (cs & Hcs & ->).
    apply (unstack_row _ _ day_key_eqb_eq) in Hcs as (_ & Hc & _).
    destruct (with_rates_cols true cs Hc) as (_ & _ & Es & Ef & Et & Er & Esr).
    do 4 eexists. repeat split; eauto.
  - intros r Hin. rewrite Ht in Hin. apply in_map_iff in Hin as (r0 & <- & Hin).
    cbn [label_week cfr_cells].
    destruct (failure_table_row _ _ _ _ _ _ _ Hw Hin) as (cs & Hcs & ->).
    pose proof Hcs as Hcs'.
    apply (unstack_row _ _ period_key_eqb_eq) in Hcs as (_ & Hc & _).
    destruct (with_rates_cols false cs Hc) as (_ & _ & Es & Ef & Et & Er & _).
    split; [do 3 eexists; repeat split; eauto |].
    unfold has_col. rewrite col_with_rates_other; try discriminate.
    intros Hcol.
    apply (status_in_frame _ _ _ _ _ Hweeks).
    apply (unstack_row_status _ _ _ _ _ _ Hcs'). exact Hcol.
Qed.

Lemma change_failure_columns_witness :
  exists c, In c (cfr_raw sample_odd_status_tables)
            /\ ch_status (st_row c) = VStr "success_rate".
Proof.
  destruct (change_failure_columns sample_odd_status sample_odd_status_tables) as (_ & H).
  - vm_compute. reflexivity.
  - apply (H (mkCfrRow "2024-01-01/2024-01-07" "A"
                [("success", CInt 1); ("success_rate", CInt 1); ("failure", CInt 0);
                 ("total_changes", CInt 1); ("failure_rate", CFloat (Num 0))])).
    + vm_compute. auto.
    + reflexivity.
Defined.

Lemma filter_three_way {A : Type} (a s f : A -> bool) (l : list A) :
  (forall x, s x = true -> f x = false) ->
  (List.length (filter (fun x => a x && s x) l)
   + List.length (filter (fun x => a x && f x) l)
   + List.length (filter (fun x => a x && negb (s x || f x)) l)
   = List.length (filter a l))%nat.
Proof.
  intros Hsf. induction l as [| x l IH]; [reflexivity |].
  cbn [filter]. pose proof (Hsf x) as Hx.
  destruct (a x), (s x), (f x); cbn [andb orb negb List.length];
    try lia; specialize (Hx eq_refl); discriminate.
Qed.

Lemma status_partition (raw : list (stamped change)) (d : date) (svc : string) :
  count_status raw d svc "success" + count_status raw d svc "failure"
  + count_other raw d svc = count_bucket raw d svc.
Proof.
  unfold count_status, count_other, count_bucket.
  rewrite <- (filter_three_way
                (fun r => date_eqb d (dt_date (st_time r))
                          && value_is svc (ch_service (st_row r)))
                (fun r => value_is "success" (ch_status (st_row r)))
                (fun r => value_is "failure" (ch_status (st_row r))) raw).
  - lia.
  - intros x. destruct (ch_status (st_row x)) as [s | o]; cbn [value_is]; [| discriminate].
    intros H. apply String.eqb_eq in H. subst s. reflexivity.
Qed.

(** X13: in every daily change-failure row, [total_changes] is the number of
    changes of that day and service minus those whose status is neither
    [success] nor [failure]: other statuses are left out of the total, and
    the bucket has at least one change. *)
Theorem total_changes_leaves_out_other_statuses
  (metrics : list dict) (t : change_tables) (r : cfr_row date) :
  calculate_change_failure_rate metrics = Ok (Tables t) ->
  In r (cfr_daily t) ->
  let bucket := count_bucket (cfr_raw t) (cfr_period r) (cfr_service r) in
  let other := count_other (cfr_raw t) (cfr_period r) (cfr_service r) in
  int_col "total_changes" (cfr_cells r) = bucket - other
  /\ 0 <= other
  /\ 0 <= int_col "total_changes" (cfr_cells r) <= bucket
  /\ 1 <= bucket.
Proof.
  intros E Hin.
  destruct (change_tables_made _ _ E) as (days & weeks & wk & Hdays & Hd & _).
  destruct (failure_table_row _ _ _ _ _ _ _ Hd Hin) as (cs & Hcs & Hcells).
  apply (unstack_row _ _ day_key_eqb_eq) in Hcs as (Hk & Hc & Hcount).
  destruct (with_rates_cols true cs Hc) as (Hs & Hf & _ & _ & Et & _).
  cbv zeta. rewrite Hcells, (int_col_of_col _ _ _ Et).
  rewrite !Hcount in *.
  rewrite (count_key_status _ _ _ _ "success" Hdays) in *.
  rewrite (count_key_status _ _ _ _ "failure" Hdays) in *.
  pose proof (status_partition (cfr_raw t) (cfr_period r) (cfr_service r)) as Hp.
  assert (Ho : 0 <= count_other (cfr_raw t) (cfr_period r) (cfr_service r))
    by (unfold count_other; lia).
  assert (Hb : 1 <= count_bucket (cfr_raw t) (cfr_period r) (cfr_service r)).
  { apply in_map_iff in Hk as ([[d s] st] & Ek & Hkey). simpl in Ek.
    pose proof (for_each_ok _ _ _ Hdays) as F.
    destruct (Forall2_In_r _ _ _ _ F Hkey) as (row & Hrow & Hb).
    unfold bucket_status, bucket in Hb.
    apply bind_ok in Hb as (k0 & Hk0 & Hb).
    apply bind_ok in Hk0 as (s0 & Hs0 & Hk0). injection Hk0 as <-.
    apply bind_ok in Hb as (st0 & _ & Hb). injection Hb as Hd1 Hs1 _.
    apply hashable_ok in Hs0.
    unfold count_bucket.
    assert (Hf' : In row (filter (fun x => date_eqb (cfr_period r) (dt_date (st_time x))
                                    && value_is (cfr_service r) (ch_service (st_row x)))
                            (cfr_raw t))).
    { apply filter_In. split; [exact Hrow |].
      injection Ek as <- <-. rewrite Hs0. cbn [value_is].
      rewrite Hd1, Hs1, String.eqb_refl, andb_true_r. apply date_eqb_eq. reflexivity. }
    destruct (filter _ (cfr_raw t)); [contradiction | simpl; lia]. }
  lia.
Qed.

Lemma total_changes_leaves_out_other_statuses_witness :
  let r := mkCfrRow (mkDate 2024 1 3) "A"
             [("cancelled", CInt 1); ("failure", CInt 0); ("success", CInt 0);
              ("total_changes", CInt 0); ("failure_rate", CFloat NaN);
              ("success_rate", CFloat NaN)] in
  count_other (cfr_raw sample_change_tables) (cfr_period r) (cfr_service r) = 1
  /\ int_col "total_changes" (cfr_cells r)
     = count_bucket (cfr_raw sample_change_tables) (cfr_period r) (cfr_service r)
       - count_other (cfr_raw sample_change_tables) (cfr_period r) (cfr_service r).
Proof.
  intros r.
  destruct (total_changes_leaves_out_other_statuses sample_changes sample_change_tables r)
    as (H & _).
  - vm_compute. reflexivity.
  - vm_compute. auto.
  - split; [vm_compute; reflexivity | exact H].
Defined.

(** ** Weekly change counts against daily change counts *)

Lemma for_each_over_map {A B C : Type} (f : B -> result C) (g : A -> B) (xs : list A) :
  for_each f (map g xs) = for_each (fun x => f (g x)) xs.
Proof.
  induction xs as [| x xs IH]; simpl; [reflexivity | rewrite IH; reflexivity].
Qed.

Lemma failure_table_rows {P : Type} (key_eqb key_leb : P * string -> P * string -> bool)
  (with_success_rate : bool) (level : string)
  (keys : list ((P * string) * string)) (rows : list (cfr_row P)) :
  failure_table key_eqb key_leb with_success_rate level keys = Ok rows ->
  rows = map (fun kc => mkCfrRow (fst (fst kc)) (snd (fst kc))
                          (with_rates with_success_rate (snd kc)))
             (unstack_sizes key_eqb key_leb keys).
Proof.
  unfold failure_table, reset_index. rewrite for_each_over_map.
  generalize (unstack_sizes key_eqb key_leb keys). intros table.
  revert rows. induction table as [| kc table IH]; intros rows H.
  - simpl in H. injection H as <-. reflexivity.
  - cbn [for_each] in H. apply bind_ok in H as (r & Hr & H).
    apply bind_ok in H as (rs & Hrs & H). injection H as <-.
    cbn [map fst snd] in Hr |- *.
    destruct (_ || _); [discriminate |]. injection Hr as <-.
    f_equal. apply IH. exact Hrs.
Qed.

Lemma weeks_of_day_statuses (raw : list (stamped change))
  (days : list ((date * string) * string)) (weeks : list ((Z * string) * string)) :
  for_each (bucket_status dt_date) raw = Ok days ->
  for_each (bucket_status to_period_W) raw = Ok weeks ->
  weeks = map (fun x => ((period_W (fst (fst x)), snd (fst x)), snd x)) days.
Proof.
  intros Hd Hw. apply for_each_ok in Hd, Hw.
  revert weeks Hw. induction Hd as [| r k raw days Hr _ IH]; intros weeks Hw.
  - inversion Hw. reflexivity.
  - inversion Hw as [| r' k' raw' weeks' Hr' Hw']; subst. simpl. f_equal; [| auto].
    unfold bucket_status, bucket in Hr, Hr'.
    destruct (hashable (ch_service (st_row r))); simpl in Hr, Hr'; [| discriminate].
    destruct (hashable (ch_status (st_row r))); simpl in Hr, Hr'; [| discriminate].
    injection Hr as <-. injection Hr' as <-. reflexivity.
Qed.

(** Counting a (key, status) pair is counting the key among the keys of
    that status. *)
Lemma count_key_with_status {P : Type} (key_eqb : P * string -> P * string -> bool)
  (keys : list ((P * string) * string)) (k : P * string) (st : string) :
  count_key (group_status_eqb key_eqb) (k, st) keys
  = count_key key_eqb k (map fst (filter (fun x => String.eqb st (snd x)) keys)).
Proof.
  unfold count_key. f_equal.
  induction keys as [| x keys IH]; [reflexivity |].
  cbn [filter]. unfold group_status_eqb at 1. cbn [fst snd].
  destruct (String.eqb st (snd x)); cbn [map filter].
  - destruct (key_eqb k (fst x)); cbn [andb List.length]; rewrite IH; reflexivity.
  - rewrite andb_false_r. exact IH.
Qed.

Lemma sum_counts_ext_in {K : Type} (p : K -> bool) (f g : K -> Z) (l : list K) :
  (forall k, In k l -> f k = g k) ->
  sum_counts p (map (fun k => (k, f k)) l) = sum_counts p (map (fun k => (k, g k)) l).
Proof.
  induction l as [| k l IH]; intros H; [reflexivity |].
  cbn [map sum_counts fold_right fst snd].
  fold (sum_counts p (map (fun k => (k, f k)) l)).
  fold (sum_counts p (map (fun k => (k, g k)) l)).
  rewrite IH by (intros; apply H; right; assumption).
  rewrite (H k (or_introl eq_refl)). reflexivity.
Qed.

(** The sum, over the groups whose key satisfies [p], of the number of group
    rows with status [st] is the number of frame rows with status [st] whose
    key satisfies [p]. *)
Lemma sum_counts_status {P : Type} (key_eqb key_leb : P * string -> P * string -> bool)
  (keys : list ((P * string) * string)) (p : P * string -> bool) (st : string) :
  (forall x y, key_eqb x y = true <-> x = y) ->
  sum_counts p
    (map (fun k => (k, count_key (group_status_eqb key_eqb) (k, st) keys))
         (group_keys key_eqb key_leb (map fst keys)))
  = count_if (fun x => p (fst x) && String.eqb st (snd x)) keys.
Proof.
  intros Heq.
  rewrite (sum_counts_ext_in p _
             (fun k => count_key key_eqb k
                         (map fst (filter (fun x => String.eqb st (snd x)) keys))))
    by (intros; apply count_key_with_status).
  rewrite (sum_counts_perm p _ _ _ (group_keys_perm key_eqb key_leb (map fst keys))).
  rewrite (sum_counts_distinct key_eqb Heq).
  unfold count_if. f_equal.
  rewrite (filter_ext_in _ p).
  - induction keys as [| x keys IH]; [reflexivity |].
    cbn [filter]. destruct (String.eqb st (snd x)); cbn [map filter].
    + rewrite andb_true_r. destruct (p (fst x)); cbn [List.length]; rewrite IH; reflexivity.
    + rewrite andb_false_r. exact IH.
  - intros y Hy. apply in_map_iff in Hy as (z & <- & Hz).
    apply filter_In in Hz as (Hz & _).
    assert (H1 : existsb (fun y => key_eqb (fst z) y) (map fst keys) = true).
    { apply existsb_exists. exists (fst z). split; [apply in_map; exact Hz |].
      apply (key_eqb_refl key_eqb Heq). }
    rewrite H1. apply andb_true_r.
Qed.

Lemma sum_counts_add {K : Type} (p : K -> bool) (f g : K -> Z) (l : list K) :
  sum_counts p (map (fun k => (k, f k + g k)) l)
  = sum_counts p (map (fun k => (k, f k)) l) + sum_counts p (map (fun k => (k, g k)) l).
Proof.
  induction l as [| k l IH]; [reflexivity |].
  cbn [map sum_counts fold_right fst snd].
  fold (sum_counts p (map (fun k => (k, f k + g k)) l)).
  fold (sum_counts p (map (fun k => (k, f k)) l)).
  fold (sum_counts p (map (fun k => (k, g k)) l)).
  rewrite IH. destruct (p k); lia.
Qed.

(** The weekly sum over the daily rows, row by row of the unstacked table. *)
Lemma daily_cells_in_week_unstacked (name : string) (w : Z) (svc : string)
  (cells : date * string -> columns) (gk : list (date * string)) :
  daily_cells_in_week name
    (map (fun kc => mkCfrRow (fst (fst kc)) (snd (fst kc)) (with_rates true (snd kc)))
         (map (fun k => (k, cells k)) gk)) w svc
  = sum_counts (fun k => period_key_eqb (w, svc) (period_W (fst k), snd k))
      (map (fun k => (k, int_col name (with_rates true (cells k)))) gk).
Proof.
  induction gk as [| k gk IH]; [reflexivity |].
  cbn [map daily_cells_in_week sum_counts fold_right fst snd cfr_period cfr_service
       cfr_cells].
  unfold daily_cells_in_week, sum_counts in IH. rewrite IH. reflexivity.
Qed.

(** X14: every weekly change-failure row holds, in [success], [failure] and
    [total_changes], the sums of those columns over the daily rows of its
    service whose day lies in its week: the weekly view, grouped on its own
    from the canonical table, agrees with the daily view. *)
Theorem weekly_changes_are_sums_of_daily (metrics : list dict) (t : change_tables)
  (r : cfr_row string) :
  calculate_change_failure_rate metrics = Ok (Tables t) ->
  In r (cfr_weekly t) ->
  exists w,
    cfr_period r = week_str w
    /\ int_col "success" (cfr_cells r)
       = daily_cells_in_week "success" (cfr_daily t) w (cfr_service r)
    /\ int_col "failure" (cfr_cells r)
       = daily_cells_in_week "failure" (cfr_daily t) w (cfr_service r)
    /\ int_col "total_changes" (cfr_cells r)
       = daily_cells_in_week "total_changes" (cfr_daily t) w (cfr_service r).
Proof.
  intros E Hin.
  destruct (change_tables_made _ _ E) as (days & weeks & wk & Hdays & Hd & Hweeks & Hw & Ht).
  pose proof (weeks_of_day_statuses _ _ _ Hdays Hweeks) as Hmap.
  rewrite Ht in Hin. apply in_map_iff in Hin as (r0 & <- & Hin).
  cbn [label_week cfr_period cfr_service cfr_cells].
  exists (cfr_period r0). split; [reflexivity |].
  (* the weekly row *)
  destruct (failure_table_row _ _ _ _ _ _ _ Hw Hin) as (cs & Hcs & Hcells).
  apply (unstack_row _ _ period_key_eqb_eq) in Hcs as (_ & Hc & Hcount).
  destruct (with_rates_cols false cs Hc) as (_ & _ & Es & Ef & Et & _).
  rewrite Hcells, (int_col_of_col _ _ _ Es), (int_col_of_col _ _ _ Ef),
    (int_col_of_col _ _ _ Et), !Hcount.
  set (w := cfr_period r0). set (svc := cfr_service r0).
  set (p := fun k : date * string => period_key_eqb (w, svc) (period_W (fst k), snd k)).
  assert (Hweek : forall st,
             count_key (group_status_eqb period_key_eqb) (w, svc, st) weeks
             = count_if (fun x => p (fst x) && String.eqb st (snd x)) days).
  { intros st. rewrite Hmap, count_key_map. reflexivity. }
  (* the daily rows *)
  rewrite (failure_table_rows _ _ _ _ _ _ Hd).
  unfold unstack_sizes.
  set (cells := fun k : date * string =>
                 map (fun st => (st, CInt (count_key (group_status_eqb day_key_eqb)
                                             (k, st) days)))
                     (group_keys String.eqb String.leb (map snd days))).
  set (gk := group_keys day_key_eqb day_key_leb (map fst days)).
  change (map (fun k => (k, map (fun st => (st, CInt (count_key
                 (group_status_eqb day_key_eqb) (k, st) days)))
                 (group_keys String.eqb String.leb (map snd days)))) gk)
    with (map (fun k => (k, cells k)) gk).
  rewrite !daily_cells_in_week_unstacked. fold p.
  assert (Hday : forall k, In k gk ->
             int_col "success" (with_rates true (cells k))
             = count_key (group_status_eqb day_key_eqb) (k, "success") days
             /\ int_col "failure" (with_rates true (cells k))
                = count_key (group_status_eqb day_key_eqb) (k, "failure") days
             /\ int_col "total_changes" (with_rates true (cells k))
                = count_key (group_status_eqb day_key_eqb) (k, "success") days
                  + count_key (group_status_eqb day_key_eqb) (k, "failure") days).
  { intros k Hk.
    assert (Hrow : In (k, cells k) (unstack_sizes day_key_eqb day_key_leb days)).
    { unfold unstack_sizes. apply in_map_iff. exists k. split; [reflexivity | exact Hk]. }
    apply (unstack_row _ _ day_key_eqb_eq) in Hrow as (_ & Hc' & Hcount').
    destruct (with_rates_cols true (cells k) Hc') as (_ & _ & Es' & Ef' & Et' & _).
    rewrite (int_col_of_col _ _ _ Es'), (int_col_of_col _ _ _ Ef'),
      (int_col_of_col _ _ _ Et'), !Hcount'. auto. }
  rewrite (sum_counts_ext_in p _
             (fun k => count_key (group_status_eqb day_key_eqb) (k, "success") days))
    by (intros k Hk; apply (Hday k Hk)).
  rewrite (sum_counts_ext_in p (fun k => int_col "failure" _)
             (fun k => count_key (group_status_eqb day_key_eqb) (k, "failure") days))
    by (intros k Hk; apply (Hday k Hk)).
  rewrite (sum_counts_ext_in p (fun k => int_col "total_changes" _)
             (fun k => count_key (group_status_eqb day_key_eqb) (k, "success") days
                       + count_key (group_status_eqb day_key_eqb) (k, "failure") days))
    by (intros k Hk; apply (Hday k Hk)).
  rewrite sum_counts_add.
  unfold gk.
  rewrite !(sum_counts_status day_key_eqb day_key_leb days p _ day_key_eqb_eq).
  rewrite !Hweek. auto.
Qed.

Lemma weekly_changes_are_sums_of_daily_witness :
  let r := mkCfrRow "2024-01-01/2024-01-07" "A"
             [("failure", CInt 2); ("success", CInt 1); ("total_changes", CInt 3);
              ("failure_rate", CFloat (Num 66.67))] in
  exists w,
    cfr_period r = week_str w
    /\ daily_cells_in_week "failure" (cfr_daily sample_two_weeks_tables)
         w (cfr_service r) = 2
    /\ daily_cells_in_week "total_changes" (cfr_daily sample_two_weeks_tables)
         w (cfr_service r) = 3.
Proof.
  intros r.
  destruct (weekly_changes_are_sums_of_daily sample_two_weeks sample_two_weeks_tables r)
    as (w & H1 & _ & H3 & H4).
  - vm_compute. reflexivity.
  - vm_compute. auto.
  - exists w. split; [exact H1 |]. split; [rewrite <- H3 | rewrite <- H4]; reflexivity.
Defined.

(** ** Row order of the grouped tables *)


Section PairOrder.
Context {A B : Type}.
Variables (ea la : A -> A -> bool) (lb : B -> B -> bool).
Hypothesis ea_eq : forall x y, ea x y = true <-> x = y.
Hypothesis la_total : forall x y, la x y = true \/ la y x = true.
Hypothesis la_trans : forall x y z, la x y = true -> la y z = true -> la x z = true.
Hypothesis la_antisym : forall x y, la x y = true -> la y x = true -> x = y.
Hypothesis lb_total : forall x y, lb x y = true \/ lb y x = true.
Hypothesis lb_trans : forall x y z, lb x y = true -> lb y z = true -> lb x z = true.
Hypothesis lb_antisym : forall x y, lb x y = true -> lb y x = true -> x = y.

Lemma ea_spec (x y : A) : reflect (x = y) (ea x y).
Proof. apply iff_reflect. symmetry. apply ea_eq. Qed.

Lemma pair_leb_total (x y : A * B) :
  pair_leb ea la lb x y = true \/ pair_leb ea la lb y x = true.
Proof.
  destruct x as [x1 x2], y as [y1 y2]. unfold pair_leb. cbn [fst snd].
  destruct (ea_spec x1 y1) as [-> | N].
  - destruct (ea_spec y1 y1); [apply lb_total | congruence].
  - destruct (ea_spec y1 x1); [congruence | apply la_total].
Qed.

Lemma pair_leb_trans (x y z : A * B) :
  pair_leb ea la lb x y = true -> pair_leb ea la lb y z = true ->
  pair_leb ea la lb x z = true.
Proof.
  destruct x as [x1 x2], y as [y1 y2], z as [z1 z2]. unfold pair_leb. cbn [fst snd].
  destruct (ea_spec x1 y1) as [-> | Nxy]; destruct (ea_spec y1 z1) as [-> | Nyz].
  - apply lb_trans.
  - auto.
  - destruct (ea_spec x1 z1); [congruence | auto].
  - intros Hxy Hyz. destruct (ea_spec x1 z1) as [-> | Nxz].
    + exfalso. apply Nxy. apply la_antisym; assumption.
    + apply (la_trans x1 y1 z1); assumption.
Qed.

Lemma pair_leb_antisym (x y : A * B) :
  pair_leb ea la lb x y = true -> pair_leb ea la lb y x = true -> x = y.
Proof.
  destruct x as [x1 x2], y as [y1 y2]. unfold pair_leb. cbn [fst snd].
  destruct (ea_spec x1 y1) as [-> | N].
  - destruct (ea_spec y1 y1); [| congruence]. intros H1 H2. f_equal.
    apply lb_antisym; assumption.
  - destruct (ea_spec y1 x1); [congruence |]. intros H1 H2.
    exfalso. apply N. apply la_antisym; assumption.
Qed.
End PairOrder.

Lemma date_leb_total (a b : date) : date_leb a b = true \/ date_leb b a = true.
Proof.
  unfold date_leb.
  destruct (Z.eqb_spec (d_year a) (d_year b)), (Z.eqb_spec (d_year b) (d_year a)),
    (Z.eqb_spec (d_month a) (d_month b)), (Z.eqb_spec (d_month b) (d_month a));
    try lia; rewrite ?Z.leb_le, ?Z.ltb_lt; lia.
Qed.

Lemma date_leb_trans (a b c : date) :
  date_leb a b = true -> date_leb b c = true -> date_leb a c = true.
Proof.
  unfold date_leb.
  destruct (Z.eqb_spec (d_year a) (d_year b)), (Z.eqb_spec (d_year b) (d_year c)),
    (Z.eqb_spec (d_year a) (d_year c)),
    (Z.eqb_spec (d_month a) (d_month b)), (Z.eqb_spec (d_month b) (d_month c)),
    (Z.eqb_spec (d_month a) (d_month c));
    rewrite ?Z.leb_le, ?Z.ltb_lt; lia.
Qed.

Lemma date_leb_antisym (a b : date) :
  date_leb a b = true -> date_leb b a = true -> a = b.
Proof.
  destruct a as [y m d], b as [y' m' d']. unfold date_leb. cbn [d_year d_month d_day].
  destruct (Z.eqb_spec y y'), (Z.eqb_spec y' y), (Z.eqb_spec m m'), (Z.eqb_spec m' m);
    rewrite ?Z.leb_le, ?Z.ltb_lt; intros; try lia.
  f_equal; lia.
Qed.

Lemma z_leb_total (x y : Z) : (x <=? y) = true \/ (y <=? x) = true.
Proof. rewrite !Z.leb_le. lia. Qed.

Lemma z_leb_trans (x y z : Z) : (x <=? y) = true -> (y <=? z) = true -> (x <=? z) = true.
Proof. rewrite !Z.leb_le. lia. Qed.

Lemma z_leb_antisym (x y : Z) : (x <=? y) = true -> (y <=? x) = true -> x = y.
Proof. rewrite !Z.leb_le. lia. Qed.

Lemma day_key_leb_total (x y : date * string) :
  day_key_leb x y = true \/ day_key_leb y x = true.
Proof.
  apply pair_leb_total;
    [apply date_eqb_eq | apply date_leb_total | apply String.leb_total].
Qed.

Lemma day_key_leb_trans (x y z : date * string) :
  day_key_leb x y = true -> day_key_leb y z = true -> day_key_leb x z = true.
Proof.
  apply pair_leb_trans;
    [apply date_eqb_eq | apply date_leb_trans | apply date_leb_antisym
     | apply string_leb_trans].
Qed.

Lemma day_key_leb_antisym (x y : date * string) :
  day_key_leb x y = true -> day_key_leb y x = true -> x = y.
Proof.
  apply pair_leb_antisym;
    [apply date_eqb_eq | apply date_leb_antisym | apply String.leb_antisym].
Qed.

Lemma period_key_leb_total (x y : Z * string) :
  period_key_leb x y = true \/ period_key_leb y x = true.
Proof.
  apply pair_leb_total; [apply Z.eqb_eq | apply z_leb_total | apply String.leb_total].
Qed.

Lemma period_key_leb_trans (x y z : Z * string) :
  period_key_leb x y = true -> period_key_leb y z = true -> period_key_leb x z = true.
Proof.
  apply pair_leb_trans;
    [apply Z.eqb_eq | apply z_leb_trans | apply z_leb_antisym | apply string_leb_trans].
Qed.

Lemma period_key_leb_antisym (x y : Z * string) :
  period_key_leb x y = true -> period_key_leb y x = true -> x = y.
Proof.
  apply pair_leb_antisym;
    [apply Z.eqb_eq | apply z_leb_antisym | apply String.leb_antisym].
Qed.

Lemma daily_change_keys (keys : list ((date * string) * string))
  (rows : list (cfr_row date)) :
  failure_table day_key_eqb day_key_leb true "date" keys = Ok rows ->
  map (fun r => (cfr_period r, cfr_service r)) rows
  = group_keys day_key_eqb day_key_leb (map fst keys).
Proof.
  intros H. rewrite (failure_table_rows _ _ _ _ _ _ H). unfold unstack_sizes.
  rewrite !map_map. cbn [fst snd cfr_period cfr_service].
  rewrite <- (map_id (group_keys _ _ _)) at 2.
  apply map_ext. intros [d s]. reflexivity.
Qed.

(** X15: the daily table of each metric lists its (date, service) rows in
    ascending order, by date and then by service name, and the daily
    lead-time and change-failure tables hold each pair once. *)
Theorem daily_tables_are_sorted (metrics : list dict) :
  (forall t, calculate_deployment_frequency metrics = Ok (Tables t) ->
     ascending day_key_leb (map fst (dep_daily t)) = true)
  /\ (forall t, calculate_lead_time metrics = Ok (Tables t) ->
        let keys := map (fun r => (ltd_date r, ltd_service r)) (lt_daily_average t) in
        ascending day_key_leb keys = true /\ NoDup keys)
  /\ (forall t, calculate_change_failure_rate metrics = Ok (Tables t) ->
        let keys := map (fun r => (cfr_period r, cfr_service r)) (cfr_daily t) in
        ascending day_key_leb keys = true /\ NoDup keys).
Proof.
  split; [| split].
  - intros t E.
    destruct (deployment_tables_made _ _ E) as (days & _ & _ & _ & -> & _).
    unfold groupby_size. rewrite map_map. cbn [fst]. rewrite map_id.
    apply group_keys_ascending; [apply day_key_leb_total | apply day_key_leb_trans].
  - intros t E.
    destruct (lead_time_tables_made _ _ E) as (ls & rows & _ & _ & _ & _ & ->).
    cbv zeta. rewrite map_map. unfold lead_time_agg. cbn [ltd_date ltd_service].
    rewrite (map_ext _ (fun k => k)) by (intros [d s]; reflexivity). rewrite map_id.
    split.
    + apply group_keys_ascending; [apply day_key_leb_total | apply day_key_leb_trans].
    + apply NoDup_group_keys, day_key_eqb_eq.
  - intros t E.
    destruct (change_tables_made _ _ E) as (days & _ & _ & _ & Hd & _).
    cbv zeta. rewrite (daily_change_keys _ _ Hd). split.
    + apply group_keys_ascending; [apply day_key_leb_total | apply day_key_leb_trans].
    + apply NoDup_group_keys, day_key_eqb_eq.
Qed.

Lemma daily_tables_are_sorted_witness :
  ascending day_key_leb (map fst (dep_daily sample_deployment_tables)) = true
  /\ NoDup (map (fun r => (cfr_period r, cfr_service r))
              (cfr_daily sample_two_weeks_tables)).
Proof.
  split.
  - apply (proj1 (daily_tables_are_sorted sample_deployments)).
    vm_compute. reflexivity.
  - apply (proj2 (proj2 (daily_tables_are_sorted sample_two_weeks))
             sample_two_weeks_tables).
    vm_compute. reflexivity.
Defined.

(** ** Independence of the order of the records *)

Lemma for_each_permutation {A B : Type} (f : A -> result B) (xs xs' : list A) :
  Permutation xs xs' ->
  forall ys, for_each f xs = Ok ys ->
  exists ys', for_each f xs' = Ok ys' /\ Permutation ys ys'.
Proof.
  induction 1 as [| x l l' _ IH | x y l | l l' l'' _ IH1 _ IH2]; intros ys H.
  - exists ys. split; [exact H | apply Permutation_refl].
  - cbn [for_each] in H |- *. apply bind_ok in H as (r & Hr & H).
    apply bind_ok in H as (rs & Hrs & H). injection H as <-.
    destruct (IH rs Hrs) as (rs' & -> & Hp). rewrite Hr. cbn [bind].
    exists (r :: rs'). split; [reflexivity | apply perm_skip, Hp].
  - cbn [for_each] in H |- *. apply bind_ok in H as (ry & Hy & H).
    apply bind_ok in H as (rs0 & H0 & H). injection H as <-.
    apply bind_ok in H0 as (rx & Hx & H0). apply bind_ok in H0 as (rs & Hrs & H0).
    injection H0 as <-. rewrite Hx, Hy, Hrs. cbn [bind].
    exists (rx :: ry :: rs). split; [reflexivity | apply perm_swap].
  - destruct (IH1 ys H) as (ys' & H' & Hp).
    destruct (IH2 ys' H') as (ys'' & H'' & Hp').
    exists ys''. split; [exact H'' | eapply Permutation_trans; eassumption].
Qed.

Lemma filter_permutation {A : Type} (p : A -> bool) (l l' : list A) :
  Permutation l l' -> Permutation (filter p l) (filter p l').
Proof.
  induction 1 as [| x l l' _ IH | x y l | l l' l'' _ IH1 _ IH2]; cbn [filter].
  - apply perm_nil.
  - destruct (p x); [apply perm_skip |]; exact IH.
  - destruct (p x), (p y); try apply Permutation_refl. apply perm_swap.
  - eapply Permutation_trans; eassumption.
Qed.

Lemma extract_as_for_each {A : Type} (key : string) (row : dict -> result A)
  (metrics : list dict) :
  extract key row metrics = for_each row (filter (contains key) metrics).
Proof.
  induction metrics as [| m ms IH]; [reflexivity |].
  cbn [extract filter]. destruct (contains key m); [| exact IH].
  cbn [for_each]. rewrite IH. reflexivity.
Qed.

Lemma extract_permutation {A : Type} (key : string) (row : dict -> result A)
  (metrics metrics' : list dict) (rows : list A) :
  Permutation metrics metrics' ->
  extract key row metrics = Ok rows ->
  exists rows', extract key row metrics' = Ok rows' /\ Permutation rows rows'.
Proof.
  intros Hp H. rewrite extract_as_for_each in H |- *.
  apply (for_each_permutation row _ _ (filter_permutation (contains key) _ _ Hp) rows H).
Qed.

Lemma zone_eqb_eq (a b : option Z) : zone_eqb a b = true -> a = b.
Proof.
  destruct a, b; cbn [zone_eqb]; try discriminate; [| reflexivity].
  intros H. apply Z.eqb_eq in H. congruence.
Qed.

Lemma same_zone_one (ts : list datetime) :
  same_zone ts = true -> exists z, forall t, In t ts -> utcoffset t = z.
Proof.
  destruct ts as [| t rest]; cbn [same_zone]; intros H.
  - exists None. intros t [].
  - exists (utcoffset t). intros u [<- | Hu]; [reflexivity |].
    symmetry. apply zone_eqb_eq. apply (proj1 (forallb_forall _ _) H u Hu).
Qed.

Lemma same_zone_permutation (ts ts' : list datetime) :
  Permutation ts ts' -> same_zone ts = true -> same_zone ts' = true.
Proof.
  intros Hp H. destruct (same_zone_one ts H) as (z & Hz).
  apply (same_zone_all z). intros t Ht. apply Hz.
  apply (Permutation_in t (Permutation_sym Hp) Ht).
Qed.

Lemma stamp_frame_permutation {A : Type} (timestamp : A -> value)
  (rows rows' : list A) (df : list (stamped A)) :
  Permutation rows rows' ->
  stamp_frame timestamp rows = Ok df ->
  exists df', stamp_frame timestamp rows' = Ok df' /\ Permutation df df'.
Proof.
  intros Hp H. unfold stamp_frame in H |- *.
  apply bind_ok in H as (df0 & Hdf & H).
  destruct (same_zone (map st_time df0)) eqn:Hz; [| discriminate]. injection H as <-.
  destruct (for_each_permutation _ _ _ Hp df0 Hdf) as (df' & -> & Hp').
  cbn [bind].
  rewrite (same_zone_permutation _ _ (Permutation_map st_time Hp') Hz).
  exists df'. split; [reflexivity | exact Hp'].
Qed.

Lemma unstack_sizes_permutation {P : Type}
  (key_eqb key_leb : P * string -> P * string -> bool)
  (keys keys' : list ((P * string) * string)) :
  (forall x y, key_eqb x y = true <-> x = y) ->
  (forall x y, key_leb x y = true \/ key_leb y x = true) ->
  (forall x y z, key_leb x y = true -> key_leb y z = true -> key_leb x z = true) ->
  (forall x y, key_leb x y = true -> key_leb y x = true -> x = y) ->
  Permutation keys keys' ->
  unstack_sizes key_eqb key_leb keys = unstack_sizes key_eqb key_leb keys'.
Proof.
  intros Heq Htot Htr Hanti Hp. unfold unstack_sizes.
  rewrite (group_keys_same_keys key_eqb key_leb Heq Htot Htr Hanti
             (map fst keys) (map fst keys')).
  2:{ intros x. split; apply Permutation_in;
        [apply Permutation_map, Hp | apply Permutation_map, Permutation_sym, Hp]. }
  rewrite (group_keys_same_keys String.eqb String.leb String.eqb_eq String.leb_total
             string_leb_trans String.leb_antisym (map snd keys) (map snd keys')).
  2:{ intros x. split; apply Permutation_in;
        [apply Permutation_map, Hp | apply Permutation_map, Permutation_sym, Hp]. }
  apply map_ext. intros k. f_equal. apply map_ext. intros st. do 2 f_equal.
  apply count_key_permutation, Hp.
Qed.

(** X16: the tables do not depend on the order in which the records were
    loaded.  When the records are shuffled, a populated deployment result
    and a populated change-failure result keep their daily, weekly and
    monthly tables, row for row; only the canonical table follows the order
    of the records. *)
Theorem tables_ignore_record_order (metrics metrics' : list dict) :
  Permutation metrics metrics' ->
  (forall t, calculate_deployment_frequency metrics = Ok (Tables t) ->
     exists t', calculate_deployment_frequency metrics' = Ok (Tables t')
                /\ dep_daily t' = dep_daily t
                /\ dep_weekly t' = dep_weekly t
                /\ dep_monthly t' = dep_monthly t
                /\ Permutation (dep_raw t) (dep_raw t'))
  /\ (forall t, calculate_change_failure_rate metrics = Ok (Tables t) ->
        exists t', calculate_change_failure_rate metrics' = Ok (Tables t')
                   /\ cfr_daily t' = cfr_daily t
                   /\ cfr_weekly t' = cfr_weekly t
                   /\ Permutation (cfr_raw t) (cfr_raw t')).
Proof.
  intros Hp. split; intros t E.
  - destruct (deployment_frame_made _ _ E) as (ds & He & Hne & Hdf).
    destruct (deployment_tables_made _ _ E)
      as (days & weeks & months & Hd & Ed & Hw & Ew & Hm & Em).
    destruct (extract_permutation _ _ _ _ _ Hp He) as (ds' & He' & Hp1).
    destruct (stamp_frame_permutation _ _ _ _ Hp1 Hdf) as (df' & Hdf' & Hp2).
    destruct (for_each_permutation _ _ _ Hp2 _ Hd) as (days' & Hd' & Hpd).
    destruct (for_each_permutation _ _ _ Hp2 _ Hw) as (weeks' & Hw' & Hpw).
    destruct (for_each_permutation _ _ _ Hp2 _ Hm) as (months' & Hm' & Hpm).
    unfold calculate_deployment_frequency. rewrite He'. cbn [bind].
    destruct ds' as [| d' ds'].
    { apply Permutation_sym, Permutation_nil in Hp1. contradiction. }
    rewrite Hdf'. cbn [bind]. rewrite Hd', Hw', Hm'. cbn [bind].
    eexists. split; [reflexivity |].
    cbn [dep_daily dep_weekly dep_monthly dep_raw]. rewrite Ed, Ew, Em.
    rewrite (groupby_size_permutation day_key_eqb day_key_leb day_key_eqb_eq
               day_key_leb_total day_key_leb_trans day_key_leb_antisym _ _ Hpd).
    rewrite (groupby_size_permutation period_key_eqb period_key_leb period_key_eqb_eq
               period_key_leb_total period_key_leb_trans period_key_leb_antisym _ _ Hpw).
    rewrite (groupby_size_permutation period_key_eqb period_key_leb period_key_eqb_eq
               period_key_leb_total period_key_leb_trans period_key_leb_antisym _ _ Hpm).
    repeat split; try reflexivity. exact Hp2.
  - destruct (change_frame_made _ _ E) as (cs & He & Hne & Hdf).
    destruct (change_tables_made _ _ E) as (days & weeks & wk & Hd & Ed & Hw & Ew & Et).
    destruct (extract_permutation _ _ _ _ _ Hp He) as (cs' & He' & Hp1).
    destruct (stamp_frame_permutation _ _ _ _ Hp1 Hdf) as (df' & Hdf' & Hp2).
    destruct (for_each_permutation _ _ _ Hp2 _ Hd) as (days' & Hd' & Hpd).
    destruct (for_each_permutation _ _ _ Hp2 _ Hw) as (weeks' & Hw' & Hpw).
    unfold calculate_change_failure_rate. rewrite He'. cbn [bind].
    destruct cs' as [| c' cs'].
    { apply Permutation_sym, Permutation_nil in Hp1. contradiction. }
    rewrite Hdf'. cbn [bind]. rewrite Hd'. cbn [bind].
    unfold failure_table in Ed, Ew |- *.
    rewrite <- (unstack_sizes_permutation day_key_eqb day_key_leb _ _ day_key_eqb_eq
                  day_key_leb_total day_key_leb_trans day_key_leb_antisym Hpd).
    rewrite Ed. cbn [bind]. rewrite Hw'. cbn [bind].
    rewrite <- (unstack_sizes_permutation period_key_eqb period_key_leb _ _
                  period_key_eqb_eq period_key_leb_total period_key_leb_trans
                  period_key_leb_antisym Hpw).
    rewrite Ew. cbn [bind].
    eexists. split; [reflexivity |].
    cbn [cfr_daily cfr_weekly cfr_raw]. rewrite Et.
    repeat split; try reflexivity. exact Hp2.
Qed.

Lemma tables_ignore_record_order_witness :
  exists t',
    calculate_change_failure_rate sample_two_weeks_reversed = Ok (Tables t')
    /\ cfr_daily t' = cfr_daily sample_two_weeks_tables
    /\ cfr_weekly t' = cfr_weekly sample_two_weeks_tables.
Proof.
  destruct (tables_ignore_record_order sample_two_weeks sample_two_weeks_reversed)
    as (_ & H).
  - apply Permutation_rev.
  - destruct (H sample_two_weeks_tables) as (t' & E & Hd & Hw & _).
    + vm_compute. reflexivity.
    + exists t'. split; [exact E |]. split; [exact Hd | exact Hw].
Defined.

(** ** A status named like an index level *)

Lemma failure_table_collision {P : Type}
  (key_eqb key_leb : P * string -> P * string -> bool)
  (with_success_rate : bool) (level st : string)
  (keys : list ((P * string) * string)) :
  (forall x y, key_eqb x y = true <-> x = y) ->
  In st (map snd keys) ->
  st = "service" \/ st = level ->
  In st index_level_names ->
  failure_table key_eqb key_leb with_success_rate level keys = Raise ValueError.
Proof.
  intros Heq Hin Hst Hname. unfold failure_table, reset_index, unstack_sizes.
  assert (Hne : map fst keys <> []).
  { destruct keys; [contradiction | discriminate]. }
  pose proof (group_keys_nonempty key_eqb key_leb _ Heq Hne) as Hg.
  destruct (group_keys key_eqb key_leb (map fst keys)) as [| k ks]; [contradiction |].
  cbn [map for_each fst snd].
  assert (Hcol : has_col st
                   (with_rates with_success_rate
                      (map (fun s => (s, CInt (count_key (group_status_eqb key_eqb)
                                                 (k, s) keys)))
                           (group_keys String.eqb String.leb (map snd keys)))) = true).
  { unfold has_col. rewrite col_with_rates_other.
    - rewrite (col_status_cells (fun s => count_key (group_status_eqb key_eqb) (k, s) keys)).
      assert (Hex : existsb (String.eqb st)
                      (group_keys String.eqb String.leb (map snd keys)) = true).
      { apply (existsb_key String.eqb String.eqb_eq).
        apply (In_group_keys String.eqb String.leb String.eqb_eq). exact Hin. }
      rewrite Hex. reflexivity.
    - destruct Hname as [<- | [<- | [<- | []]]]; discriminate.
    - destruct Hname as [<- | [<- | [<- | []]]]; discriminate.
    - destruct Hname as [<- | [<- | [<- | []]]]; discriminate.
    - destruct Hname as [<- | [<- | [<- | []]]]; discriminate.
    - intros _. destruct Hname as [<- | [<- | [<- | []]]]; discriminate. }
  destruct Hst as [-> | ->]; rewrite Hcol; rewrite ?orb_true_r; reflexivity.
Qed.

Lemma failure_table_value_error {P : Type}
  (key_eqb key_leb : P * string -> P * string -> bool)
  (with_success_rate : bool) (level : string)
  (keys : list ((P * string) * string)) :
  (exists rows, failure_table key_eqb key_leb with_success_rate level keys = Ok rows)
  \/ failure_table key_eqb key_leb with_success_rate level keys = Raise ValueError.
Proof.
  unfold failure_table, reset_index.
  generalize (map (fun kc : (P * string) * columns =>
                     (fst kc, with_rates with_success_rate (snd kc)))
                  (unstack_sizes key_eqb key_leb keys)).
  intros table. induction table as [| kc table IH]; cbn [for_each].
  - left. eexists. reflexivity.
  - destruct (_ || _); [right; reflexivity |]. cbn [bind].
    destruct IH as [(rows & ->) | ->]; cbn [bind]; [left; eexists |right]; reflexivity.
Qed.

(** The keys of another period level exist as soon as those of one do, with
    the same statuses. *)
Lemma bucket_status_levels {P Q : Type} (p : datetime -> P) (q : datetime -> Q)
  (df : list (stamped change)) (keys : list ((P * string) * string)) :
  for_each (bucket_status p) df = Ok keys ->
  exists keys', for_each (bucket_status q) df = Ok keys' /\ map snd keys' = map snd keys.
Proof.
  revert keys. induction df as [| r df IH]; intros keys H.
  - injection H as <-. exists []. split; reflexivity.
  - cbn [for_each] in H |- *. apply bind_ok in H as (k & Hk & H).
    apply bind_ok in H as (ks & Hks & H). injection H as <-.
    destruct (IH ks Hks) as (ks' & -> & Hs).
    unfold bucket_status, bucket in Hk |- *.
    destruct (hashable (ch_service (st_row r))) as [s | e]; [| discriminate].
    destruct (hashable (ch_status (st_row r))) as [st | e]; [| discriminate].
    cbn [bind] in Hk |- *. injection Hk as <-.
    eexists. split; [reflexivity |]. cbn [map snd]. rewrite Hs. reflexivity.
Qed.

Lemma status_key (P : Type) (period : datetime -> P) (df : list (stamped change))
  (keys : list ((P * string) * string)) (c : stamped change) (st : string) :
  for_each (bucket_status period) df = Ok keys ->
  In c df -> ch_status (st_row c) = VStr st ->
  In st (map snd keys).
Proof.
  intros H Hc Hst. apply for_each_ok in H.
  destruct (Forall2_In_l _ _ _ _ H Hc) as (k & Hk & Hb).
  unfold bucket_status in Hb. apply bind_ok in Hb as (k0 & _ & Hb).
  rewrite Hst in Hb. cbn [hashable bind] in Hb. injection Hb as <-.
  apply (in_map snd) in Hk. exact Hk.
Qed.

(** X17: a change whose status is the text [service], [date] or [week] makes
    the change-failure aggregation raise [ValueError]: the status becomes a
    column of the unstacked table and [reset_index] cannot insert the index
    level of that name.  So a result with tables never holds such a
    status. *)
Theorem status_named_like_index_level (metrics : list dict) :
  (forall changes df days c st,
      extract "change_failure_rate" change_row metrics = Ok changes ->
      stamp_frame ch_timestamp changes = Ok df ->
      for_each (bucket_status dt_date) df = Ok days ->
      In c df -> ch_status (st_row c) = VStr st -> In st index_level_names ->
      calculate_change_failure_rate metrics = Raise ValueError)
  /\ (forall t c st,
         calculate_change_failure_rate metrics = Ok (Tables t) ->
         In c (cfr_raw t) -> In st index_level_names ->
         ch_status (st_row c) <> VStr st).
Proof.
  assert (Hraise : forall changes df days c st,
      extract "change_failure_rate" change_row metrics = Ok changes ->
      stamp_frame ch_timestamp changes = Ok df ->
      for_each (bucket_status dt_date) df = Ok days ->
      In c df -> ch_status (st_row c) = VStr st -> In st index_level_names ->
      calculate_change_failure_rate metrics = Raise ValueError).
  { intros changes df days c st He Hdf Hd Hc Hst Hname.
    unfold calculate_change_failure_rate. rewrite He. cbn [bind].
    destruct changes as [| ch chs].
    { unfold stamp_frame in Hdf. cbn [for_each bind same_zone map] in Hdf.
      injection Hdf as <-. contradiction. }
    rewrite Hdf. cbn [bind]. rewrite Hd. cbn [bind].
    pose proof (status_key _ _ _ _ _ _ Hd Hc Hst) as Hin.
    destruct (bucket_status_levels dt_date to_period_W df days Hd) as (weeks & Hw & Hs).
    destruct (failure_table_value_error day_key_eqb day_key_leb true "date" days)
      as [(rows & Ed) | Ed]; rewrite Ed; cbn [bind]; [| reflexivity].
    rewrite Hw. cbn [bind].
    assert (Hst' : st = "service" \/ st = "week").
    { destruct Hname as [<- | [<- | [<- | []]]]; auto.
      rewrite (failure_table_collision day_key_eqb day_key_leb true "date" "date" days
                 day_key_eqb_eq Hin (or_intror eq_refl)) in Ed
        by (right; left; reflexivity).
      discriminate. }
    rewrite (failure_table_collision period_key_eqb period_key_leb false "week" st weeks
               period_key_eqb_eq); auto.
    rewrite Hs. exact Hin. }
  split; [exact Hraise |].
  intros t c st E Hc Hname Hst.
  destruct (change_frame_made _ _ E) as (cs & He & _ & Hdf).
  destruct (change_tables_made _ _ E) as (days & _ & _ & Hd & _).
  rewrite (Hraise cs (cfr_raw t) days c st He Hdf Hd Hc Hst Hname) in E. discriminate.
Qed.

Lemma status_named_like_index_level_witness :
  calculate_change_failure_rate sample_status_week = Raise ValueError.
Proof.
  destruct (status_named_like_index_level sample_status_week) as (H & _).
  eapply (H _ _ _ _ "week").
  - vm_compute. reflexivity.
  - vm_compute. reflexivity.
  - vm_compute. reflexivity.
  - right. left. reflexivity.
  - reflexivity.
  - right. right. left. reflexivity.
Defined.

(** * The artifact listing *)

Lemma select_ok {A : Type} (p : A -> result bool) (l r : list A) :
  select p l = Ok r ->
  r = filter (fun a => match p a with Ok true => true | _ => false end) l
  /\ forall a, In a l -> is_ok (p a) = true.
Proof.
  revert r. induction l as [| a l IH]; intros r H.
  - injection H as <-. split; [reflexivity | intros a []].
  - cbn [select] in H. apply bind_ok in H as (b & Hb & H).
    apply bind_ok in H as (rest & Hrest & H). injection H as <-.
    destruct (IH rest Hrest) as (-> & Hall). cbn [filter]. rewrite Hb. split.
    + destruct b; reflexivity.
    + intros x [<- | Hx]; [rewrite Hb; reflexivity | auto].
Qed.

Lemma select_total {A : Type} (p : A -> result bool) (l : list A) :
  (forall a, In a l -> is_ok (p a) = true) ->
  select p l = Ok (filter (fun a => match p a with Ok true => true | _ => false end) l).
Proof.
  induction l as [| a l IH]; intros H; [reflexivity |].
  cbn [select filter]. rewrite IH by (intros x Hx; apply H; right; exact Hx).
  pose proof (H a (or_introl eq_refl)) as Ha.
  destruct (p a) as [[|] | e]; [reflexivity | reflexivity | discriminate].
Qed.

Lemma pages_from_snoc (page : Z) (n : nat) :
  pages_from page (S n) = (pages_from page n ++ [page + Z.of_nat n])%list.
Proof.
  revert page. induction n as [| n IH]; intros page.
  - cbn [pages_from app]. rewrite Z.add_0_r. reflexivity.
  - change (pages_from page (S (S n))) with (page :: pages_from (page + 1) (S n)).
    rewrite IH. cbn [pages_from app]. do 3 f_equal. lia.
Qed.

(** One turn of the loop on a page that answers 200 with artifacts whose
    names can all be read. *)
Lemma fetch_step (fuel : nat) (get : Z -> response) (page : Z)
  (acc : list dict) (log : list Z) :
  status_code (get page) = 200 ->
  page_artifacts (get page) <> [] ->
  (forall a, In a (page_artifacts (get page)) -> is_ok (is_dora a) = true) ->
  fetch_artifacts (S fuel) get page acc log
  = if Z.of_nat (List.length (page_artifacts (get page))) <? 100
    then Some (Ok (acc ++ filter dora (page_artifacts (get page)))%list,
               (log ++ [page])%list)
    else fetch_artifacts fuel get (page + 1)
           (acc ++ filter dora (page_artifacts (get page)))%list (log ++ [page])%list.
Proof.
  intros Hs Hne Hok. cbn [fetch_artifacts]. rewrite Hs. cbn [Z.eqb Pos.eqb negb].
  rewrite (is_empty_false _ Hne). rewrite (select_total _ _ Hok). reflexivity.
Qed.

(** The loop runs through full pages without stopping. *)
Lemma fetch_full_pages (get : Z -> response) (n : nat) :
  forall (fuel : nat) (page : Z) (acc : list dict) (log : list Z),
  (forall p, In p (pages_from page n) ->
     status_code (get p) = 200
     /\ (100 <= List.length (page_artifacts (get p)))%nat
     /\ forall a, In a (page_artifacts (get p)) -> is_ok (is_dora a) = true) ->
  fetch_artifacts (n + fuel) get page acc log
  = fetch_artifacts fuel get (page + Z.of_nat n)
      (acc ++ filter dora (flat_map (fun p => page_artifacts (get p))
                             (pages_from page n)))%list
      (log ++ pages_from page n)%list.
Proof.
  induction n as [| n IH]; intros fuel page acc log H.
  - cbn [pages_from flat_map filter Nat.add]. rewrite !app_nil_r, Z.add_0_r. reflexivity.
  - destruct (H page (or_introl eq_refl)) as (Hs & Hlen & Hok).
    change (S n + fuel)%nat with (S (n + fuel)).
    rewrite fetch_step; [| exact Hs | | exact Hok].
    2:{ destruct (page_artifacts (get page)); [cbn in Hlen; lia | discriminate]. }
    destruct (Z.ltb_spec (Z.of_nat (List.length (page_artifacts (get page)))) 100) as [L | _];
      [lia |].
    rewrite IH by (intros p Hp; apply H; right; exact Hp).
    replace (page + Z.of_nat (S n)) with (page + 1 + Z.of_nat n) by lia.
    cbn [pages_from flat_map]. rewrite filter_app, <- !app_assoc. reflexivity.
Qed.

Lemma paged_page (all : list dict) (k : nat) :
  paged all (Z.of_nat (S k)) = mkResponse 200 (Some (firstn 100 (skipn (100 * k) all))).
Proof.
  unfold paged. replace (Z.to_nat (Z.of_nat (S k)) - 1)%nat with k by lia. reflexivity.
Qed.

Lemma div_100_small (n : nat) : (n < 100)%nat -> (n / 100 = 0)%nat.
Proof. intros H. apply Nat.div_small. exact H. Qed.

Lemma div_100_step (n : nat) : (100 <= n)%nat -> (n / 100 = S ((n - 100) / 100))%nat.
Proof.
  intros H. replace n with ((n - 100) + 1 * 100)%nat at 1 by lia.
  rewrite Nat.div_add by lia. lia.
Qed.

(** The loop against a server that pages through [all], from page [k + 1]
    on. *)
Lemma fetch_paged (all : list dict) (get : Z -> response) :
  serves all get ->
  (forall a, In a all -> is_ok (is_dora a) = true) ->
  forall (fuel k : nat) (acc : list dict) (log : list Z),
  (List.length (skipn (100 * k) all) / 100 < fuel)%nat ->
  fetch_artifacts fuel get (Z.of_nat (S k)) acc log
  = Some (Ok (acc ++ filter dora (skipn (100 * k) all))%list,
          (log ++ pages_from (Z.of_nat (S k))
                    (S (List.length (skipn (100 * k) all) / 100)))%list).
Proof.
  intros Hget Hok. induction fuel as [| fuel IH]; intros k acc log Hf; [lia |].
  assert (Hpage : get (Z.of_nat (S k))
                  = mkResponse 200 (Some (firstn 100 (skipn (100 * k) all)))).
  { rewrite Hget by lia. apply paged_page. }
  set (rest := skipn (100 * k) all) in *.
  assert (Hrest : forall a, In a rest -> is_ok (is_dora a) = true).
  { intros a Ha. apply Hok. unfold rest in Ha.
    rewrite <- (firstn_skipn (100 * k) all). apply in_or_app. right. exact Ha. }
  destruct rest as [| a0 rest0] eqn:Erest.
  - cbn [fetch_artifacts]. rewrite Hpage. rewrite firstn_nil.
    cbn [status_code page_artifacts artifacts_of is_empty Z.eqb Pos.eqb negb].
    cbn [filter List.length]. rewrite app_nil_r.
    change (0 / 100)%nat with 0%nat. reflexivity.
  - rewrite <- Erest in *.
    assert (Hne : page_artifacts (get (Z.of_nat (S k))) <> []).
    { rewrite Hpage, Erest. discriminate. }
    rewrite fetch_step.
    + rewrite Hpage. cbn [page_artifacts artifacts_of]. rewrite length_firstn.
      destruct (Nat.lt_ge_cases (List.length rest) 100) as [Hlt | Hge].
      * rewrite Nat.min_r by lia.
        destruct (Z.ltb_spec (Z.of_nat (List.length rest)) 100) as [_ | L]; [| lia].
        rewrite firstn_all2 by lia. rewrite (div_100_small _ Hlt). reflexivity.
      * rewrite Nat.min_l by lia.
        destruct (Z.ltb_spec (Z.of_nat 100) 100) as [L | _]; [lia |].
        assert (Hskip : skipn (100 * S k) all = skipn 100 rest).
        { unfold rest. rewrite skipn_skipn. f_equal. lia. }
        replace (Z.of_nat (S k) + 1) with (Z.of_nat (S (S k))) by lia.
        rewrite IH.
        2:{ rewrite Hskip, length_skipn. rewrite (div_100_step _ Hge) in Hf. lia. }
        rewrite Hskip, length_skipn, (div_100_step _ Hge).
        rewrite <- !app_assoc, <- filter_app, firstn_skipn.
        change (pages_from (Z.of_nat (S k)) (S (S ((List.length rest - 100) / 100))))
          with (Z.of_nat (S k)
                  :: pages_from (Z.of_nat (S k) + 1) (S ((List.length rest - 100) / 100))).
        replace (Z.of_nat (S k) + 1) with (Z.of_nat (S (S k))) by lia.
        reflexivity.
    + rewrite Hpage. reflexivity.
    + exact Hne.
    + rewrite Hpage. cbn [page_artifacts artifacts_of]. intros a Ha. apply Hrest.
      rewrite <- (firstn_skipn 100 rest). apply in_or_app. left. exact Ha.
Qed.

(** X18: against a server that holds a finite list of artifacts and serves
    it a hundred to the page, the listing loop ends and collects exactly the
    artifacts whose name contains [dora-metrics], in the server's order; it
    asks for one page more than there are full pages, so a list of exactly
    [100 * n] artifacts costs a last request that comes back empty. *)
Theorem listing_is_complete (all : list dict) (get : Z -> response) (fuel : nat) :
  serves all get ->
  (forall a, In a all -> is_ok (is_dora a) = true) ->
  (List.length all / 100 < fuel)%nat ->
  fetch_artifacts fuel get 1 [] []
  = Some (Ok (filter dora all), pages_upto (S (List.length all / 100))).
Proof.
  intros Hget Hok Hf.
  apply (fetch_paged all get Hget Hok fuel 0 [] []). exact Hf.
Qed.

Lemma listing_is_complete_witness :
  fetch_artifacts 5 (paged sample_artifacts) 1 [] []
  = Some (Ok [artifact "dora-metrics-A-101"; artifact "dora-metrics-B-102"], [1; 2]).
Proof.
  apply (listing_is_complete sample_artifacts (paged sample_artifacts) 5).
  - intros page _. reflexivity.
  - intros a Ha. apply in_app_or in Ha as [Ha | Ha].
    + apply repeat_spec in Ha. subst a. reflexivity.
    + destruct Ha as [<- | [<- | [<- | []]]]; reflexivity.
  - vm_compute. lia.
Defined.

(** X19: a page that does not answer 200 ends the listing without an
    exception: after [n] full pages the loop returns the metric artifacts of
    those pages and asks for nothing beyond the failed page, so the caller
    goes on with a partial list. *)
Theorem failed_page_ends_listing (get : Z -> response) (n fuel : nat) :
  (forall p, In p (pages_upto n) ->
     status_code (get p) = 200
     /\ (100 <= List.length (page_artifacts (get p)))%nat
     /\ forall a, In a (page_artifacts (get p)) -> is_ok (is_dora a) = true) ->
  status_code (get (Z.of_nat (S n))) <> 200 ->
  (n < fuel)%nat ->
  fetch_artifacts fuel get 1 [] []
  = Some (Ok (filter dora (pages_before get n)), pages_upto (S n)).
Proof.
  intros Hfull Hfail Hf.
  replace fuel with (n + S (fuel - S n))%nat by lia.
  rewrite (fetch_full_pages get n _ 1 [] [] Hfull).
  replace (1 + Z.of_nat n) with (Z.of_nat (S n)) by lia.
  cbn [fetch_artifacts app].
  destruct (Z.eqb_spec (status_code (get (Z.of_nat (S n)))) 200) as [E | _];
    [contradiction |].
  cbn [negb]. unfold pages_before, pages_upto. rewrite pages_from_snoc.
  replace (1 + Z.of_nat n) with (Z.of_nat (S n)) by lia. reflexivity.
Qed.

Lemma failed_page_ends_listing_witness :
  fetch_artifacts 3 sample_failing 1 [] []
  = Some (Ok [artifact "dora-metrics-A-1"], [1; 2]).
Proof.
  apply (failed_page_ends_listing sample_failing 1 3).
  - intros p [<- | []]. split; [reflexivity |]. split; [vm_compute; lia |].
    intros a [<- | Ha]; [reflexivity |].
    apply repeat_spec in Ha. subst a. reflexivity.
  - vm_compute. discriminate.
  - lia.
Defined.

Lemma select_kept {A : Type} (p : A -> result bool) (l r : list A) (a : A) :
  select p l = Ok r -> In a r -> p a = Ok true /\ In a l.
Proof.
  intros H Ha. apply select_ok in H as (-> & _).
  apply filter_In in Ha as (Hin & Hp). split; [| exact Hin].
  destruct (p a) as [[|] | e]; [reflexivity | discriminate | discriminate].
Qed.

(** What a finished loop has added to its accumulators. *)
Lemma fetch_collected (get : Z -> response) (fuel : nat) :
  forall (page : Z) (acc : list dict) (log : list Z) (r : list dict) (log' : list Z),
  fetch_artifacts fuel get page acc log = Some (Ok r, log') ->
  exists new n,
    r = (acc ++ new)%list
    /\ log' = (log ++ pages_from page (S n))%list
    /\ forall a, In a new ->
         is_dora a = Ok true
         /\ exists p, In p (pages_from page (S n))
                      /\ status_code (get p) = 200
                      /\ In a (page_artifacts (get p)).
Proof.
  induction fuel as [| fuel IH]; intros page acc log r log' H; [discriminate |].
  cbn [fetch_artifacts] in H.
  destruct (Z.eqb_spec (status_code (get page)) 200) as [Hs | _]; cbn [negb] in H.
  2:{ injection H as <- <-. exists [], 0%nat. rewrite app_nil_r.
      split; [reflexivity |]. split; [reflexivity | intros a []]. }
  destruct (is_empty (page_artifacts (get page))).
  { injection H as <- <-. exists [], 0%nat. rewrite app_nil_r.
    split; [reflexivity |]. split; [reflexivity | intros a []]. }
  destruct (select is_dora (page_artifacts (get page))) as [d | e] eqn:Ed;
    [| discriminate].
  destruct (Z.of_nat (List.length (page_artifacts (get page))) <? 100).
  - injection H as <- <-. exists d, 0%nat.
    split; [reflexivity |]. split; [reflexivity |].
    intros a Ha. destruct (select_kept _ _ _ _ Ed Ha) as (Hd & Hin).
    split; [exact Hd |]. exists page. split; [left; reflexivity | auto].
  - destruct (IH _ _ _ _ _ H) as (new & n & -> & -> & Hnew).
    exists (d ++ new)%list, (S n). rewrite <- !app_assoc.
    split; [reflexivity |]. split; [reflexivity |].
    intros a Ha. apply in_app_or in Ha as [Ha | Ha].
    + destruct (select_kept _ _ _ _ Ed Ha) as (Hd & Hin).
      split; [exact Hd |]. exists page. split; [left; reflexivity | auto].
    + destruct (Hnew a Ha) as (Hd & p & Hp & Hps & Hin).
      split; [exact Hd |]. exists p. split; [right; exact Hp | auto].
Qed.

(** X20: whatever the server answers, a listing that ends without an
    exception holds only artifacts whose name contains [dora-metrics], each
    taken from a page that answered 200, and the pages asked for are
    1, 2, ... up to the page the loop stopped at, each once. *)
Theorem listing_keeps_only_metric_artifacts
  (get : Z -> response) (fuel : nat) (r : list dict) (log : list Z) :
  fetch_artifacts fuel get 1 [] [] = Some (Ok r, log) ->
  (exists n, log = pages_upto (S n))
  /\ forall a, In a r ->
       is_dora a = Ok true
       /\ exists p, In p log /\ status_code (get p) = 200
                    /\ In a (page_artifacts (get p)).
Proof.
  intros H. destruct (fetch_collected get fuel _ _ _ _ _ H) as (new & n & -> & -> & Hnew).
  split; [exists n; reflexivity |]. exact Hnew.
Qed.

Lemma listing_keeps_only_metric_artifacts_witness :
  is_dora (artifact "dora-metrics-B-102") = Ok true
  /\ exists p, In p [1; 2] /\ status_code (paged sample_artifacts p) = 200
                /\ In (artifact "dora-metrics-B-102")
                      (page_artifacts (paged sample_artifacts p)).
Proof.
  destruct (listing_keeps_only_metric_artifacts (paged sample_artifacts) 5
              [artifact "dora-metrics-A-101"; artifact "dora-metrics-B-102"] [1; 2])
    as (_ & H).
  - vm_compute. reflexivity.
  - apply (H (artifact "dora-metrics-B-102")). right. left. reflexivity.
Defined.

Lemma is_dora_raises (a : dict) (e : exn) :
  is_dora a = Raise e -> e = KeyError "name" /\ lookup "name" a = None.
Proof.
  unfold is_dora, getitem. destruct (lookup "name" a) as [[s | fields] |]; cbn [bind].
  - discriminate.
  - discriminate.
  - intros H. injection H as <-. split; reflexivity.
Qed.

Lemma select_raises {A : Type} (p : A -> result bool) (l : list A) (a : A) :
  In a l -> is_ok (p a) = false ->
  exists e a', select p l = Raise e /\ In a' l /\ p a' = Raise e.
Proof.
  induction l as [| x l IH]; intros Hin Ha; [contradiction |].
  cbn [select]. destruct (p x) as [b | e] eqn:Ex.
  - destruct Hin as [-> | Hin]; [rewrite Ex in Ha; discriminate |].
    destruct (IH Hin Ha) as (e & a' & -> & Hin' & Hp). cbn [bind].
    exists e, a'. split; [reflexivity |]. split; [right; exact Hin' | exact Hp].
  - exists e, x. split; [reflexivity |]. split; [left; reflexivity | exact Ex].
Qed.

(** X21: an artifact without a [name] on a page that answered 200 makes the
    listing raise [KeyError] on that page: what the earlier pages gave is
    lost with it, and no later page is asked for. *)
Theorem nameless_artifact_raises (get : Z -> response) (n fuel : nat) (a : dict) :
  (forall p, In p (pages_upto n) ->
     status_code (get p) = 200
     /\ (100 <= List.length (page_artifacts (get p)))%nat
     /\ forall a, In a (page_artifacts (get p)) -> is_ok (is_dora a) = true) ->
  status_code (get (Z.of_nat (S n))) = 200 ->
  In a (page_artifacts (get (Z.of_nat (S n)))) ->
  lookup "name" a = None ->
  (n < fuel)%nat ->
  fetch_artifacts fuel get 1 [] [] = Some (Raise (KeyError "name"), pages_upto (S n)).
Proof.
  intros Hfull Hs Hin Hname Hf.
  replace fuel with (n + S (fuel - S n))%nat by lia.
  rewrite (fetch_full_pages get n _ 1 [] [] Hfull).
  replace (1 + Z.of_nat n) with (Z.of_nat (S n)) by lia.
  cbn [fetch_artifacts app]. rewrite Hs. cbn [Z.eqb Pos.eqb negb].
  rewrite is_empty_false by (intros E; rewrite E in Hin; contradiction).
  assert (Ha : is_ok (is_dora a) = false).
  { unfold is_dora, getitem. rewrite Hname. reflexivity. }
  destruct (select_raises is_dora _ a Hin Ha) as (e & a' & -> & _ & He).
  apply is_dora_raises in He as (-> & _).
  unfold pages_upto. rewrite pages_from_snoc.
  replace (1 + Z.of_nat n) with (Z.of_nat (S n)) by lia. reflexivity.
Qed.

Lemma nameless_artifact_raises_witness :
  fetch_artifacts 2 sample_nameless 1 [] [] = Some (Raise (KeyError "name"), [1]).
Proof.
  apply (nameless_artifact_raises sample_nameless 0 2
           [("archive_download_url", VStr "https://api.github.com/zip/1")]).
  - intros p [].
  - reflexivity.
  - right. left. reflexivity.
  - reflexivity.
  - lia.
Defined.
